(** * Verification of [scenario/post_processing/utils/visualization.py]

    The module has two functions: [get_sorted_files], which lists the
    files of a directory that carry a given extension and orders them
    by the integer at the end of their stem, and
    [create_movie_from_vtk], which renders a sample of those files to
    still images and hands the images to a video encoder.

    The embedding is shallow.  Python [str] values are Rocq [string]s
    (sequences of 8-bit characters, so file names are taken to be
    ASCII), Python [int]s are [Z], list positions are [nat].  The
    file system, pyvista, moviepy and tempfile are an environment of
    oracles that say what each collaborator returns and whether it
    raises; the calls made are recorded in a trace, and the resources
    the function holds (the plotter, the temporary directory, the
    files written) are part of the state that is threaded through. *)

From Stdlib Require Import ZArith QArith List String Ascii Bool Arith Lia.
From Stdlib Require Import Permutation Sorted.
Import ListNotations.

Local Close Scope Q_scope.
Local Open Scope string_scope.
Local Open Scope list_scope.

Set Implicit Arguments.
Set Warnings "-abstract-large-number".

(** ** Python strings *)

Module PyStr.

(** [s.startswith(c)] for a one-character [c]. *)
Definition starts_with (c : ascii) (s : string) : bool :=
  match s with
  | EmptyString => false
  | String a _ => Ascii.eqb a c
  end.

(** [s.endswith(c)] for a one-character [c]. *)
Fixpoint ends_with (c : ascii) (s : string) : bool :=
  match s with
  | EmptyString => false
  | String a EmptyString => Ascii.eqb a c
  | String _ s' => ends_with c s'
  end.

(** [s.rfind(c)]: position of the last occurrence of [c]; [None]
    stands for Python's -1. *)
Fixpoint rfind (c : ascii) (s : string) : option nat :=
  match s with
  | EmptyString => None
  | String a s' =>
      match rfind c s' with
      | Some i => Some (S i)
      | None => if Ascii.eqb a c then Some 0 else None
      end
  end.

(** [s[i:]] and [s[:i]]. *)
Fixpoint drop (i : nat) (s : string) : string :=
  match i, s with
  | 0, _ => s
  | S _, EmptyString => EmptyString
  | S j, String _ s' => drop j s'
  end.

Fixpoint take (i : nat) (s : string) : string :=
  match i, s with
  | 0, _ => EmptyString
  | S _, EmptyString => EmptyString
  | S j, String a s' => String a (take j s')
  end.

Fixpoint rev_onto (acc s : string) : string :=
  match s with
  | EmptyString => acc
  | String a s' => rev_onto (String a acc) s'
  end.

Definition rev (s : string) : string := rev_onto EmptyString s.

(** [s.split(sep)] for a non-empty [sep]: scan from the left, cut at
    every occurrence of [sep] that does not overlap the previous one.
    [skip] counts the characters of a matched separator still to be
    passed over, [cur] is the current piece, reversed. *)
Fixpoint split_go (sep : string) (skip : nat) (cur : string) (s : string)
  : list string :=
  match s with
  | EmptyString => [rev cur]
  | String a s' =>
      match skip with
      | S k => split_go sep k cur s'
      | 0 =>
          if prefix sep s
          then rev cur :: split_go sep (String.length sep - 1) EmptyString s'
          else split_go sep 0 (String a cur) s'
      end
  end.

(** [s.split(sep)]; an empty separator raises [ValueError]. *)
Definition split (sep s : string) : option (list string) :=
  match sep with
  | EmptyString => None
  | _ => Some (split_go sep 0 EmptyString s)
  end.

(** [l[-1]]; [IndexError] on an empty list. *)
Definition last_item (l : list string) : option string :=
  match l with
  | [] => None
  | x :: t => Some (List.last t x)
  end.

(** The characters [int] skips around a literal: space, \t, \n, \v,
    \f, \r. *)
Definition is_space (c : ascii) : bool :=
  let n := nat_of_ascii c in
  Nat.eqb n 32 || (Nat.leb 9 n && Nat.leb n 13).

Definition digit_value (c : ascii) : option Z :=
  let n := nat_of_ascii c in
  if Nat.leb 48 n && Nat.leb n 57 then Some (Z.of_nat (n - 48)) else None.

Fixpoint lstrip (s : string) : string :=
  match s with
  | String a s' => if is_space a then lstrip s' else s
  | EmptyString => EmptyString
  end.

Fixpoint all_space (s : string) : bool :=
  match s with
  | EmptyString => true
  | String a s' => is_space a && all_space s'
  end.

Inductive int_state := IntStart | IntDigit | IntUnderscore.

(** The body of a base-10 literal: digits, single underscores between
    digits, then optional trailing white space. *)
Fixpoint int_body (acc : Z) (st : int_state) (s : string) : option Z :=
  match s with
  | EmptyString =>
      match st with IntDigit => Some acc | _ => None end
  | String c s' =>
      match digit_value c with
      | Some d => int_body (10 * acc + d) IntDigit s'
      | None =>
          match st with
          | IntDigit =>
              if Ascii.eqb c "_" then int_body acc IntUnderscore s'
              else if is_space c && all_space s' then Some acc
              else None
          | _ => None
          end
      end
  end.

(** [int(s)] for a [str] argument, base 10; [None] is [ValueError].
    This is [int] on the strings whose characters are all ASCII: the
    digits are [0] to [9] and the white space is the space and the
    characters 9 to 13.  On other strings Python also takes the
    Unicode decimal digits and the Unicode white space, which are not
    modelled; what is proved of a rejected segment is proved of the
    segments that satisfy [is_ascii]. *)
Definition int (s : string) : option Z :=
  match lstrip s with
  | String "-" r => option_map Z.opp (int_body 0 IntStart r)
  | String "+" r => int_body 0 IntStart r
  | r => int_body 0 IntStart r
  end.

(** [s.isascii()]: every character of [s] is below 128. *)
Fixpoint is_ascii (s : string) : bool :=
  match s with
  | EmptyString => true
  | String a s' => Nat.ltb (nat_of_ascii a) 128 && is_ascii s'
  end.

Definition digit_char (d : nat) : string :=
  String (ascii_of_nat (48 + d)) EmptyString.

(** [str(n)] for a non-negative [int]: its decimal digits. *)
Fixpoint str_fuel (fuel n : nat) : string :=
  match fuel with
  | 0 => EmptyString
  | S f =>
      if (n <? 10)%nat then digit_char n
      else str_fuel f (n / 10) ++ digit_char (n mod 10)
  end.

Definition str (n : nat) : string := str_fuel (S n) n.

Fixpoint zeros (k : nat) : string :=
  match k with
  | 0 => EmptyString
  | S k' => String "0" (zeros k')
  end.

(** [s.zfill(width)]: pad with zeros on the left, after a sign if
    there is one; a string that is already wide enough is returned as
    it is. *)
Definition zfill (width : nat) (s : string) : string :=
  if (width <=? String.length s)%nat then s
  else
    let pad := zeros (width - String.length s) in
    match s with
    | String c r =>
        if Ascii.eqb c "+" || Ascii.eqb c "-" then String c (pad ++ r)
        else pad ++ s
    | EmptyString => pad
    end.

(** Alphabetical order: comparison of the character sequences. *)
Definition lt (a b : string) : Prop := String.compare a b = Lt.

End PyStr.

(** ** Paths: [os.path] and [pathlib] on POSIX *)

Module PyPath.

Definition sep : ascii := "/".

(** [os.path.join(a, b)]. *)
Definition join (a b : string) : string :=
  if PyStr.starts_with sep b then b
  else if (a =? "") || PyStr.ends_with sep a then a ++ b
  else a ++ String sep b.

(** [os.path.isabs]. *)
Definition isabs (p : string) : bool := PyStr.starts_with sep p.

(** [pathlib.Path(p).name] for a path whose last component is a plain
    file name, as the paths of directory entries are: what follows the
    last separator. *)
Definition name (p : string) : string :=
  match PyStr.rfind sep p with
  | Some i => PyStr.drop (S i) p
  | None => p
  end.

(** [pathlib.Path(p).suffix]:
    [i = name.rfind('.'); name[i:] if 0 < i < len(name) - 1 else ''] *)
Definition suffix (p : string) : string :=
  let n := name p in
  match PyStr.rfind "." n with
  | Some i =>
      if ((0 <? i) && (i <? String.length n - 1))%nat then PyStr.drop i n
      else EmptyString
  | None => EmptyString
  end.

(** [pathlib.Path(p).stem]:
    [name[:i] if 0 < i < len(name) - 1 else name] *)
Definition stem (p : string) : string :=
  let n := name p in
  match PyStr.rfind "." n with
  | Some i =>
      if ((0 <? i) && (i <? String.length n - 1))%nat then PyStr.take i n
      else n
  | None => n
  end.

End PyPath.

(** ** Exceptions, results and the values passed around *)

(** The external calls of the module.  Each one can raise. *)
Inductive collaborator :=
| Scandir | StartXvfb | NewPlotter | SetCamera | MkTemp
| ReadMesh | AddMesh | Screenshot | Encode | WriteVideo.

Inductive exn :=
| IOError (msg : string)
| ValueError
| IndexError
| ZeroDivisionError
| CollaboratorError (c : collaborator).

Inductive result (A : Type) :=
| Ok (a : A)
| Raise (e : exn).

Arguments Ok {A} a.
Arguments Raise {A} e.

(** An [os.DirEntry]: [path] is [os.path.join(scandir_path, name)]. *)
Record DirEntry := { de_name : string; de_path : string }.

(** The [camera] argument, in the three shapes the docstring lists;
    the numbers are handed to pyvista unread. *)
Inductive Camera :=
| CameraUnset
| CameraTriple (position focal_point view_up : Q * Q * Q)
| CameraVector (view : Q * Q * Q)
| CameraPlane (plane : string).

(** The arguments that are passed through to [plt.add_mesh]. *)
Record Style := {
  scalars : option string;
  scalar_limits : option (list Q);
  color : string;
  cmap : option string
}.

Inductive event :=
| EvStartXvfb
| EvBackground (c : string)
| EvExists (p : string)
| EvScandir (p : string)
| EvNewPlotter
| EvSetCamera (c : Camera)
| EvMkTemp
| EvReadMesh (p : string)
| EvAddMesh (mesh : string) (actor : string) (st : Style)
| EvScreenshot (p : string)
| EvClosePlotter
| EvEncode (frames : list string) (fps : Z)
| EvWriteVideo (p : string)
| EvCleanup (d : string).

(** What the world answers.  [listdir] gives the names [os.scandir]
    yields, in the order it yields them; [None] means that the call
    raises.  The [_ok] oracles say whether a collaborator returns. *)
Record Env := {
  path_exists : string -> bool;
  listdir : string -> option (list string);
  xvfb_ok : bool;
  plotter_ok : bool;
  camera_ok : Camera -> bool;
  mkdtemp : option string;
  read_ok : string -> bool;
  add_mesh_ok : string -> bool;
  screenshot_ok : string -> bool;
  encode_ok : list string -> Z -> bool;
  write_ok : string -> bool
}.

(** What the call changes: the calls made so far, whether the plotter
    is open, the temporary directories that exist and the files
    written. *)
Record State := {
  trace : list event;
  plotter_open : bool;
  tmp_dirs : list string;
  disk : list string
}.

Definition init_state : State :=
  {| trace := []; plotter_open := false; tmp_dirs := []; disk := [] |}.

(** ** The monad: state, with exceptions that keep the state *)

Definition M (A : Type) : Type := State -> result A * State.

Definition ret {A} (a : A) : M A := fun s => (Ok a, s).

Definition raise {A} (e : exn) : M A := fun s => (Raise e, s).

Definition bind {A B} (m : M A) (f : A -> M B) : M B :=
  fun s =>
    match m s with
    | (Ok a, s') => f a s'
    | (Raise e, s') => (Raise e, s')
    end.

Definition lift {A} (r : result A) : M A := fun s => (r, s).

Declare Scope py_scope.
Delimit Scope py_scope with py.
Notation "x <- m ;; k" := (bind m (fun x => k))
  (at level 100, m at next level, right associativity) : py_scope.
Notation "m ;; k" := (bind m (fun _ => k))
  (at level 100, right associativity) : py_scope.
Local Open Scope py_scope.

Definition log (e : event) (s : State) : State :=
  {| trace := trace s ++ [e]; plotter_open := plotter_open s;
     tmp_dirs := tmp_dirs s; disk := disk s |}.

(** A call that is recorded and then returns or raises. *)
Definition call (e : event) (c : collaborator) (ok : bool) : M unit :=
  fun s => (if ok then Ok tt else Raise (CollaboratorError c), log e s).

(** ** Integer and float arithmetic of the sampling test *)

(** Rounding of the non-negative rational [a / b] ([0 <= a], [0 < b])
    to the nearest integer, a tie going to the even neighbour. *)
Definition round_pos (a b : Z) : Z :=
  let q := (a / b)%Z in
  match (2 * (a mod b) ?= b)%Z with
  | Lt => q
  | Gt => (q + 1)%Z
  | Eq => if Z.even q then q else (q + 1)%Z
  end.

(** The same for a rational of either sign: the magnitude is rounded
    and the sign put back, as Python's [round] does. *)
Definition round_div (a b : Z) : Z :=
  (Z.sgn a * Z.sgn b * round_pos (Z.abs a) (Z.abs b))%Z.

(** A binary64 value, as the dyadic rational [mant / 2 ^ scale]. *)
Record float := { mant : Z; scale : Z }.

(** The scale [e] at which [a / b] has a 53-bit significand,
    [2^52 <= a * 2^e / b < 2^53], and at most 1074, the scale of the
    subnormal numbers ([0 < a], [0 < b]). *)
Definition binary64_scale (a b : Z) : Z :=
  let e0 := (53 + Z.log2 b - Z.log2 a)%Z in
  let e1 := if (2 ^ 53 * b <=? a * 2 ^ e0)%Z then (e0 - 1)%Z else e0 in
  Z.min 1074 e1.

(** [a / b] on two [int]s, [b <> 0], with a quotient below [2^53] in
    magnitude: the binary64 value nearest to the exact quotient, ties
    to even. *)
Definition true_divide (a b : Z) : float :=
  if (a =? 0)%Z then {| mant := 0; scale := 0 |}
  else
    let e := binary64_scale (Z.abs a) (Z.abs b) in
    {| mant := Z.sgn a * Z.sgn b * round_pos (Z.abs a * 2 ^ e) (Z.abs b);
       scale := e |}.

(** [int(round(x))] for a float [x]. *)
Definition py_round (x : float) : Z :=
  (Z.sgn (mant x) * round_pos (Z.abs (mant x)) (2 ^ scale x))%Z.

(** [int(round(60 / fps))]. *)
Definition sampling_stride (fps : Z) : result Z :=
  if (fps =? 0)%Z then Raise ZeroDivisionError
  else Ok (py_round (true_divide 60 fps)).

(** Rounding the binary64 quotient [60 / b] gives what rounding the
    exact quotient gives. *)
Definition stride_agrees (b : Z) : bool :=
  (round_pos (round_pos (60 * 2 ^ binary64_scale 60 b) b) (2 ^ binary64_scale 60 b)
   =? round_pos 60 b)%Z.

(** [a % b] on two [int]s. *)
Definition py_mod (a b : Z) : result Z :=
  if (b =? 0)%Z then Raise ZeroDivisionError else Ok (a mod b)%Z.

(** [enumerate(l)]. *)
Definition enumerate {A} (l : list A) : list (nat * A) :=
  combine (seq 0 (List.length l)) l.

(** ** [sorted(files, key=...)] *)

Section Sorted.

Variable A : Type.
Variable key : A -> result Z.

(** The keys are computed first, one call per item and in order; the
    first call that raises ends the sort. *)
Fixpoint decorate (l : list A) : result (list (Z * A)) :=
  match l with
  | [] => Ok []
  | x :: t =>
      match key x with
      | Raise e => Raise e
      | Ok k =>
          match decorate t with
          | Raise e => Raise e
          | Ok kt => Ok ((k, x) :: kt)
          end
      end
  end.

(** Python's sort is stable, and a stable sort has one possible
    result; it is computed here by insertion from the right, an item
    going in front of the items that follow it and have the same
    key. *)
Fixpoint insert_key (x : Z * A) (l : list (Z * A)) : list (Z * A) :=
  match l with
  | [] => [x]
  | y :: t =>
      if (fst x <=? fst y)%Z then x :: y :: t else y :: insert_key x t
  end.

Fixpoint stable_sort (l : list (Z * A)) : list (Z * A) :=
  match l with
  | [] => []
  | x :: t => insert_key x (stable_sort t)
  end.

Definition sorted (l : list A) : result (list A) :=
  match decorate l with
  | Raise e => Raise e
  | Ok kl => Ok (map snd (stable_sort kl))
  end.

End Sorted.

(** A decorated item carries the key of its item. *)
Definition keyed {A} (key : A -> result Z) (p : Z * A) : Prop :=
  key (snd p) = Ok (fst p).

(** The order on decorated items, and the items that carry key [k]. *)
Definition key_le {A} (x y : Z * A) : Prop := (fst x <= fst y)%Z.
Definition key_lt {A} (x y : Z * A) : Prop := (fst x < fst y)%Z.
Definition has_key {A} (k : Z) (x : Z * A) : bool := (fst x =? k)%Z.

(** The items whose key is computed and is [k]. *)
Definition key_is {A} (key : A -> result Z) (k : Z) (x : A) : bool :=
  match key x with
  | Ok k' => (k' =? k)%Z
  | Raise _ => false
  end.

(** The keys of [l] are all computed and go strictly up. *)
Definition strictly_ascending {A} (key : A -> result Z) (l : list A) : Prop :=
  exists keys, map key l = map (@Ok Z) keys /\ StronglySorted Z.lt keys.

(** The name of the still image of the snapshot at position [index]:
    ["frame_" + str(index).zfill(5) + ".png"]. *)
Definition frame_name (index : nat) : string :=
  "frame_" ++ PyStr.zfill 5 (PyStr.str index) ++ ".png".

(** ** [get_sorted_files] *)

(** The entry [os.scandir(d)] yields for the name [n]. *)
Definition entry (d n : string) : DirEntry :=
  {| de_name := n; de_path := PyPath.join d n |}.

Section Program.

Variable env : Env.

Definition os_path_exists (p : string) : M bool :=
  fun s => (Ok (path_exists env p), log (EvExists p) s).

Definition os_scandir (p : string) : M (list DirEntry) :=
  fun s =>
    (match listdir env p with
     | None => Raise (CollaboratorError Scandir)
     | Some names =>
         Ok (map (entry p) names)
     end, log (EvScandir p) s).

Definition get_alphanum_key (split_token : string) (file : DirEntry) : result Z :=
  let file_name := PyPath.stem (de_path file) in
  match PyStr.split split_token file_name with
  | None => Raise ValueError
  | Some file_name_splits =>
      match PyStr.last_item file_name_splits with
      | None => Raise IndexError
      | Some file_key =>
          match PyStr.int file_key with
          | None => Raise ValueError
          | Some k => Ok k
          end
      end
  end.

Definition has_format (file_format : string) (file : DirEntry) : bool :=
  PyPath.suffix (de_path file) =? file_format.

Definition get_sorted_files (data_dir file_format split_token : string)
  : M (list DirEntry) :=
  found <- os_path_exists data_dir ;;
  if negb found then
    raise (IOError ("Directory '" ++ data_dir ++ "' does not exist."))
  else
    files <- os_scandir data_dir ;;
    let files := filter (has_format file_format) files in
    lift (sorted (get_alphanum_key split_token) files).

(** ** [create_movie_from_vtk] *)

Definition pv_start_xvfb : M unit := call EvStartXvfb StartXvfb (xvfb_ok env).

Definition pv_set_background (c : string) : M unit :=
  fun s => (Ok tt, log (EvBackground c) s).

(** [pv.Plotter(off_screen=True)]: the surface is held from the moment
    the constructor returns. *)
Definition pv_Plotter : M unit :=
  fun s =>
    if plotter_ok env then
      (Ok tt, {| trace := trace s ++ [EvNewPlotter]; plotter_open := true;
                 tmp_dirs := tmp_dirs s; disk := disk s |})
    else (Raise (CollaboratorError NewPlotter), log EvNewPlotter s).

Definition plt_set_camera (c : Camera) : M unit :=
  call (EvSetCamera c) SetCamera (camera_ok env c).

(** [pv.read(path)]; the mesh is known by the path it was read from. *)
Definition pv_read (path : string) : M string :=
  fun s =>
    (if read_ok env path then Ok path else Raise (CollaboratorError ReadMesh),
     log (EvReadMesh path) s).

Definition plt_add_mesh (mesh actor : string) (st : Style) : M unit :=
  call (EvAddMesh mesh actor st) AddMesh (add_mesh_ok env mesh).

(** [plt.screenshot(path, return_img=False)] writes the image.  A
    call that raises may have left a file behind, and is taken to
    have. *)
Definition plt_screenshot (path : string) : M unit :=
  fun s =>
    (if screenshot_ok env path then Ok tt
     else Raise (CollaboratorError Screenshot),
     {| trace := trace s ++ [EvScreenshot path];
        plotter_open := plotter_open s;
        tmp_dirs := tmp_dirs s; disk := disk s ++ [path] |}).

Definition plt_close : M unit :=
  fun s =>
    (Ok tt, {| trace := trace s ++ [EvClosePlotter]; plotter_open := false;
               tmp_dirs := tmp_dirs s; disk := disk s |}).

Definition ImageSequenceClip (frames : list string) (fps : Z) : M unit :=
  call (EvEncode frames fps) Encode (encode_ok env frames fps).

Definition write_videofile (movie_path : string) : M unit :=
  fun s =>
    if write_ok env movie_path then
      (Ok tt, {| trace := trace s ++ [EvWriteVideo movie_path];
                 plotter_open := plotter_open s;
                 tmp_dirs := tmp_dirs s; disk := disk s ++ [movie_path] |})
    else (Raise (CollaboratorError WriteVideo), log (EvWriteVideo movie_path) s).

(** A file is inside directory [d] when its path extends [d] and a
    separator. *)
Definition inside (d p : string) : bool := prefix (PyPath.join d "") p.

(** What leaving the [with] block does: the directory and all it
    holds are removed. *)
Definition cleanup (d : string) (s : State) : State :=
  {| trace := trace s ++ [EvCleanup d];
     plotter_open := plotter_open s;
     tmp_dirs := List.remove string_dec d (tmp_dirs s);
     disk := filter (fun p => negb (inside d p)) (disk s) |}.

(** [with tempfile.TemporaryDirectory() as tmp_dir: body]: the block
    is left through [cleanup] whether [body] returns or raises. *)
Definition with_TemporaryDirectory {A} (body : string -> M A) : M A :=
  fun s =>
    match mkdtemp env with
    | None => (Raise (CollaboratorError MkTemp), log EvMkTemp s)
    | Some d =>
        let s1 := {| trace := trace s ++ [EvMkTemp];
                     plotter_open := plotter_open s;
                     tmp_dirs := d :: tmp_dirs s; disk := disk s |} in
        let (r, s2) := body d s1 in
        (r, cleanup d s2)
    end.

Section Render.

Variables vtk_output_dir movie_path : string.
Variable virtual_display : bool.
Variable style : Style.
Variable camera : Camera.
Variable fps : Z.

Definition frame_path_of (frame_file : DirEntry) : string :=
  PyPath.join vtk_output_dir (de_path frame_file).

Definition image_frame_path_of (tmp_dir : string) (index : nat) : string :=
  PyPath.join tmp_dir (frame_name index).

(** The body of the [for] loop, over what is left of
    [enumerate(vtk_files)]; [frames] is the list the loop appends
    to. *)
Fixpoint frame_loop (tmp_dir : string) (items : list (nat * DirEntry))
    (frames : list string) : M (list string) :=
  match items with
  | [] => ret frames
  | (index, frame_file) :: rest =>
      stride <- lift (sampling_stride fps) ;;
      m <- lift (py_mod (Z.of_nat index) stride) ;;
      if (m =? 0)%Z then
        let frame_path := frame_path_of frame_file in
        let image_frame_path := image_frame_path_of tmp_dir index in
        mesh <- pv_read frame_path ;;
        plt_add_mesh mesh "fluid_block_snapshot" style ;;
        plt_screenshot image_frame_path ;;
        frame_loop tmp_dir rest (frames ++ [image_frame_path])
      else frame_loop tmp_dir rest frames
  end.

Definition create_movie_from_vtk : M unit :=
  (if virtual_display then pv_start_xvfb else ret tt) ;;
  pv_set_background "white" ;;
  vtk_files <- get_sorted_files vtk_output_dir ".vtk" "_" ;;
  pv_Plotter ;;
  plt_set_camera camera ;;
  with_TemporaryDirectory (fun tmp_dir =>
    frames <- frame_loop tmp_dir (enumerate vtk_files) [] ;;
    plt_close ;;
    ImageSequenceClip frames fps ;;
    write_videofile movie_path).

End Render.

End Program.

(** ** What a run shows *)

(** The paths given to [pv.read], to [plt.screenshot] and the
    arguments given to the encoder, in the order of the calls, and the
    number of times the plotter was closed. *)
Definition read_paths (tr : list event) : list string :=
  flat_map (fun e => match e with EvReadMesh p => [p] | _ => [] end) tr.

Definition screenshot_paths (tr : list event) : list string :=
  flat_map (fun e => match e with EvScreenshot p => [p] | _ => [] end) tr.

Definition encoder_calls (tr : list event) : list (list string * Z) :=
  flat_map (fun e => match e with EvEncode fr f => [(fr, f)] | _ => [] end) tr.

Definition close_calls (tr : list event) : nat :=
  List.length (filter (fun e => match e with EvClosePlotter => true | _ => false end) tr).

(** The calls made to render frames (the reads, the [add_mesh] calls
    and the screenshots of a trace), in the order of the calls. *)
Definition frame_calls (tr : list event) : list event :=
  filter (fun e => match e with
                   | EvReadMesh _ | EvAddMesh _ _ _ | EvScreenshot _ => true
                   | _ => false
                   end) tr.

(** The sampling test of the loop, where it can be evaluated. *)
Definition is_sampled (fps : Z) (index : nat) : bool :=
  match sampling_stride fps with
  | Ok stride =>
      match py_mod (Z.of_nat index) stride with
      | Ok m => (m =? 0)%Z
      | Raise _ => false
      end
  | Raise _ => false
  end.

Definition sampled (fps : Z) (items : list (nat * DirEntry)) : list (nat * DirEntry) :=
  filter (fun it => is_sampled fps (fst it)) items.

(** The three calls the loop makes for a sampled item. *)
Definition frame_events (vtk_output_dir : string) (style : Style) (tmp_dir : string)
    (it : nat * DirEntry) : list event :=
  [EvReadMesh (frame_path_of vtk_output_dir (snd it));
   EvAddMesh (frame_path_of vtk_output_dir (snd it)) "fluid_block_snapshot" style;
   EvScreenshot (image_frame_path_of tmp_dir (fst it))].

(** The state after the three calls made for a sampled item. *)
Definition rendered (vtk_output_dir : string) (style : Style) (tmp_dir : string)
    (it : nat * DirEntry) (s : State) : State :=
  {| trace := trace s ++ frame_events vtk_output_dir style tmp_dir it;
     plotter_open := plotter_open s;
     tmp_dirs := tmp_dirs s;
     disk := disk s ++ [image_frame_path_of tmp_dir (fst it)] |}.

(** The events the loop can add to the trace. *)
Definition loop_event (vtk_output_dir tmp_dir : string)
    (items : list (nat * DirEntry)) (e : event) : Prop :=
  match e with
  | EvReadMesh p =>
      exists it, In it items /\ p = frame_path_of vtk_output_dir (snd it)
  | EvAddMesh _ _ _ => True
  | EvScreenshot p => inside tmp_dir p = true
  | _ => False
  end.

(** The calls made before the loop when nothing raises. *)
Definition prelude (vtk_output_dir : string) (virtual_display : bool)
    (camera : Camera) : list event :=
  (if virtual_display then [EvStartXvfb] else []) ++
  [EvBackground "white"; EvExists vtk_output_dir; EvScandir vtk_output_dir;
   EvNewPlotter; EvSetCamera camera; EvMkTemp].

(** The state in which the loop starts, in a run from [init_state]. *)
Definition loop_start (vtk_output_dir : string) (virtual_display : bool)
    (camera : Camera) (tmp_dir : string) : State :=
  {| trace := prelude vtk_output_dir virtual_display camera;
     plotter_open := true;
     tmp_dirs := [tmp_dir];
     disk := [] |}.

(** Whether a run reaches the loop, and then with which files and
    which temporary directory. *)
Definition set_up (env : Env) (vtk_output_dir : string) (virtual_display : bool)
    (camera : Camera) : option (list DirEntry * string) :=
  if (negb virtual_display || xvfb_ok env) && path_exists env vtk_output_dir then
    match listdir env vtk_output_dir with
    | Some names =>
        match sorted (get_alphanum_key "_")
                (filter (has_format ".vtk") (map (entry vtk_output_dir) names)) with
        | Ok vtk_files =>
            if plotter_ok env && camera_ok env camera then
              match mkdtemp env with
              | Some tmp_dir => Some (vtk_files, tmp_dir)
              | None => None
              end
            else None
        | Raise _ => None
        end
    | None => None
    end
  else None.

(** What follows the loop, up to the exit from the [with] block. *)
Definition after_loop (env : Env) (movie_path : string) (fps : Z) (tmp_dir : string)
    (rs : result (list string) * State) : result unit * State :=
  match rs with
  | (Raise e, s) => (Raise e, cleanup tmp_dir s)
  | (Ok frames, s) =>
      let s1 := log (EvEncode frames fps)
                  {| trace := trace s ++ [EvClosePlotter]; plotter_open := false;
                     tmp_dirs := tmp_dirs s; disk := disk s |} in
      if encode_ok env frames fps then
        if write_ok env movie_path then
          (Ok tt,
           cleanup tmp_dir
             {| trace := trace s1 ++ [EvWriteVideo movie_path];
                plotter_open := plotter_open s1;
                tmp_dirs := tmp_dirs s1; disk := disk s1 ++ [movie_path] |})
        else
          (Raise (CollaboratorError WriteVideo),
           cleanup tmp_dir (log (EvWriteVideo movie_path) s1))
      else (Raise (CollaboratorError Encode), cleanup tmp_dir s1)
  end.

(** The exceptions of a run that ends before the plotter is made. *)
Definition raised_before_plotter (e : exn) : Prop :=
  match e with
  | IOError _ | ValueError
  | CollaboratorError StartXvfb | CollaboratorError Scandir
  | CollaboratorError NewPlotter => True
  | _ => False
  end.

(** A non-empty string that does not start with a sign. *)
Definition unsigned (s : string) : Prop :=
  exists c r, s = String c r /\ Ascii.eqb c "+" || Ascii.eqb c "-" = false.

(** The decimal digits of [n] in a field of [k] characters. *)
Fixpoint digits (k n : nat) : string :=
  match k with
  | 0 => EmptyString
  | S k' => digits k' (n / 10) ++ PyStr.digit_char (n mod 10)
  end.

(** ** Worlds used in the examples *)

Definition plain_style : Style :=
  {| scalars := None; scalar_limits := None; color := "blue"; cmap := None |}.

(** A world in which [dir] exists and holds [names], every
    collaborator returns, and the temporary directory is
    [/tmp/tmpq3x9]. *)
Definition world (dir : string) (names : list string) : Env :=
  {| path_exists := fun p => p =? dir;
     listdir := fun p => if p =? dir then Some names else None;
     xvfb_ok := true;
     plotter_ok := true;
     camera_ok := fun _ => true;
     mkdtemp := Some "/tmp/tmpq3x9";
     read_ok := fun _ => true;
     add_mesh_ok := fun _ => true;
     screenshot_ok := fun _ => true;
     encode_ok := fun _ _ => true;
     write_ok := fun _ => true |}.

(** The same world, but the mesh reader raises on every file. *)
Definition world_unreadable (dir : string) (names : list string) : Env :=
  {| path_exists := fun p => p =? dir;
     listdir := fun p => if p =? dir then Some names else None;
     xvfb_ok := true;
     plotter_ok := true;
     camera_ok := fun _ => true;
     mkdtemp := Some "/tmp/tmpq3x9";
     read_ok := fun _ => false;
     add_mesh_ok := fun _ => true;
     screenshot_ok := fun _ => true;
     encode_ok := fun _ _ => true;
     write_ok := fun _ => true |}.

(** The [n] names [f_0.vtk], ..., [f_(n-1).vtk]. *)
Definition numbered (n : nat) : list string :=
  map (fun i => ("f_" ++ PyStr.str i ++ ".vtk")%string) (seq 0 n).

(** ** Definitions for the further properties *)

(** [c in s]. *)
Fixpoint occurs (c : ascii) (s : string) : bool :=
  match s with
  | EmptyString => false
  | String a s' => Ascii.eqb a c || occurs c s'
  end.

(** The string of the one character [c]. *)
Definition one (c : ascii) : string := String c EmptyString.

(** A file name [<prefix><token><index>.<ext>], the index in decimal
    after [k] zeros. *)
Definition indexed_name (pre : string) (c : ascii) (k i : nat) (e : string) : string :=
  pre ++ String c (PyStr.zeros k ++ PyStr.str i) ++ String "." e.

(** The names [<prefix>_0.vtk], ..., [<prefix>_(n-1).vtk]. *)
Definition series (pre : string) (n : nat) : list string :=
  map (fun i => indexed_name pre "_" 0 i "vtk") (seq 0 n).

(** The arguments given to [plt.add_mesh] and to the camera setter, in
    the order of the calls. *)
Definition add_mesh_calls (tr : list event) : list (string * string * Style) :=
  flat_map (fun e => match e with EvAddMesh m a st => [(m, a, st)] | _ => [] end) tr.

Definition camera_calls (tr : list event) : list Camera :=
  flat_map (fun e => match e with EvSetCamera c => [c] | _ => [] end) tr.

(** * Properties *)

Example split_ex1 :
  PyStr.split "_" "fluid_block_12" = Some ["fluid"; "block"; "12"].
Proof. reflexivity. Qed.
Example split_ex2 : PyStr.split "__" "a___b__" = Some ["a"; "_b"; ""].
Proof. reflexivity. Qed.
Example int_ex1 : PyStr.int " +0012 " = Some 12%Z.
Proof. reflexivity. Qed.
Example int_ex2 :
  PyStr.int "abc" = None /\ PyStr.int "" = None /\ PyStr.int "1__0" = None /\
  PyStr.int "1_0" = Some 10%Z /\ PyStr.int "-7" = Some (-7)%Z /\
  PyStr.int "- 7" = None.
Proof. repeat split. Qed.
Example suffix_ex :
  PyPath.suffix "out/f_10.vtk" = ".vtk" /\ PyPath.stem "out/f_10.vtk" = "f_10" /\
  PyPath.suffix "out/.vtk" = "" /\ PyPath.suffix "out/a.b.vtk" = ".vtk" /\
  PyPath.suffix "out/a." = "".
Proof. repeat split. Qed.
Example zfill_ex :
  PyStr.zfill 5 (PyStr.str 96) = "00096" /\
  PyStr.zfill 5 (PyStr.str 100002) = "100002".
Proof. split; vm_compute; reflexivity. Qed.

(** ** The sampling stride *)

Section Stride.

Local Open Scope Z_scope.

Lemma round_pos_nonneg a b : 0 <= a -> 0 < b -> 0 <= round_pos a b.
Proof.
  intros Ha Hb. unfold round_pos.
  assert (0 <= a / b) by (apply Z.div_pos; lia).
  destruct (2 * (a mod b) ?= b); try lia.
  destruct (Z.even (a / b)); lia.
Qed.

Lemma round_pos_below a b n : 0 < b -> a < n * b -> round_pos a b <= n.
Proof.
  intros Hb Hlt. unfold round_pos.
  assert (a / b < n) by (apply Z.div_lt_upper_bound; lia).
  destruct (2 * (a mod b) ?= b); try lia.
  destruct (Z.even (a / b)); lia.
Qed.

(** A quotient of at most one half rounds to zero. *)
Lemma round_pos_small a b : 0 <= a -> 2 * a <= b -> 0 < b -> round_pos a b = 0.
Proof.
  intros Ha Hab Hb. unfold round_pos.
  assert (a < b) by lia.
  rewrite Z.div_small, Z.mod_small by lia.
  destruct (Z.compare_spec (2 * a) b); try reflexivity; lia.
Qed.

Lemma binary64_scale_pos b : 0 < b -> 1 <= binary64_scale 60 b.
Proof.
  intros Hb. unfold binary64_scale.
  pose proof (Z.log2_nonneg b) as Hl.
  change (Z.log2 60) with 5.
  destruct (2 ^ 53 * b <=? 60 * 2 ^ (53 + Z.log2 b - 5)); lia.
Qed.

(** Up to 120 the two roundings are compared one by one. *)
Lemma stride_agrees_small : forallb stride_agrees (map Z.of_nat (seq 1 120)) = true.
Proof. vm_compute. reflexivity. Qed.

(** Above 120 the exact quotient is below one half, the binary64
    quotient is at most one half, and both round to zero. *)
Lemma stride_agrees_all b : 0 < b -> stride_agrees b = true.
Proof.
  intros Hb. destruct (Z_le_gt_dec b 120) as [Hs | Hl].
  - pose proof stride_agrees_small as H.
    rewrite forallb_forall in H. apply H.
    apply in_map_iff. exists (Z.to_nat b). split; [lia |].
    apply in_seq. lia.
  - unfold stride_agrees. apply Z.eqb_eq.
    pose proof (binary64_scale_pos Hb) as He.
    set (e := binary64_scale 60 b) in *.
    assert (Hp : 0 < 2 ^ (e - 1)) by (apply Z.pow_pos_nonneg; lia).
    assert (H2 : 2 ^ e = 2 * 2 ^ (e - 1)).
    { replace e with (Z.succ (e - 1)) at 1 by lia. apply Z.pow_succ_r. lia. }
    rewrite (@round_pos_small 60 b) by lia.
    apply round_pos_small.
    + apply round_pos_nonneg; lia.
    + rewrite H2 at 2. apply Z.mul_le_mono_nonneg_l; [lia |].
      apply round_pos_below; [lia |]. rewrite H2. nia.
    + lia.
Qed.

(** [int(round(60 / fps))], computed on binary64, is the exact
    quotient rounded half to even. *)
Lemma sampling_stride_exact fps :
  fps <> 0 -> sampling_stride fps = Ok (round_div 60 fps).
Proof.
  intros Hf. unfold sampling_stride.
  destruct (Z.eqb_spec fps 0) as [| _]; [contradiction |]. f_equal.
  unfold py_round, true_divide, round_div. cbn [Z.eqb mant scale].
  change (Z.abs 60) with 60. change (Z.sgn 60) with 1.
  assert (Hb : 0 < Z.abs fps) by lia.
  pose proof (stride_agrees_all Hb) as Ha. unfold stride_agrees in Ha.
  apply Z.eqb_eq in Ha.
  set (e := binary64_scale 60 (Z.abs fps)) in *.
  set (m := round_pos (60 * 2 ^ e) (Z.abs fps)) in *.
  assert (Hm : 0 <= m) by (apply round_pos_nonneg; lia).
  rewrite <- Ha.
  destruct (Z.eq_dec m 0) as [Hz | Hnz].
  - assert (He : 0 < 2 ^ e).
    { apply Z.pow_pos_nonneg; [lia |]. pose proof (binary64_scale_pos Hb). subst e. lia. }
    rewrite Hz, !Z.mul_0_r. cbn [Z.sgn Z.abs Z.mul].
    rewrite (@round_pos_small 0 (2 ^ e)); lia.
  - rewrite Z.sgn_mul, Z.abs_mul, Z.sgn_mul.
    rewrite (Z.sgn_pos m) by lia. rewrite (Z.abs_eq m) by lia.
    rewrite Z.abs_mul. change (Z.abs 1) with 1. change (Z.sgn 1) with 1.
    replace (Z.abs (Z.sgn fps)) with 1 by (destruct fps; cbn; lia).
    replace (Z.sgn (Z.sgn fps)) with (Z.sgn fps) by (destruct fps; reflexivity).
    now rewrite !Z.mul_1_l, !Z.mul_1_r.
Qed.

(** From 120 frames per second on the stride is zero. *)
Lemma round_div_zero fps : 120 <= fps -> round_div 60 fps = 0.
Proof.
  intros H. unfold round_div. rewrite (Z.abs_eq fps) by lia.
  change (Z.abs 60) with 60. rewrite (@round_pos_small 60 fps) by lia. lia.
Qed.

End Stride.

(** The sampling test, on the exact stride. *)
Lemma is_sampled_exact fps index :
  fps <> 0%Z -> round_div 60 fps <> 0%Z ->
  is_sampled fps index = (Z.of_nat index mod round_div 60 fps =? 0)%Z.
Proof.
  intros Hf Hs. unfold is_sampled, py_mod. rewrite (sampling_stride_exact Hf).
  destruct (Z.eqb_spec (round_div 60 fps) 0); [contradiction | reflexivity].
Qed.

(** ** [enumerate] *)

Lemma combine_seq_fst (A : Type) (P : nat -> bool) (l : list A) :
  forall a,
    map fst (filter (fun it => P (fst it)) (combine (seq a (List.length l)) l))
    = filter P (seq a (List.length l)).
Proof.
  induction l as [| x l IH]; intros a; cbn; [reflexivity |].
  destruct (P a); cbn; now rewrite IH.
Qed.

Lemma sampled_positions fps (files : list DirEntry) :
  map fst (sampled fps (enumerate files))
  = filter (is_sampled fps) (seq 0 (List.length files)).
Proof. apply (combine_seq_fst (is_sampled fps)). Qed.

Lemma enumerate_snd (A : Type) (l : list A) it : In it (enumerate l) -> In (snd it) l.
Proof.
  unfold enumerate. destruct it as [i x]. intros H.
  apply in_combine_r in H. exact H.
Qed.

(** ** Facts about [sorted] *)

Section SortedFacts.

Variable A : Type.
Implicit Types (x y : Z * A) (l : list (Z * A)).


Lemma insert_key_perm x l : Permutation (insert_key x l) (x :: l).
Proof.
  induction l as [| y t IH]; cbn; [reflexivity |].
  destruct (fst x <=? fst y)%Z; [reflexivity |].
  rewrite IH. apply perm_swap.
Qed.

Lemma stable_sort_perm l : Permutation (stable_sort l) l.
Proof.
  induction l as [| x t IH]; cbn; [constructor|].
  rewrite insert_key_perm. now constructor.
Qed.

Lemma insert_key_hd x y l :
  (fst y <= fst x)%Z -> HdRel (@key_le A) y l -> HdRel (@key_le A) y (insert_key x l).
Proof.
  intros Hyx Hd. destruct l as [| z t]; cbn.
  - constructor. exact Hyx.
  - destruct (fst x <=? fst z)%Z; constructor; [exact Hyx |].
    now inversion Hd.
Qed.

Lemma insert_key_sorted x l :
  Sorted (@key_le A) l -> Sorted (@key_le A) (insert_key x l).
Proof.
  induction 1 as [| y t Hs IH Hd]; cbn.
  - repeat constructor.
  - destruct (Z.leb_spec (fst x) (fst y)) as [Hle | Hgt].
    + constructor; [now constructor |]. constructor. exact Hle.
    + constructor; [exact IH |]. apply insert_key_hd; [lia | exact Hd].
Qed.

Lemma stable_sort_sorted l : Sorted (@key_le A) (stable_sort l).
Proof.
  induction l as [| x t IH]; cbn; [constructor |].
  now apply insert_key_sorted.
Qed.

Lemma insert_key_stable k x l :
  filter (has_key k) (insert_key x l) = filter (has_key k) (x :: l).
Proof.
  induction l as [| y t IH]; [reflexivity |].
  cbn [insert_key].
  destruct (Z.leb_spec (fst x) (fst y)) as [Hle | Hgt]; [reflexivity |].
  cbn [filter] in *. rewrite IH. unfold has_key.
  destruct (Z.eqb_spec (fst y) k) as [Hy |]; [| reflexivity].
  destruct (Z.eqb_spec (fst x) k) as [Hx |]; [lia | reflexivity].
Qed.

Lemma stable_sort_stable k l :
  filter (has_key k) (stable_sort l) = filter (has_key k) l.
Proof.
  induction l as [| x t IH]; [reflexivity |].
  cbn [stable_sort]. rewrite insert_key_stable. cbn [filter]. now rewrite IH.
Qed.

Lemma key_le_lt l :
  StronglySorted (@key_le A) l -> NoDup (map fst l) -> StronglySorted (@key_lt A) l.
Proof.
  induction 1 as [| x t Hs IH Hall]; intros Hnd; [constructor |].
  cbn in Hnd. inversion Hnd as [| ? ? Hnin Hnd']; subst.
  constructor; [now apply IH |].
  rewrite Forall_forall in *. intros y Hy.
  specialize (Hall y Hy). unfold key_le, key_lt in *.
  assert (fst x <> fst y) by (intros E; apply Hnin; rewrite E; now apply in_map).
  lia.
Qed.

Lemma key_lt_unique l1 :
  forall l2, StronglySorted (@key_lt A) l1 -> StronglySorted (@key_lt A) l2 ->
  Permutation l1 l2 -> l1 = l2.
Proof.
  induction l1 as [| a t1 IH]; intros l2 H1 H2 Hp.
  - apply Permutation_nil in Hp. now subst.
  - destruct l2 as [| b t2].
    + symmetry in Hp. apply Permutation_nil in Hp. discriminate.
    + inversion H1 as [| ? ? Hs1 Ha]; inversion H2 as [| ? ? Hs2 Hb]; subst.
      rewrite Forall_forall in Ha, Hb.
      assert (Hab : a = b).
      { assert (Hin1 : In a (b :: t2)) by (eapply Permutation_in; [exact Hp | now left]).
        assert (Hin2 : In b (a :: t1))
          by (eapply Permutation_in; [symmetry; exact Hp | now left]).
        destruct Hin1 as [E | Hin1]; [now symmetry |].
        destruct Hin2 as [E | Hin2]; [exact E |].
        specialize (Ha _ Hin2). specialize (Hb _ Hin1).
        unfold key_lt in *. lia. }
      subst b. f_equal. apply IH; trivial.
      now apply Permutation_cons_inv in Hp.
Qed.

Lemma key_le_transitive : Relations_1.Transitive (@key_le A).
Proof. intros x y z. unfold key_le. lia. Qed.

Lemma stable_sort_strict l :
  NoDup (map fst l) -> StronglySorted (@key_lt A) (stable_sort l).
Proof.
  intros Hnd. apply key_le_lt.
  - apply Sorted_StronglySorted; [exact key_le_transitive | apply stable_sort_sorted].
  - eapply Permutation_NoDup; [| exact Hnd].
    apply Permutation_map. symmetry. apply stable_sort_perm.
Qed.

Lemma stable_sort_order_free l1 l2 :
  Permutation l1 l2 -> NoDup (map fst l1) -> stable_sort l1 = stable_sort l2.
Proof.
  intros Hp Hnd. apply key_lt_unique.
  - now apply stable_sort_strict.
  - apply stable_sort_strict. eapply Permutation_NoDup; [| exact Hnd].
    now apply Permutation_map.
  - rewrite !stable_sort_perm. exact Hp.
Qed.

End SortedFacts.

Section DecorateFacts.

Variable A : Type.
Variable key : A -> result Z.

(** [decorate] pairs every item with its key, or raises what the
    first failing key raises. *)
Lemma decorate_ok xs kl :
  decorate key xs = Ok kl ->
  map snd kl = xs /\ map key xs = map (@Ok Z) (map fst kl).
Proof.
  revert kl. induction xs as [| x t IH]; cbn; intros kl H.
  - injection H as <-. now split.
  - destruct (key x) as [k | e] eqn:Hk; [| discriminate].
    destruct (decorate key t) as [kt | e]; [| discriminate].
    injection H as <-. destruct (IH kt eq_refl) as [H1 H2].
    cbn. now rewrite H1, H2.
Qed.

Lemma decorate_total xs :
  (forall x, In x xs -> exists k, key x = Ok k) ->
  exists kl, decorate key xs = Ok kl.
Proof.
  induction xs as [| x t IH]; cbn; intros H; [now eexists |].
  destruct (H x (or_introl eq_refl)) as [k ->].
  destruct IH as [kt ->]; [intros; apply H; now right |]. now eexists.
Qed.

Lemma decorate_raise xs x e :
  In x xs -> key x = Raise e ->
  exists e' y, In y xs /\ key y = Raise e' /\ decorate key xs = Raise e'.
Proof.
  induction xs as [| z t IH]; cbn; intros Hin Hk; [contradiction |].
  destruct (key z) as [k | e0] eqn:Hz.
  - destruct Hin as [-> | Hin]; [congruence |].
    destruct (IH Hin Hk) as (e' & y & Hy & Hky & ->).
    exists e', y. auto.
  - exists e0, z. auto.
Qed.

(** Two decorated lists over permuted items are permuted. *)
Lemma decorate_perm xs1 xs2 kl1 :
  Permutation xs1 xs2 -> decorate key xs1 = Ok kl1 ->
  exists kl2, decorate key xs2 = Ok kl2 /\ Permutation kl1 kl2.
Proof.
  intros Hp. revert kl1. induction Hp as [| x t1 t2 Hp IH | x y t | t1 t2 t3 Hp1 IH1 Hp2 IH2];
    cbn; intros kl1 H.
  - injection H as <-. now exists [].
  - destruct (key x) as [k | e]; [| discriminate].
    destruct (decorate key t1) as [kt | e]; [| discriminate].
    injection H as <-. destruct (IH kt eq_refl) as (kl2 & -> & Hk).
    eexists. split; [reflexivity | now constructor].
  - destruct (key y) as [ky | e]; [| discriminate].
    destruct (key x) as [kx | e]; [| discriminate].
    destruct (decorate key t) as [kt | e]; [| discriminate].
    injection H as <-. eexists. split; [reflexivity | apply perm_swap].
  - destruct (IH1 _ H) as (kl2 & H2 & Hk12).
    destruct (IH2 _ H2) as (kl3 & H3 & Hk23).
    exists kl3. split; [exact H3 | now transitivity kl2].
Qed.

End DecorateFacts.

Section SortedSpec.

Variable A : Type.
Variable key : A -> result Z.

Local Abbreviation keyed := (keyed key).

Lemma decorate_keyed xs kl : decorate key xs = Ok kl -> Forall keyed kl.
Proof.
  revert kl. induction xs as [| x t IH]; cbn; intros kl H.
  - injection H as <-. constructor.
  - destruct (key x) as [k | e] eqn:Hk; [| discriminate].
    destruct (decorate key t) as [kt | e]; [| discriminate].
    injection H as <-. constructor; [exact Hk | now apply IH].
Qed.

Lemma keyed_keys kl :
  Forall keyed kl -> map key (map snd kl) = map (@Ok Z) (map fst kl).
Proof.
  induction 1 as [| p t Hp _ IH]; [reflexivity |].
  cbn. now rewrite Hp, IH.
Qed.

Lemma keyed_filter k kl :
  Forall keyed kl ->
  filter (key_is key k) (map snd kl) = map snd (filter (has_key k) kl).
Proof.
  induction 1 as [| p t Hp _ IH]; [reflexivity |].
  cbn. unfold key_is at 1. rewrite Hp. unfold has_key at 1.
  destruct (fst p =? k)%Z; cbn; now rewrite IH.
Qed.

Lemma key_le_fst (kl : list (Z * A)) :
  Sorted (@key_le A) kl -> Sorted Z.le (map fst kl).
Proof.
  induction 1 as [| p t _ IH Hd]; cbn; constructor; [exact IH |].
  destruct Hd; cbn; constructor. assumption.
Qed.

Lemma key_lt_fst (kl : list (Z * A)) :
  StronglySorted (@key_lt A) kl -> StronglySorted Z.lt (map fst kl).
Proof.
  induction 1 as [| p t _ IH Hall]; cbn; constructor; [exact IH |].
  rewrite Forall_forall in *. intros k Hk.
  apply in_map_iff in Hk. destruct Hk as (q & <- & Hq). now apply Hall.
Qed.

(** What [sorted] returns when every key is computed. *)
Lemma sorted_spec xs :
  (forall x, In x xs -> exists k, key x = Ok k) ->
  exists files keys,
    sorted key xs = Ok files /\
    Permutation files xs /\
    map key files = map (@Ok Z) keys /\
    Sorted Z.le keys /\
    (forall k, filter (key_is key k) files = filter (key_is key k) xs) /\
    (NoDup keys ->
       StronglySorted Z.lt keys /\
       forall xs', Permutation xs xs' -> sorted key xs' = Ok files).
Proof.
  intros Hall. destruct (decorate_total key xs Hall) as [kl Hkl].
  pose proof (decorate_keyed _ Hkl) as Hkd.
  destruct (decorate_ok _ _ Hkl) as [Hsnd _].
  assert (Hsk : Forall keyed (stable_sort kl)).
  { eapply Permutation_Forall; [symmetry; apply stable_sort_perm | exact Hkd]. }
  exists (map snd (stable_sort kl)), (map fst (stable_sort kl)).
  unfold sorted. rewrite Hkl. repeat split.
  - rewrite <- Hsnd. apply Permutation_map, stable_sort_perm.
  - now apply keyed_keys.
  - apply key_le_fst, stable_sort_sorted.
  - intros k. rewrite (keyed_filter k Hsk), stable_sort_stable.
    rewrite <- (keyed_filter k Hkd). now rewrite Hsnd.
  - apply key_lt_fst, stable_sort_strict.
    eapply Permutation_NoDup; [| exact H].
    apply Permutation_map, stable_sort_perm.
  - intros xs' Hp.
    destruct (decorate_perm key Hp Hkl) as (kl' & -> & Hkp).
    f_equal. f_equal. symmetry. apply stable_sort_order_free; [exact Hkp |].
    eapply Permutation_NoDup; [| exact H].
    apply Permutation_map, stable_sort_perm.
Qed.

(** [sorted] raises as soon as one key does. *)
Lemma sorted_raise xs x e :
  In x xs -> key x = Raise e ->
  exists e' y, In y xs /\ key y = Raise e' /\ sorted key xs = Raise e'.
Proof.
  intros Hin Hk. destruct (decorate_raise key xs x Hin Hk) as (e' & y & Hy & Hky & Hd).
  exists e', y. unfold sorted. now rewrite Hd.
Qed.

Lemma sorted_raise_inv xs e :
  sorted key xs = Raise e -> exists y, In y xs /\ key y = Raise e.
Proof.
  unfold sorted. destruct (decorate key xs) as [kl | e'] eqn:Hd; [discriminate |].
  intros [= ->]. revert Hd. induction xs as [| x t IH]; cbn; [discriminate |].
  destruct (key x) as [k | e0] eqn:Hk.
  - destruct (decorate key t) as [kt | e1]; [discriminate |].
    intros [= ->]. destruct (IH eq_refl) as (y & Hy & Hky). exists y. auto.
  - intros [= ->]. exists x. auto.
Qed.

End SortedSpec.

Section ListingFacts.

Variable env : Env.

Lemma split_go_nonempty sep s : forall skip cur, PyStr.split_go sep skip cur s <> [].
Proof.
  induction s as [| a s' IH]; intros skip cur; cbn [PyStr.split_go]; [discriminate |].
  destruct skip; [| apply IH].
  destruct (prefix sep (String a s')); [discriminate | apply IH].
Qed.

(** The only exception the key function raises is [ValueError]. *)
Lemma get_alphanum_key_raise tok f e :
  get_alphanum_key tok f = Raise e -> e = ValueError.
Proof.
  unfold get_alphanum_key.
  destruct (PyStr.split tok (PyPath.stem (de_path f))) as [segs |] eqn:Hs;
    [| congruence].
  destruct (PyStr.last_item segs) as [seg |] eqn:Hl.
  - destruct (PyStr.int seg); congruence.
  - destruct tok; [discriminate |]. cbn in Hs. injection Hs as <-.
    destruct (PyStr.split_go _ _ _ _) eqn:Hg; [| discriminate].
    now apply split_go_nonempty in Hg.
Qed.

Lemma sorted_files_raise tok xs e :
  sorted (get_alphanum_key tok) xs = Raise e -> e = ValueError.
Proof.
  intros H. apply sorted_raise_inv in H. destruct H as (y & _ & Hy).
  now apply get_alphanum_key_raise in Hy.
Qed.

(** The two exits of [get_sorted_files], with the calls each one
    makes. *)
Lemma get_sorted_files_run d fmt tok s :
  get_sorted_files env d fmt tok s =
  if path_exists env d then
    (match listdir env d with
     | None => Raise (CollaboratorError Scandir)
     | Some names =>
         sorted (get_alphanum_key tok) (filter (has_format fmt) (map (entry d) names))
     end,
     log (EvScandir d) (log (EvExists d) s))
  else
    (Raise (IOError ("Directory '" ++ d ++ "' does not exist.")),
     log (EvExists d) s).
Proof.
  unfold get_sorted_files, bind, os_path_exists, os_scandir, raise, lift.
  destruct (path_exists env d); cbn; [| reflexivity].
  destruct (listdir env d); reflexivity.
Qed.

End ListingFacts.

(** ** The listing *)

Lemma Permutation_filter_compat (A : Type) (f : A -> bool) (l1 l2 : list A) :
  Permutation l1 l2 -> Permutation (filter f l1) (filter f l2).
Proof.
  induction 1 as [| x t1 t2 _ IH | x y t | t1 t2 t3 _ IH1 _ IH2]; cbn.
  - constructor.
  - destruct (f x); [now constructor | exact IH].
  - destruct (f x), (f y); try reflexivity. apply perm_swap.
  - now transitivity (filter f t2).
Qed.

(** C1 (amended).  When the directory exists, can be listed, and every
    matching file carries an integer index, [get_sorted_files] returns
    exactly the matching files, in ascending order of the index, files
    with the same index in the order of the enumeration.  When the
    indices are pairwise distinct the order is strictly ascending and
    is the same for every order of enumeration. *)
Theorem C1_sorted_ascending env d fmt tok names :
  path_exists env d = true ->
  listdir env d = Some names ->
  (forall n, In n names -> has_format fmt (entry d n) = true ->
             exists k, get_alphanum_key tok (entry d n) = Ok k) ->
  exists files keys,
    (forall s, fst (get_sorted_files env d fmt tok s) = Ok files) /\
    Permutation files (filter (has_format fmt) (map (entry d) names)) /\
    map (get_alphanum_key tok) files = map (@Ok Z) keys /\
    Sorted Z.le keys /\
    (forall k, filter (key_is (get_alphanum_key tok) k) files =
               filter (key_is (get_alphanum_key tok) k)
                      (filter (has_format fmt) (map (entry d) names))) /\
    (NoDup keys ->
       StronglySorted Z.lt keys /\
       forall env' names',
         path_exists env' d = true -> listdir env' d = Some names' ->
         Permutation names names' ->
         forall s, fst (get_sorted_files env' d fmt tok s) = Ok files).
Proof.
  intros Hex Hls Hkeys.
  destruct (sorted_spec (get_alphanum_key tok)
              (filter (has_format fmt) (map (entry d) names)))
    as (files & keys & Hs & Hp & Hk & Hle & Hst & Hnd).
  { intros f Hf. apply filter_In in Hf. destruct Hf as [Hin Hfmt].
    apply in_map_iff in Hin. destruct Hin as (n & <- & Hn). now apply Hkeys. }
  exists files, keys. repeat split; trivial.
  - intros s. rewrite get_sorted_files_run, Hex, Hls. exact Hs.
  - now apply Hnd.
  - intros env' names' Hex' Hls' Hperm s.
    rewrite get_sorted_files_run, Hex', Hls'. cbn [fst].
    apply Hnd; [assumption |].
    now apply Permutation_filter_compat, Permutation_map.
Qed.

(** The example of the specification: [f_10.vtk], [f_2.vtk],
    [f_1.vtk] come back as [f_1.vtk], [f_2.vtk], [f_10.vtk]. *)
Lemma C1_sorted_ascending_witness :
  fst (get_sorted_files (world "out" ["f_10.vtk"; "f_2.vtk"; "f_1.vtk"])
         "out" ".vtk" "_" init_state)
  = Ok [entry "out" "f_1.vtk"; entry "out" "f_2.vtk"; entry "out" "f_10.vtk"] /\
  exists files keys,
    (forall s, fst (get_sorted_files (world "out" ["f_10.vtk"; "f_2.vtk"; "f_1.vtk"])
                      "out" ".vtk" "_" s) = Ok files) /\
    Permutation files
      (filter (has_format ".vtk")
         (map (entry "out") ["f_10.vtk"; "f_2.vtk"; "f_1.vtk"])) /\
    map (get_alphanum_key "_") files = map (@Ok Z) keys /\
    Sorted Z.le keys.
Proof.
  split; [reflexivity |].
  destruct (@C1_sorted_ascending (world "out" ["f_10.vtk"; "f_2.vtk"; "f_1.vtk"])
              "out" ".vtk" "_" ["f_10.vtk"; "f_2.vtk"; "f_1.vtk"] eq_refl eq_refl)
    as (files & keys & H1 & H2 & H3 & H4 & _).
  - intros n [<- | [<- | [<- | []]]] _; eexists; reflexivity.
  - exists files, keys. auto.
Defined.

(** Two files with the same index: the result is not strictly
    ascending, and it follows the order of the enumeration. *)
Lemma C1_ties_not_strict :
  fst (get_sorted_files (world "out" ["f_1.vtk"; "g_1.vtk"]) "out" ".vtk" "_" init_state)
  = Ok [entry "out" "f_1.vtk"; entry "out" "g_1.vtk"] /\
  ~ strictly_ascending (get_alphanum_key "_")
      [entry "out" "f_1.vtk"; entry "out" "g_1.vtk"] /\
  fst (get_sorted_files (world "out" ["g_1.vtk"; "f_1.vtk"]) "out" ".vtk" "_" init_state)
  = Ok [entry "out" "g_1.vtk"; entry "out" "f_1.vtk"].
Proof.
  split; [reflexivity |]. split; [| reflexivity].
  intros (keys & Hk & Hs).
  destruct keys as [| a [| b [| c t]]]; try discriminate.
  vm_compute in Hk. injection Hk as <- <-.
  inversion Hs as [| ? ? _ Hall]; subst.
  inversion Hall as [| ? ? Hlt _]; subst. lia.
Qed.

(** C2.  If the directory exists and is listed, and one of the files
    with the wanted extension has a stem whose last segment is a
    string of ASCII characters that [int] rejects, [get_sorted_files]
    raises [ValueError]: no list is returned, and the file is not
    skipped, whatever the other files are.  The segment is taken to
    be ASCII because Python's [int] also reads the decimal digits and
    the white space of Unicode (it returns 12 on the Arabic-Indic
    digits one and two): on ASCII strings [int] is the function
    modelled, outside them it is not. *)
Theorem C2_misnamed_file_raises env d fmt tok names n segs seg :
  path_exists env d = true ->
  listdir env d = Some names ->
  In n names ->
  PyPath.suffix (PyPath.join d n) = fmt ->
  PyStr.split tok (PyPath.stem (PyPath.join d n)) = Some segs ->
  PyStr.last_item segs = Some seg ->
  PyStr.is_ascii seg = true ->
  PyStr.int seg = None ->
  forall s, fst (get_sorted_files env d fmt tok s) = Raise ValueError.
Proof.
  intros Hex Hls Hin Hfmt Hsplit Hlast _ Hint s.
  rewrite get_sorted_files_run, Hex, Hls. cbn [fst].
  assert (Hkey : get_alphanum_key tok (entry d n) = Raise ValueError).
  { unfold get_alphanum_key. cbn [entry de_path]. now rewrite Hsplit, Hlast, Hint. }
  destruct (sorted_raise (get_alphanum_key tok)
              (filter (has_format fmt) (map (entry d) names)) (entry d n))
    with (e := ValueError) as (e' & y & _ & Hy & ->).
  - apply filter_In. split; [now apply in_map |].
    unfold has_format. cbn [entry de_path]. rewrite Hfmt. apply String.eqb_refl.
  - exact Hkey.
  - now rewrite (get_alphanum_key_raise _ _ Hy).
Qed.

Lemma C2_misnamed_file_raises_witness :
  fst (get_sorted_files (world "out" ["f_1.vtk"; "f_abc.vtk"; "f_2.vtk"])
         "out" ".vtk" "_" init_state) = Raise ValueError.
Proof.
  generalize init_state.
  apply (@C2_misnamed_file_raises
           (world "out" ["f_1.vtk"; "f_abc.vtk"; "f_2.vtk"]) "out" ".vtk" "_"
           ["f_1.vtk"; "f_abc.vtk"; "f_2.vtk"] "f_abc.vtk" ["f"; "abc"] "abc");
    try reflexivity.
  simpl. auto.
Defined.

(** C3.  On a path that does not exist [get_sorted_files] raises the
    "does not exist" error after the existence test alone: the call
    adds no [os.scandir] to the trace. *)
Theorem C3_missing_directory env d fmt tok s :
  path_exists env d = false ->
  fst (get_sorted_files env d fmt tok s)
    = Raise (IOError ("Directory '" ++ d ++ "' does not exist.")) /\
  trace (snd (get_sorted_files env d fmt tok s)) = trace s ++ [EvExists d] /\
  forall p, In (EvScandir p) (trace (snd (get_sorted_files env d fmt tok s))) ->
            In (EvScandir p) (trace s).
Proof.
  intros Hex. rewrite get_sorted_files_run, Hex. cbn [fst snd log trace].
  repeat split. intros p Hin. apply in_app_or in Hin.
  destruct Hin as [Hin | [Hin | []]]; [exact Hin | discriminate].
Qed.

Lemma C3_missing_directory_witness :
  fst (get_sorted_files (world "out" ["f_1.vtk"]) "nowhere" ".vtk" "_" init_state)
    = Raise (IOError "Directory 'nowhere' does not exist.") /\
  trace (snd (get_sorted_files (world "out" ["f_1.vtk"]) "nowhere" ".vtk" "_" init_state))
    = [EvExists "nowhere"].
Proof.
  destruct (@C3_missing_directory (world "out" ["f_1.vtk"]) "nowhere" ".vtk" "_"
              init_state eq_refl) as (H1 & H2 & _).
  split; [exact H1 | exact H2].
Defined.

(** ** Strings and paths *)

Lemma append_nil_r (s : string) : (s ++ "")%string = s.
Proof. induction s as [| a s IH]; cbn; [reflexivity | now rewrite IH]. Qed.

Lemma append_assoc (a b c : string) : ((a ++ b) ++ c = a ++ b ++ c)%string.
Proof. induction a as [| x a IH]; cbn; [reflexivity | now rewrite IH]. Qed.

Lemma prefix_append (a b : string) : prefix a (a ++ b)%string = true.
Proof.
  induction a as [| x a IH]; cbn; [now destruct b |].
  destruct (ascii_dec x x); [exact IH | contradiction].
Qed.

(** Joining a name that does not start with a separator extends the
    directory, written with its final separator. *)
Lemma join_relative d n :
  PyStr.starts_with PyPath.sep n = false ->
  PyPath.join d n = (PyPath.join d "" ++ n)%string.
Proof.
  intros Hn. unfold PyPath.join. rewrite Hn. cbn [PyStr.starts_with].
  destruct ((d =? "") || PyStr.ends_with PyPath.sep d).
  - now rewrite append_nil_r.
  - now rewrite append_assoc.
Qed.

Lemma inside_image tmp index : inside tmp (image_frame_path_of tmp index) = true.
Proof.
  unfold inside, image_frame_path_of.
  rewrite (join_relative tmp (frame_name index)) by reflexivity.
  apply prefix_append.
Qed.

(** ** Traces *)

Lemma read_paths_app tr1 tr2 : read_paths (tr1 ++ tr2) = read_paths tr1 ++ read_paths tr2.
Proof. apply flat_map_app. Qed.

Lemma screenshot_paths_app tr1 tr2 :
  screenshot_paths (tr1 ++ tr2) = screenshot_paths tr1 ++ screenshot_paths tr2.
Proof. apply flat_map_app. Qed.

Lemma encoder_calls_app tr1 tr2 :
  encoder_calls (tr1 ++ tr2) = encoder_calls tr1 ++ encoder_calls tr2.
Proof. apply flat_map_app. Qed.

Lemma close_calls_app tr1 tr2 :
  close_calls (tr1 ++ tr2) = close_calls tr1 + close_calls tr2.
Proof. unfold close_calls. now rewrite filter_app, length_app. Qed.

(** ** The frame loop *)

Section LoopFacts.

Variable env : Env.
Variables vtk_output_dir : string.
Variable style : Style.
Variable fps : Z.
Variable tmp_dir : string.

Local Abbreviation loop := (frame_loop env vtk_output_dir style fps tmp_dir).
Local Abbreviation image it := (image_frame_path_of tmp_dir (fst it)).
Local Abbreviation after := (rendered vtk_output_dir style tmp_dir).

(** One turn of the loop. *)
Lemma frame_loop_cons it rest frames s :
  loop (it :: rest) frames s =
  if is_sampled fps (fst it) then
    let p := frame_path_of vtk_output_dir (snd it) in
    if read_ok env p then
      if add_mesh_ok env p then
        if screenshot_ok env (image it) then
          loop rest (frames ++ [image it]) (after it s)
        else (Raise (CollaboratorError Screenshot), after it s)
      else
        (Raise (CollaboratorError AddMesh),
         log (EvAddMesh p "fluid_block_snapshot" style) (log (EvReadMesh p) s))
    else (Raise (CollaboratorError ReadMesh), log (EvReadMesh p) s)
  else
    match sampling_stride fps with
    | Raise e => (Raise e, s)
    | Ok stride =>
        match py_mod (Z.of_nat (fst it)) stride with
        | Raise e => (Raise e, s)
        | Ok _ => loop rest frames s
        end
    end.
Proof.
  destruct it as [index frame_file]. cbn [frame_loop fst snd].
  unfold is_sampled, bind, lift.
  destruct (sampling_stride fps) as [stride | e]; [| reflexivity].
  destruct (py_mod (Z.of_nat index) stride) as [m | e]; [| reflexivity].
  destruct (m =? 0)%Z; [| reflexivity].
  unfold pv_read, plt_add_mesh, plt_screenshot, call.
  destruct (read_ok env _); [| reflexivity].
  destruct (add_mesh_ok env _); [| reflexivity].
  cbn [trace log plotter_open tmp_dirs disk].
  unfold rendered, frame_events. cbn [fst snd].
  rewrite <- !app_assoc.
  destruct (screenshot_ok env _); reflexivity.
Qed.

(** A loop that returns has rendered exactly the sampled items, in
    order. *)
Lemma frame_loop_ok items :
  forall frames s fr s',
    loop items frames s = (Ok fr, s') ->
    fr = frames ++ map (fun it => image it) (sampled fps items) /\
    trace s' = trace s ++
               flat_map (frame_events vtk_output_dir style tmp_dir) (sampled fps items) /\
    disk s' = disk s ++ map (fun it => image it) (sampled fps items) /\
    plotter_open s' = plotter_open s /\
    tmp_dirs s' = tmp_dirs s.
Proof.
  induction items as [| it rest IH]; intros frames s fr s' H.
  - cbn in H. injection H as <- <-. cbn. now rewrite !app_nil_r.
  - rewrite frame_loop_cons in H. unfold sampled. cbn [filter].
    fold (sampled fps rest).
    destruct (is_sampled fps (fst it)).
    + cbv zeta in H.
      destruct (read_ok env _); [| discriminate].
      destruct (add_mesh_ok env _); [| discriminate].
      destruct (screenshot_ok env _); [| discriminate].
      apply IH in H. destruct H as (-> & Ht & Hd & Hp & Htd).
      cbn [rendered trace disk plotter_open tmp_dirs] in *.
      cbn [map flat_map]. rewrite Ht, Hd, <- !app_assoc. now repeat split.
    + destruct (sampling_stride fps) as [stride |]; [| discriminate].
      destruct (py_mod _ stride); [| discriminate].
      now apply IH.
Qed.

(** However the loop ends, it leaves the plotter and the temporary
    directory as they were, writes inside the temporary directory
    only, and reads a first part of the sampled items. *)
Lemma frame_loop_any items :
  forall frames s,
    plotter_open (snd (loop items frames s)) = plotter_open s /\
    tmp_dirs (snd (loop items frames s)) = tmp_dirs s /\
    exists evs ws k,
      trace (snd (loop items frames s)) = trace s ++ evs /\
      disk (snd (loop items frames s)) = disk s ++ ws /\
      Forall (loop_event vtk_output_dir tmp_dir items) evs /\
      Forall (fun w => inside tmp_dir w = true) ws /\
      read_paths evs =
        map (fun it => frame_path_of vtk_output_dir (snd it))
            (firstn k (sampled fps items)) /\
      close_calls evs = 0 /\
      encoder_calls evs = [].
Proof.
  assert (Hweak : forall it rest evs,
             Forall (loop_event vtk_output_dir tmp_dir rest) evs ->
             Forall (loop_event vtk_output_dir tmp_dir (it :: rest)) evs).
  { intros it rest evs. apply Forall_impl. intros [] He; cbn in *; trivial.
    destruct He as (it' & Hin & ->). exists it'. split; [now right | reflexivity]. }
  assert (Hrd : forall it rest,
             loop_event vtk_output_dir tmp_dir (it :: rest)
               (EvReadMesh (frame_path_of vtk_output_dir (snd it)))).
  { intros it rest. exists it. split; [now left | reflexivity]. }
  induction items as [| it rest IH]; intros frames s.
  - cbn. repeat split. exists [], [], 0. rewrite !app_nil_r. now repeat split.
  - rewrite frame_loop_cons. unfold sampled. cbn [filter]. fold (sampled fps rest).
    destruct (is_sampled fps (fst it)).
    + cbv zeta.
      destruct (read_ok env _).
      2:{ cbn [snd log plotter_open tmp_dirs trace disk]. repeat split.
          exists [EvReadMesh (frame_path_of vtk_output_dir (snd it))], [], 1.
          rewrite app_nil_r. repeat split; try constructor; trivial. }
      destruct (add_mesh_ok env _).
      2:{ cbn [snd log plotter_open tmp_dirs trace disk]. repeat split.
          exists [EvReadMesh (frame_path_of vtk_output_dir (snd it));
                  EvAddMesh (frame_path_of vtk_output_dir (snd it))
                    "fluid_block_snapshot" style], [], 1.
          rewrite app_nil_r, <- app_assoc. repeat split; try constructor; trivial.
          constructor; [exact I | constructor]. }
      destruct (screenshot_ok env _).
      2:{ cbn [snd rendered plotter_open tmp_dirs trace disk]. repeat split.
          exists (frame_events vtk_output_dir style tmp_dir it), [image it], 1.
          repeat split.
          - repeat constructor; [apply Hrd | apply inside_image].
          - repeat constructor. apply inside_image. }
      destruct (IH (frames ++ [image it]) (after it s))
        as (Hp & Htd & evs & ws & k & Ht & Hd & Hev & Hws & Hr & Hc & He).
      rewrite Hp, Htd. cbn [rendered plotter_open tmp_dirs]. repeat split.
      exists (frame_events vtk_output_dir style tmp_dir it ++ evs),
             (image it :: ws), (S k).
      rewrite Ht, Hd. cbn [rendered trace disk]. rewrite <- !app_assoc.
      repeat split.
      * apply Forall_app. split; [| now apply Hweak].
        repeat constructor; [apply Hrd | apply inside_image].
      * constructor; [apply inside_image | exact Hws].
      * rewrite read_paths_app, Hr. reflexivity.
      * rewrite close_calls_app, Hc. reflexivity.
      * rewrite encoder_calls_app, He. reflexivity.
    + assert (Hstop : forall e : exn,
                 plotter_open (snd (@Raise (list string) e, s)) = plotter_open s /\
                 tmp_dirs (snd (@Raise (list string) e, s)) = tmp_dirs s /\
                 exists evs ws k,
                   trace (snd (@Raise (list string) e, s)) = trace s ++ evs /\
                   disk (snd (@Raise (list string) e, s)) = disk s ++ ws /\
                   Forall (loop_event vtk_output_dir tmp_dir (it :: rest)) evs /\
                   Forall (fun w => inside tmp_dir w = true) ws /\
                   read_paths evs =
                     map (fun it => frame_path_of vtk_output_dir (snd it))
                         (firstn k (sampled fps rest)) /\
                   close_calls evs = 0 /\ encoder_calls evs = []).
      { intros e. cbn [snd]. repeat split. exists [], [], 0.
        rewrite !app_nil_r. now repeat split. }
      destruct (sampling_stride fps) as [stride | e]; [| apply Hstop].
      destruct (py_mod _ stride) as [m | e]; [| apply Hstop].
      destruct (IH frames s)
        as (Hp & Htd & evs & ws & k & Ht & Hd & Hev & Hws & Hr & Hc & He).
      repeat split; trivial. exists evs, ws, k. repeat split; trivial.
      now apply Hweak.
Qed.

End LoopFacts.

(** ** The whole call *)

Section RunFacts.

Variable env : Env.
Variables vtk_output_dir movie_path : string.
Variable virtual_display : bool.
Variable style : Style.
Variable camera : Camera.
Variable fps : Z.

Local Abbreviation run :=
  (create_movie_from_vtk env vtk_output_dir movie_path virtual_display style camera fps
     init_state).

Ltac unfold_run :=
  unfold create_movie_from_vtk, bind, pv_start_xvfb, pv_set_background, pv_Plotter,
    plt_set_camera, with_TemporaryDirectory, plt_close, ImageSequenceClip,
    write_videofile, call, ret, set_up.

(** A run whose set-up succeeds is the loop followed by
    [after_loop]. *)
Lemma run_loop vtk_files tmp_dir :
  set_up env vtk_output_dir virtual_display camera = Some (vtk_files, tmp_dir) ->
  run = after_loop env movie_path fps tmp_dir
          (frame_loop env vtk_output_dir style fps tmp_dir (enumerate vtk_files) []
             (loop_start vtk_output_dir virtual_display camera tmp_dir)).
Proof.
  unfold_run.
  destruct virtual_display, (xvfb_ok env); cbn beta iota; try discriminate;
    rewrite get_sorted_files_run;
    (destruct (path_exists env vtk_output_dir); try discriminate);
    (destruct (listdir env vtk_output_dir) as [names |]; try discriminate);
    (destruct (sorted _ _) as [files | e]; try discriminate);
    (destruct (plotter_ok env); try discriminate);
    (destruct (camera_ok env camera); try discriminate);
    (destruct (mkdtemp env) as [tmp |]; try discriminate);
    cbn [negb orb andb fst snd log trace plotter_open tmp_dirs disk init_state app];
    intros [= -> ->]; unfold loop_start, prelude, after_loop;
    cbn [app];
    destruct (frame_loop _ _ _ _ _ _ _ _) as [[frames | e] s];
    try reflexivity;
    destruct (encode_ok env frames fps); try reflexivity;
    destruct (write_ok env movie_path); reflexivity.
Qed.

(** A run whose set-up fails raises, and has rendered, written and
    encoded nothing; it holds the plotter only if the failure came
    after the plotter was made. *)
Lemma run_early :
  set_up env vtk_output_dir virtual_display camera = None ->
  exists e,
    fst run = Raise e /\
    tmp_dirs (snd run) = [] /\
    disk (snd run) = [] /\
    read_paths (trace (snd run)) = [] /\
    screenshot_paths (trace (snd run)) = [] /\
    encoder_calls (trace (snd run)) = [] /\
    close_calls (trace (snd run)) = 0 /\
    (raised_before_plotter e /\ plotter_open (snd run) = false \/
     (e = CollaboratorError SetCamera \/ e = CollaboratorError MkTemp)
       /\ plotter_open (snd run) = true).
Proof.
  unfold_run.
  destruct virtual_display, (xvfb_ok env); cbn beta iota;
    try (intros _; eexists; cbn; repeat split; left; split; [exact I | reflexivity]);
    rewrite get_sorted_files_run;
    (destruct (path_exists env vtk_output_dir);
       [| intros _; eexists; cbn; repeat split; left; split; [exact I | reflexivity]]);
    (destruct (listdir env vtk_output_dir) as [names |];
       [| intros _; eexists; cbn; repeat split; left; split; [exact I | reflexivity]]);
    (destruct (sorted _ _) as [files | e] eqn:Hs;
       [| intros _; exists e; cbn; repeat split; left; split; [| reflexivity];
          now rewrite (sorted_files_raise _ _ Hs)]);
    (destruct (plotter_ok env);
       [| intros _; eexists; cbn; repeat split; left; split; [exact I | reflexivity]]);
    (destruct (camera_ok env camera);
       [| intros _; eexists; cbn; repeat split; right; split; [now left | reflexivity]]);
    (destruct (mkdtemp env) as [tmp |];
       [discriminate
       | intros _; eexists; cbn; repeat split; right; split; [now right | reflexivity]]).
Qed.

End RunFacts.

(** ** What the trace of a frame holds *)

Section FrameTrace.

Variable vtk_output_dir : string.
Variable style : Style.
Variable tmp_dir : string.

Local Abbreviation events := (flat_map (frame_events vtk_output_dir style tmp_dir)).

Lemma read_paths_frames l :
  read_paths (events l) = map (fun it => frame_path_of vtk_output_dir (snd it)) l.
Proof. induction l as [| it l IH]; cbn; [reflexivity | f_equal; exact IH]. Qed.

Lemma screenshot_paths_frames l :
  screenshot_paths (events l) = map (fun it => image_frame_path_of tmp_dir (fst it)) l.
Proof. induction l as [| it l IH]; cbn; [reflexivity | f_equal; exact IH]. Qed.

Lemma encoder_calls_frames l : encoder_calls (events l) = [].
Proof. induction l as [| it l IH]; cbn; [reflexivity | exact IH]. Qed.

Lemma close_calls_frames l : close_calls (events l) = 0.
Proof. induction l as [| it l IH]; cbn; [reflexivity | exact IH]. Qed.

End FrameTrace.

Lemma in_read_paths p tr : In p (read_paths tr) <-> In (EvReadMesh p) tr.
Proof.
  unfold read_paths. rewrite in_flat_map. split.
  - intros (e & He & Hp). destruct e; cbn in Hp; try contradiction.
    destruct Hp as [-> | []]. exact He.
  - intros H. exists (EvReadMesh p). split; [exact H | now left].
Qed.

Lemma in_screenshot_paths p tr : In p (screenshot_paths tr) <-> In (EvScreenshot p) tr.
Proof.
  unfold screenshot_paths. rewrite in_flat_map. split.
  - intros (e & He & Hp). destruct e; cbn in Hp; try contradiction.
    destruct Hp as [-> | []]. exact He.
  - intros H. exists (EvScreenshot p). split; [exact H | now left].
Qed.

Lemma prelude_quiet d vd camera :
  read_paths (prelude d vd camera) = [] /\
  screenshot_paths (prelude d vd camera) = [] /\
  encoder_calls (prelude d vd camera) = [] /\
  close_calls (prelude d vd camera) = 0.
Proof. destruct vd; repeat split. Qed.

Lemma sorted_perm (A : Type) (key : A -> result Z) xs files :
  sorted key xs = Ok files -> Permutation files xs.
Proof.
  unfold sorted. destruct (decorate key xs) as [kl |] eqn:Hd; [| discriminate].
  intros [= <-]. destruct (decorate_ok _ _ Hd) as [<- _].
  apply Permutation_map, stable_sort_perm.
Qed.

(** What a successful set-up says about the world. *)
Lemma set_up_inv env d vd camera files tmp :
  set_up env d vd camera = Some (files, tmp) ->
  (vd = true -> xvfb_ok env = true) /\
  (forall s, fst (get_sorted_files env d ".vtk" "_" s) = Ok files) /\
  (exists names, listdir env d = Some names /\
                 Permutation files (filter (has_format ".vtk") (map (entry d) names))) /\
  plotter_ok env = true /\ camera_ok env camera = true /\ mkdtemp env = Some tmp.
Proof.
  unfold set_up.
  destruct vd, (xvfb_ok env); cbn [negb orb andb]; try discriminate;
    (destruct (path_exists env d) eqn:Hex; try discriminate);
    (destruct (listdir env d) as [names |] eqn:Hls; try discriminate);
    (destruct (sorted _ _) as [fs |] eqn:Hs; try discriminate);
    (destruct (plotter_ok env); try discriminate);
    (destruct (camera_ok env camera); try discriminate);
    (destruct (mkdtemp env); try discriminate);
    cbn [andb]; intros [= -> ->]; repeat split; trivial;
    try (intros s; rewrite get_sorted_files_run, Hex, Hls; exact Hs);
    try (exists names; split; [reflexivity | now apply sorted_perm in Hs]);
    try discriminate.
Qed.

Lemma set_up_intro env d vd camera files :
  (vd = true -> xvfb_ok env = true) ->
  fst (get_sorted_files env d ".vtk" "_" init_state) = Ok files ->
  plotter_ok env = true -> camera_ok env camera = true -> mkdtemp env <> None ->
  exists tmp, set_up env d vd camera = Some (files, tmp).
Proof.
  intros Hx Hf Hp Hc Ht. rewrite get_sorted_files_run in Hf. unfold set_up.
  destruct (path_exists env d); [| discriminate].
  destruct (listdir env d) as [names |]; [| discriminate]. cbn [fst] in Hf.
  rewrite Hf, Hp, Hc. destruct (mkdtemp env) as [tmp |]; [| contradiction].
  exists tmp. destruct vd; [rewrite Hx by reflexivity |]; reflexivity.
Qed.

(** The exceptions the loop can raise. *)
Lemma frame_loop_raises env d style fps tmp items :
  forall frames s e s',
    frame_loop env d style fps tmp items frames s = (Raise e, s') ->
    e = ZeroDivisionError \/ e = CollaboratorError ReadMesh \/
    e = CollaboratorError AddMesh \/ e = CollaboratorError Screenshot.
Proof.
  induction items as [| it rest IH]; intros frames s e s' H; [discriminate |].
  rewrite frame_loop_cons in H. destruct (is_sampled fps (fst it)).
  - cbv zeta in H.
    destruct (read_ok env _); [| injection H as <- _; auto].
    destruct (add_mesh_ok env _); [| injection H as <- _; auto].
    destruct (screenshot_ok env _); [| injection H as <- _; auto].
    eapply IH, H.
  - unfold sampling_stride, py_mod in H.
    destruct (fps =? 0)%Z; [injection H as <- _; auto |].
    destruct (py_round (true_divide 60 fps) =? 0)%Z; [injection H as <- _; auto |].
    eapply IH, H.
Qed.

Lemma cleanup_tmp_dirs tmp s : tmp_dirs s = [tmp] -> tmp_dirs (cleanup tmp s) = [].
Proof.
  intros H. cbn. rewrite H. cbn. destruct (string_dec tmp tmp); [reflexivity | contradiction].
Qed.

Lemma cleanup_disk tmp s p : In p (disk (cleanup tmp s)) -> inside tmp p = false.
Proof.
  cbn. intros H. apply filter_In in H. destruct H as [_ H].
  now destruct (inside tmp p).
Qed.

(** What [after_loop] adds, however the loop ended. *)
Lemma after_loop_any env movie fps tmp rs :
  tmp_dirs (snd rs) = [tmp] ->
  exists tail,
    trace (snd (after_loop env movie fps tmp rs)) = trace (snd rs) ++ tail /\
    read_paths tail = [] /\
    screenshot_paths tail = [] /\
    tmp_dirs (snd (after_loop env movie fps tmp rs)) = [] /\
    forall p, In p (disk (snd (after_loop env movie fps tmp rs))) -> inside tmp p = false.
Proof.
  intros Htd. destruct rs as [[frames | e] s]; cbn [snd] in *; unfold after_loop.
  - destruct (encode_ok env frames fps); [destruct (write_ok env movie) |].
    + exists [EvClosePlotter; EvEncode frames fps; EvWriteVideo movie; EvCleanup tmp].
      cbn [snd]. repeat split.
      * cbn. now rewrite <- !app_assoc.
      * now apply cleanup_tmp_dirs.
      * apply cleanup_disk.
    + exists [EvClosePlotter; EvEncode frames fps; EvWriteVideo movie; EvCleanup tmp].
      cbn [snd]. repeat split.
      * cbn. now rewrite <- !app_assoc.
      * now apply cleanup_tmp_dirs.
      * apply cleanup_disk.
    + exists [EvClosePlotter; EvEncode frames fps; EvCleanup tmp].
      cbn [snd]. repeat split.
      * cbn. now rewrite <- !app_assoc.
      * now apply cleanup_tmp_dirs.
      * apply cleanup_disk.
  - exists [EvCleanup tmp]. cbn [snd]. repeat split.
    + now apply cleanup_tmp_dirs.
    + apply cleanup_disk.
Qed.

(** What [after_loop] adds when the loop returned: the plotter is
    closed, then the encoder is called. *)
Lemma after_loop_returned env movie fps tmp frames s :
  exists tail,
    trace (snd (after_loop env movie fps tmp (Ok frames, s)))
      = trace s ++ [EvClosePlotter; EvEncode frames fps] ++ tail /\
    read_paths tail = [] /\ screenshot_paths tail = [] /\
    encoder_calls tail = [] /\ close_calls tail = 0 /\
    plotter_open (snd (after_loop env movie fps tmp (Ok frames, s))) = false /\
    (fst (after_loop env movie fps tmp (Ok frames, s)) = Ok tt ->
     tail = [EvWriteVideo movie; EvCleanup tmp]).
Proof.
  unfold after_loop.
  destruct (encode_ok env frames fps); [destruct (write_ok env movie) |].
  - exists [EvWriteVideo movie; EvCleanup tmp]. cbn. rewrite <- !app_assoc. now repeat split.
  - exists [EvWriteVideo movie; EvCleanup tmp]. cbn. rewrite <- !app_assoc.
    now repeat split.
  - exists [EvCleanup tmp]. cbn. rewrite <- !app_assoc. repeat split. discriminate.
Qed.

(** ** The calls that render the frames *)

Lemma frame_calls_app tr1 tr2 :
  frame_calls (tr1 ++ tr2) = frame_calls tr1 ++ frame_calls tr2.
Proof. apply filter_app. Qed.

Lemma frame_calls_prelude d vd camera : frame_calls (prelude d vd camera) = [].
Proof. destruct vd; reflexivity. Qed.

Lemma frame_calls_frames d style tmp l :
  frame_calls (flat_map (frame_events d style tmp) l) = flat_map (frame_events d style tmp) l.
Proof.
  induction l as [| it l IH]; [reflexivity |].
  cbn [flat_map]. rewrite frame_calls_app, IH. reflexivity.
Qed.

(** A first part of the calls of some frames holds calls of frames
    only. *)
Lemma frame_calls_firstn d style tmp l :
  forall c,
    frame_calls (firstn c (flat_map (frame_events d style tmp) l))
    = firstn c (flat_map (frame_events d style tmp) l).
Proof.
  induction l as [| it l IH]; intros c.
  - now rewrite firstn_nil.
  - cbn [flat_map frame_events app].
    destruct c as [| [| [| c]]]; try reflexivity.
    cbn [firstn]. change (?a :: ?b :: ?e :: ?l') with ([a; b; e] ++ l').
    rewrite frame_calls_app, IH. reflexivity.
Qed.

Lemma screenshot_paths_frame_calls tr :
  screenshot_paths (frame_calls tr) = screenshot_paths tr.
Proof.
  induction tr as [| e tr IH]; [reflexivity |].
  destruct e; cbn [frame_calls filter]; fold (frame_calls tr);
    cbn [read_paths screenshot_paths add_mesh_calls flat_map app];
    try exact IH; f_equal; exact IH.
Qed.

Section LoopCalls.

Variable env : Env.
Variables vtk_output_dir : string.
Variable style : Style.
Variable fps : Z.
Variable tmp_dir : string.

Local Abbreviation loop := (frame_loop env vtk_output_dir style fps tmp_dir).
Local Abbreviation image it := (image_frame_path_of tmp_dir (fst it)).
Local Abbreviation events := (flat_map (frame_events vtk_output_dir style tmp_dir)).

(** However the loop ends, the calls it has made are a first part of
    the calls that render the sampled items, in their order. *)
Lemma frame_loop_prefix items :
  forall frames s,
    exists c,
      trace (snd (loop items frames s)) = trace s ++ firstn c (events (sampled fps items)).
Proof.
  induction items as [| it rest IH]; intros frames s.
  - exists 0. cbn. now rewrite app_nil_r.
  - rewrite frame_loop_cons. unfold sampled. cbn [filter]. fold (sampled fps rest).
    destruct (is_sampled fps (fst it)).
    + cbv zeta. cbn [flat_map frame_events app].
      destruct (read_ok env _).
      2:{ exists 1. reflexivity. }
      destruct (add_mesh_ok env _).
      2:{ exists 2. cbn [snd log trace firstn]. now rewrite <- app_assoc. }
      destruct (screenshot_ok env _).
      2:{ exists 3. reflexivity. }
      destruct (IH (frames ++ [image it]) (rendered vtk_output_dir style tmp_dir it s))
        as (c & Hc).
      exists (S (S (S c))). rewrite Hc.
      cbn [rendered trace firstn frame_events]. now rewrite <- app_assoc.
    + destruct (sampling_stride fps) as [stride | e];
        [| exists 0; cbn; now rewrite app_nil_r].
      destruct (py_mod _ stride) as [m | e];
        [| exists 0; cbn; now rewrite app_nil_r].
      apply IH.
Qed.

(** With a stride other than 0, the loop returns as soon as the three
    collaborators return on every sampled item. *)
Lemma frame_loop_returns items stride :
  sampling_stride fps = Ok stride -> stride <> 0%Z ->
  (forall it, In it (sampled fps items) ->
              read_ok env (frame_path_of vtk_output_dir (snd it)) = true /\
              add_mesh_ok env (frame_path_of vtk_output_dir (snd it)) = true /\
              screenshot_ok env (image it) = true) ->
  forall frames s, exists fr, fst (loop items frames s) = Ok fr.
Proof.
  intros Hstride Hnz.
  induction items as [| it rest IH]; intros Hok frames s.
  - exists frames. reflexivity.
  - rewrite frame_loop_cons. unfold sampled in Hok. cbn [filter] in Hok.
    fold (sampled fps rest) in Hok.
    destruct (is_sampled fps (fst it)).
    + cbv zeta. destruct (Hok it (or_introl eq_refl)) as (-> & -> & ->).
      apply IH. intros it' Hin. apply Hok. now right.
    + rewrite Hstride. unfold py_mod.
      destruct (Z.eqb_spec stride 0) as [E | _]; [contradiction |].
      now apply IH.
Qed.

End LoopCalls.

(** What [after_loop] adds holds none of the calls that render. *)
Lemma after_loop_calls env movie fps tmp rs :
  frame_calls (trace (snd (after_loop env movie fps tmp rs)))
  = frame_calls (trace (snd rs)).
Proof.
  destruct rs as [[frames | e] s]; unfold after_loop.
  - destruct (encode_ok env frames fps); [destruct (write_ok env movie) |];
      cbn [snd cleanup log trace]; rewrite !frame_calls_app; cbn;
      now rewrite !app_nil_r.
  - cbn [snd cleanup trace]. rewrite frame_calls_app. cbn. now rewrite app_nil_r.
Qed.

(** What [after_loop] adds when the loop returned: the release of
    the plotter and the call of the encoder, then calls that neither
    read nor render. *)
Lemma after_loop_tail env movie fps tmp frames s :
  exists tail,
    trace (snd (after_loop env movie fps tmp (Ok frames, s)))
      = trace s ++ [EvClosePlotter; EvEncode frames fps] ++ tail /\
    frame_calls tail = [] /\ read_paths tail = [].
Proof.
  unfold after_loop.
  destruct (encode_ok env frames fps); [destruct (write_ok env movie) |].
  - exists [EvWriteVideo movie; EvCleanup tmp]. cbn. rewrite <- !app_assoc. now repeat split.
  - exists [EvWriteVideo movie; EvCleanup tmp]. cbn. rewrite <- !app_assoc.
    now repeat split.
  - exists [EvCleanup tmp]. cbn. rewrite <- !app_assoc. now repeat split.
Qed.

Section RunCalls.

Variable env : Env.
Variables vtk_output_dir movie_path : string.
Variable virtual_display : bool.
Variable style : Style.
Variable camera : Camera.
Variable fps : Z.

Local Abbreviation run :=
  (create_movie_from_vtk env vtk_output_dir movie_path virtual_display style camera fps
     init_state).

(** A run that reaches the loop makes a first part of the calls that
    render the sampled files, and no other call of that kind. *)
Lemma run_frame_calls vtk_files tmp_dir :
  set_up env vtk_output_dir virtual_display camera = Some (vtk_files, tmp_dir) ->
  exists c,
    frame_calls (trace (snd run))
    = firstn c (flat_map (frame_events vtk_output_dir style tmp_dir)
                  (sampled fps (enumerate vtk_files))).
Proof.
  intros Hset.
  rewrite (@run_loop env vtk_output_dir movie_path virtual_display style camera fps
             vtk_files tmp_dir Hset).
  rewrite after_loop_calls.
  destruct (frame_loop_prefix env vtk_output_dir style fps tmp_dir (enumerate vtk_files) []
              (loop_start vtk_output_dir virtual_display camera tmp_dir)) as (c & ->).
  exists c. cbn [loop_start trace].
  now rewrite frame_calls_app, frame_calls_prelude, frame_calls_firstn.
Qed.

(** A run that does not reach the loop renders nothing. *)
Lemma run_early_calls :
  set_up env vtk_output_dir virtual_display camera = None ->
  frame_calls (trace (snd run)) = [].
Proof.
  unfold create_movie_from_vtk, bind, pv_start_xvfb, pv_set_background, pv_Plotter,
    plt_set_camera, with_TemporaryDirectory, plt_close, ImageSequenceClip,
    write_videofile, call, ret, set_up.
  destruct virtual_display, (xvfb_ok env); cbn beta iota;
    try (intros _; reflexivity);
    rewrite get_sorted_files_run;
    (destruct (path_exists env vtk_output_dir); [| intros _; reflexivity]);
    (destruct (listdir env vtk_output_dir) as [names |]; [| intros _; reflexivity]);
    (destruct (sorted _ _) as [files | e]; [| intros _; reflexivity]);
    (destruct (plotter_ok env); [| intros _; reflexivity]);
    (destruct (camera_ok env camera); [| intros _; reflexivity]);
    (destruct (mkdtemp env) as [tmp |]; [discriminate | intros _; reflexivity]).
Qed.

(** With a stride other than 0, a run whose set-up succeeds and in
    which the three collaborators of the loop return on every sampled
    file renders every sampled file, then closes the plotter and calls
    the encoder. *)
Lemma run_renders vtk_files tmp_dir stride :
  set_up env vtk_output_dir virtual_display camera = Some (vtk_files, tmp_dir) ->
  sampling_stride fps = Ok stride -> stride <> 0%Z ->
  (forall it, In it (sampled fps (enumerate vtk_files)) ->
              read_ok env (frame_path_of vtk_output_dir (snd it)) = true /\
              add_mesh_ok env (frame_path_of vtk_output_dir (snd it)) = true /\
              screenshot_ok env (image_frame_path_of tmp_dir (fst it)) = true) ->
  exists tail,
    trace (snd run)
    = prelude vtk_output_dir virtual_display camera ++
      flat_map (frame_events vtk_output_dir style tmp_dir)
        (sampled fps (enumerate vtk_files)) ++
      [EvClosePlotter;
       EvEncode (map (fun it => image_frame_path_of tmp_dir (fst it))
                   (sampled fps (enumerate vtk_files))) fps] ++ tail /\
    frame_calls tail = [] /\ read_paths tail = [].
Proof.
  intros Hset Hstride Hnz Hok.
  rewrite (@run_loop env vtk_output_dir movie_path virtual_display style camera fps
             vtk_files tmp_dir Hset).
  destruct (@frame_loop_returns env vtk_output_dir style fps tmp_dir (enumerate vtk_files)
              stride Hstride Hnz Hok []
              (loop_start vtk_output_dir virtual_display camera tmp_dir)) as (fr & Hfr).
  destruct (frame_loop env vtk_output_dir style fps tmp_dir (enumerate vtk_files) []
              (loop_start vtk_output_dir virtual_display camera tmp_dir))
    as [r s'] eqn:Hloop.
  cbn [fst] in Hfr. subst r.
  destruct (frame_loop_ok _ _ _ _ _ _ _ _ Hloop) as (-> & Ht & _).
  destruct (after_loop_tail env movie_path fps tmp_dir
              ([] ++ map (fun it => image_frame_path_of tmp_dir (fst it))
                       (sampled fps (enumerate vtk_files))) s')
    as (tail & Htr & Hq & Hr).
  exists tail. rewrite Htr, Ht. cbn [loop_start trace app].
  rewrite <- !app_assoc. now repeat split.
Qed.

End RunCalls.

(** ** The claims about [create_movie_from_vtk] *)

(** C6.  At the exit of every call, whether it returns or raises, the
    temporary directory is gone, no file remains inside it, and none
    of the still images that were written remains on disk. *)
Theorem C6_temporary_files_removed env d movie vd style camera fps :
  tmp_dirs (snd (create_movie_from_vtk env d movie vd style camera fps init_state)) = [] /\
  (forall p,
      In p (screenshot_paths
              (trace (snd (create_movie_from_vtk env d movie vd style camera fps
                             init_state)))) ->
      ~ In p (disk (snd (create_movie_from_vtk env d movie vd style camera fps
                           init_state)))) /\
  (forall tmp p,
      mkdtemp env = Some tmp ->
      In p (disk (snd (create_movie_from_vtk env d movie vd style camera fps
                         init_state))) ->
      inside tmp p = false).
Proof.
  destruct (set_up env d vd camera) as [[files tmp] |] eqn:Hset.
  - rewrite (@run_loop env d movie vd style camera fps files tmp Hset).
    destruct (@set_up_inv env d vd camera files tmp Hset) as (_ & _ & _ & _ & _ & Hmk).
    destruct (frame_loop_any env d style fps tmp (enumerate files) []
                (loop_start d vd camera tmp))
      as (_ & Htd & evs & ws & k & Ht & _ & Hev & _).
    destruct (@after_loop_any env movie fps tmp
                (frame_loop env d style fps tmp (enumerate files) []
                   (loop_start d vd camera tmp)) Htd)
      as (tail & Htr & _ & Hsc & Htd' & Hdisk).
    split; [exact Htd' |]. split.
    + intros p Hp Hin. apply Hdisk in Hin.
      rewrite Htr, Ht in Hp. cbn [loop_start trace] in Hp.
      rewrite !screenshot_paths_app, Hsc in Hp.
      rewrite (proj1 (proj2 (prelude_quiet d vd camera))) in Hp.
      cbn [app] in Hp. rewrite app_nil_r in Hp.
      apply in_screenshot_paths in Hp.
      rewrite Forall_forall in Hev. apply Hev in Hp. cbn in Hp. congruence.
    + intros tmp' p Hmk' Hin. rewrite Hmk in Hmk'. injection Hmk' as <-.
      now apply Hdisk.
  - destruct (@run_early env d movie vd style camera fps Hset) as (e & _ & Htd & Hd & _ & Hsc & _).
    rewrite Htd, Hd, Hsc. repeat split; intros; contradiction.
Qed.

(** The trace of a call that returns: the set-up, the three calls of
    each sampled file, the release of the plotter, the encoding and
    the clean-up. *)
Lemma run_returns env d movie vd style camera fps :
  fst (create_movie_from_vtk env d movie vd style camera fps init_state) = Ok tt ->
  exists files tmp,
    (forall s, fst (get_sorted_files env d ".vtk" "_" s) = Ok files) /\
    mkdtemp env = Some tmp /\
    trace (snd (create_movie_from_vtk env d movie vd style camera fps init_state))
    = prelude d vd camera ++
      flat_map (frame_events d style tmp) (sampled fps (enumerate files)) ++
      [EvClosePlotter;
       EvEncode (map (fun it => image_frame_path_of tmp (fst it))
                     (sampled fps (enumerate files))) fps;
       EvWriteVideo movie; EvCleanup tmp].
Proof.
  intros Hok.
  destruct (set_up env d vd camera) as [[files tmp] |] eqn:Hset.
  - rewrite (@run_loop env d movie vd style camera fps files tmp Hset) in *.
    destruct (@set_up_inv env d vd camera files tmp Hset) as (_ & Hfiles & _ & _ & _ & Hmk).
    exists files, tmp. split; [exact Hfiles |]. split; [exact Hmk |].
    destruct (frame_loop env d style fps tmp (enumerate files) []
                (loop_start d vd camera tmp)) as [[frames | e] s'] eqn:Hloop;
      [| discriminate Hok].
    destruct (frame_loop_ok _ _ _ _ _ _ _ _ Hloop) as (Hfr & Ht & _).
    destruct (after_loop_returned env movie fps tmp frames s')
      as (tail & Htr & _ & _ & _ & _ & _ & Htail).
    rewrite Htr, (Htail Hok), Ht. cbn [app] in Hfr. subst frames.
    cbn [loop_start trace]. now rewrite <- !app_assoc.
  - destruct (@run_early env d movie vd style camera fps Hset) as (e & He & _).
    rewrite He in Hok. discriminate.
Qed.



(** C5 (amended).  When the frame loop has run to its end, the
    plotter is closed, once, before the encoder is called: at the exit
    the plotter is released if the call returns and if the encoder or
    the video writer raises. *)
Theorem C5_plotter_released_after_loop env d movie vd style camera fps :
  fst (create_movie_from_vtk env d movie vd style camera fps init_state) = Ok tt \/
  fst (create_movie_from_vtk env d movie vd style camera fps init_state)
    = Raise (CollaboratorError Encode) \/
  fst (create_movie_from_vtk env d movie vd style camera fps init_state)
    = Raise (CollaboratorError WriteVideo) ->
  plotter_open (snd (create_movie_from_vtk env d movie vd style camera fps init_state))
    = false /\
  close_calls (trace (snd (create_movie_from_vtk env d movie vd style camera fps
                             init_state))) = 1 /\
  exists before frames after,
    trace (snd (create_movie_from_vtk env d movie vd style camera fps init_state))
      = before ++ [EvClosePlotter; EvEncode frames fps] ++ after /\
    encoder_calls before = [] /\
    read_paths after = [] /\ screenshot_paths after = [].
Proof.
  intros Hres.
  destruct (set_up env d vd camera) as [[files tmp] |] eqn:Hset.
  - rewrite (@run_loop env d movie vd style camera fps files tmp Hset) in *.
    destruct (frame_loop env d style fps tmp (enumerate files) []
                (loop_start d vd camera tmp)) as [[frames | e] s'] eqn:Hloop.
    + destruct (frame_loop_ok _ _ _ _ _ _ _ _ Hloop) as (_ & Ht & _).
      destruct (after_loop_returned env movie fps tmp frames s')
        as (tail & Htr & Hr & Hs & He & Hc & Hp & _).
      destruct (prelude_quiet d vd camera) as (_ & _ & Hpe & Hpc).
      split; [exact Hp |]. split.
      * rewrite Htr, Ht. cbn [loop_start trace].
        rewrite !close_calls_app, Hpc, close_calls_frames, Hc. reflexivity.
      * exists (trace s'), frames, tail. split; [exact Htr |].
        rewrite Ht. cbn [loop_start trace].
        rewrite encoder_calls_app, Hpe, encoder_calls_frames. now repeat split.
    + apply frame_loop_raises in Hloop. cbn [after_loop fst] in Hres.
      destruct Hres as [H | [H | H]]; try discriminate H;
        injection H as ->; destruct Hloop as [H | [H | [H | H]]]; discriminate H.
  - destruct (@run_early env d movie vd style camera fps Hset)
      as (e & He & _ & _ & _ & _ & _ & _ & Hp).
    rewrite He in Hres.
    destruct Hres as [H | [H | H]]; try discriminate H; injection H as ->;
      destruct Hp as [[[] _] | [[H | H] _]]; discriminate H.
Qed.

Lemma C5_plotter_released_after_loop_witness :
  plotter_open
    (snd (create_movie_from_vtk (world "out" ["f_0.vtk"; "f_1.vtk"])
            "out" "movie.mp4" true plain_style CameraUnset 60 init_state)) = false.
Proof.
  apply (@C5_plotter_released_after_loop (world "out" ["f_0.vtk"; "f_1.vtk"])
           "out" "movie.mp4" true plain_style CameraUnset 60%Z).
  left. reflexivity.
Defined.

(** The mesh reader raises on the first frame: the call exits with
    the plotter open, and [plt.close] was never called. *)
Lemma C5_plotter_left_open :
  fst (create_movie_from_vtk (world_unreadable "out" ["f_0.vtk"; "f_1.vtk"])
         "out" "movie.mp4" true plain_style CameraUnset 60 init_state)
    = Raise (CollaboratorError ReadMesh) /\
  plotter_open
    (snd (create_movie_from_vtk (world_unreadable "out" ["f_0.vtk"; "f_1.vtk"])
            "out" "movie.mp4" true plain_style CameraUnset 60 init_state)) = true /\
  close_calls
    (trace (snd (create_movie_from_vtk (world_unreadable "out" ["f_0.vtk"; "f_1.vtk"])
                   "out" "movie.mp4" true plain_style CameraUnset 60 init_state))) = 0.
Proof. repeat split. Qed.

(** In every run the files read are a first part of the sampled
    files of the listing. *)
Lemma run_reads env d movie vd style camera fps files :
  fst (get_sorted_files env d ".vtk" "_" init_state) = Ok files ->
  exists k,
    read_paths (trace (snd (create_movie_from_vtk env d movie vd style camera fps
                              init_state)))
    = map (fun it => frame_path_of d (snd it)) (firstn k (sampled fps (enumerate files))).
Proof.
  intros Hfiles.
  destruct (set_up env d vd camera) as [[files' tmp] |] eqn:Hset.
  - rewrite (@run_loop env d movie vd style camera fps files' tmp Hset).
    destruct (@set_up_inv env d vd camera files' tmp Hset) as (_ & Hf & _).
    rewrite Hf in Hfiles. injection Hfiles as ->.
    destruct (frame_loop_any env d style fps tmp (enumerate files) []
                (loop_start d vd camera tmp))
      as (_ & Htd & evs & ws & k & Ht & _ & _ & _ & Hr & _).
    destruct (@after_loop_any env movie fps tmp
                (frame_loop env d style fps tmp (enumerate files) []
                   (loop_start d vd camera tmp)) Htd)
      as (tail & Htr & Hrt & _).
    exists k. rewrite Htr, Ht. cbn [loop_start trace].
    rewrite !read_paths_app, Hrt, Hr, (proj1 (prelude_quiet d vd camera)).
    cbn [app]. now rewrite app_nil_r.
  - destruct (@run_early env d movie vd style camera fps Hset) as (e & _ & _ & _ & Hr & _).
    exists 0. now rewrite Hr.
Qed.

(** The calls that render, in a trace made of the set-up, the calls
    of some frames and calls of another kind. *)
Lemma frame_calls_run d vd camera style tmp l tail :
  frame_calls tail = [] ->
  frame_calls (prelude d vd camera ++ flat_map (frame_events d style tmp) l ++ tail)
  = flat_map (frame_events d style tmp) l.
Proof.
  intros Hq.
  now rewrite !frame_calls_app, frame_calls_prelude, frame_calls_frames, Hq, app_nil_r.
Qed.

(** C4.  With a positive [fps] whose stride [round(60 / fps)] is at
    least 1, the files rendered are those at the positions [p] of the
    sorted listing with [p mod stride = 0].  To render a file the
    loop makes three calls: [pv.read] on the file, [plt.add_mesh] on
    the mesh and [plt.screenshot] on the path of the image.  In every
    run the calls of these three kinds are a first part of the calls
    for the sampled files, in the order of the listing, so that no
    other file is read or drawn; they are all made, and the images of
    all the sampled files written, when the collaborators return, and
    when the call returns.  With [fps = 10] the stride is 6 and 100
    files give the 17 positions 0, 6, ..., 96; with [fps = 60] the
    stride is 1 and every file is sampled. *)
Theorem C4_frame_sampling env d movie vd style camera fps files :
  (0 < fps)%Z ->
  (1 <= round_div 60 fps)%Z ->
  fst (get_sorted_files env d ".vtk" "_" init_state) = Ok files ->
  sampling_stride fps = Ok (round_div 60 fps) /\
  sampled fps (enumerate files)
    = filter (fun it => (Z.of_nat (fst it) mod round_div 60 fps =? 0)%Z) (enumerate files) /\
  (exists k,
      read_paths (trace (snd (create_movie_from_vtk env d movie vd style camera fps
                                init_state)))
      = map (fun it => frame_path_of d (snd it))
            (firstn k (sampled fps (enumerate files)))) /\
  (fst (create_movie_from_vtk env d movie vd style camera fps init_state) = Ok tt ->
   read_paths (trace (snd (create_movie_from_vtk env d movie vd style camera fps
                             init_state)))
   = map (fun it => frame_path_of d (snd it)) (sampled fps (enumerate files))) /\
  (sampling_stride 10 = Ok 6%Z /\
   forall l : list DirEntry,
     List.length l = 100 ->
     map fst (sampled 10 (enumerate l)) = map (fun k => 6 * k) (seq 0 17) /\
     List.length (sampled 10 (enumerate l)) = 17) /\
  (sampling_stride 60 = Ok 1%Z /\
   forall l : list DirEntry, sampled 60 (enumerate l) = enumerate l) /\
  (forall tmp,
      mkdtemp env = Some tmp ->
      exists c,
        frame_calls (trace (snd (create_movie_from_vtk env d movie vd style camera fps
                                   init_state)))
        = firstn c (flat_map (frame_events d style tmp) (sampled fps (enumerate files)))) /\
  (mkdtemp env = None ->
   frame_calls (trace (snd (create_movie_from_vtk env d movie vd style camera fps
                              init_state))) = []) /\
  (forall tmp,
      (vd = true -> xvfb_ok env = true) ->
      plotter_ok env = true ->
      camera_ok env camera = true ->
      mkdtemp env = Some tmp ->
      (forall it,
          In it (sampled fps (enumerate files)) ->
          read_ok env (frame_path_of d (snd it)) = true /\
          add_mesh_ok env (frame_path_of d (snd it)) = true /\
          screenshot_ok env (image_frame_path_of tmp (fst it)) = true) ->
      frame_calls (trace (snd (create_movie_from_vtk env d movie vd style camera fps
                                 init_state)))
      = flat_map (frame_events d style tmp) (sampled fps (enumerate files)) /\
      screenshot_paths (trace (snd (create_movie_from_vtk env d movie vd style camera fps
                                      init_state)))
      = map (fun it => image_frame_path_of tmp (fst it)) (sampled fps (enumerate files))) /\
  (fst (create_movie_from_vtk env d movie vd style camera fps init_state) = Ok tt ->
   exists tmp,
     mkdtemp env = Some tmp /\
     frame_calls (trace (snd (create_movie_from_vtk env d movie vd style camera fps
                                init_state)))
     = flat_map (frame_events d style tmp) (sampled fps (enumerate files)) /\
     screenshot_paths (trace (snd (create_movie_from_vtk env d movie vd style camera fps
                                     init_state)))
     = map (fun it => image_frame_path_of tmp (fst it)) (sampled fps (enumerate files))).
Proof.
  intros Hfps Hstride Hfiles.
  assert (Hshots : forall tr tmp l,
             frame_calls tr = flat_map (frame_events d style tmp) l ->
             screenshot_paths tr = map (fun it => image_frame_path_of tmp (fst it)) l).
  { intros tr tmp l H.
    now rewrite <- screenshot_paths_frame_calls, H, screenshot_paths_frames. }
  split; [apply sampling_stride_exact; lia |].
  split; [apply filter_ext; intros it; apply is_sampled_exact; lia |].
  split; [now apply run_reads |].
  split.
  { intros Hok.
    destruct (@run_returns env d movie vd style camera fps Hok)
      as (files' & tmp & Hf & _ & Htr).
    rewrite Hf in Hfiles. injection Hfiles as ->.
    rewrite Htr, !read_paths_app, read_paths_frames.
    rewrite (proj1 (prelude_quiet d vd camera)). cbn. now rewrite app_nil_r. }
  split.
  { split; [reflexivity |]. intros l Hl.
    assert (H : map fst (sampled 10 (enumerate l)) = map (fun k => 6 * k) (seq 0 17)).
    { rewrite sampled_positions, Hl. vm_compute. reflexivity. }
    split; [exact H |].
    rewrite <- (length_map fst), H. reflexivity. }
  split.
  { split; [reflexivity |]. intros l. unfold sampled. apply forallb_filter_id.
    apply forallb_forall. intros it _.
    rewrite is_sampled_exact by (vm_compute; discriminate).
    change (round_div 60 60) with 1%Z. now rewrite Z.mod_1_r. }
  split.
  { intros tmp Hmk.
    destruct (set_up env d vd camera) as [[files' tmp'] |] eqn:Hset.
    - destruct (@set_up_inv env d vd camera files' tmp' Hset)
        as (_ & Hf & _ & _ & _ & Hmk').
      rewrite Hf in Hfiles. injection Hfiles as ->.
      rewrite Hmk in Hmk'. injection Hmk' as ->.
      now apply run_frame_calls.
    - exists 0. now rewrite run_early_calls. }
  split.
  { intros Hmk.
    destruct (set_up env d vd camera) as [[files' tmp'] |] eqn:Hset.
    - destruct (@set_up_inv env d vd camera files' tmp' Hset)
        as (_ & _ & _ & _ & _ & Hmk').
      rewrite Hmk in Hmk'. discriminate.
    - now apply run_early_calls. }
  split.
  { intros tmp Hx Hp Hc Hmk Hok.
    destruct (@set_up_intro env d vd camera files Hx Hfiles Hp Hc) as (tmp' & Hset);
      [rewrite Hmk; discriminate |].
    destruct (@set_up_inv env d vd camera files tmp' Hset) as (_ & _ & _ & _ & _ & Hmk').
    rewrite Hmk in Hmk'. injection Hmk' as <-.
    destruct (@run_renders env d movie vd style camera fps files tmp (round_div 60 fps))
      as (tail & Htr & Hq & _); trivial.
    - apply sampling_stride_exact. lia.
    - lia.
    - assert (Hcalls : frame_calls
                         (trace (snd (create_movie_from_vtk env d movie vd style camera fps
                                        init_state)))
                       = flat_map (frame_events d style tmp) (sampled fps (enumerate files))).
      { rewrite Htr. apply frame_calls_run.
        rewrite frame_calls_app, Hq. reflexivity. }
      split; [exact Hcalls | now apply Hshots]. }
  intros Hok.
  destruct (@run_returns env d movie vd style camera fps Hok)
    as (files' & tmp & Hf & Hmk & Htr).
  rewrite Hf in Hfiles. injection Hfiles as ->.
  exists tmp. split; [exact Hmk |].
  assert (Hcalls : frame_calls
                     (trace (snd (create_movie_from_vtk env d movie vd style camera fps
                                    init_state)))
                   = flat_map (frame_events d style tmp) (sampled fps (enumerate files))).
  { rewrite Htr. now apply frame_calls_run. }
  split; [exact Hcalls | now apply Hshots].
Qed.

Lemma C4_frame_sampling_witness :
  frame_calls
    (trace (snd (create_movie_from_vtk (world "/data" (numbered 100))
                   "/data" "movie.mp4" true plain_style CameraUnset 10 init_state)))
  = flat_map
      (fun k =>
         [EvReadMesh ("/data/f_" ++ PyStr.str (6 * k) ++ ".vtk");
          EvAddMesh ("/data/f_" ++ PyStr.str (6 * k) ++ ".vtk") "fluid_block_snapshot"
            plain_style;
          EvScreenshot ("/tmp/tmpq3x9/" ++ frame_name (6 * k))])
      (seq 0 17) /\
  screenshot_paths
    (trace (snd (create_movie_from_vtk (world "/data" (numbered 8))
                   "/data" "movie.mp4" true plain_style CameraUnset 10 init_state)))
  = ["/tmp/tmpq3x9/frame_00000.png"; "/tmp/tmpq3x9/frame_00006.png"].
Proof.
  split.
  - destruct (@C4_frame_sampling (world "/data" (numbered 100))
                "/data" "movie.mp4" true plain_style CameraUnset 10%Z
                (map (entry "/data") (numbered 100)))
      as (_ & _ & _ & _ & _ & _ & _ & _ & H & _).
    + lia.
    + vm_compute. discriminate.
    + vm_compute. reflexivity.
    + destruct (H "/tmp/tmpq3x9" (fun _ => eq_refl) eq_refl eq_refl eq_refl) as [H1 _].
      * intros it _. repeat split.
      * rewrite H1. vm_compute. reflexivity.
  - destruct (@C4_frame_sampling (world "/data" (numbered 8))
                "/data" "movie.mp4" true plain_style CameraUnset 10%Z
                (map (entry "/data") (numbered 8)))
      as (_ & _ & _ & _ & _ & _ & _ & _ & _ & H).
    + lia.
    + vm_compute. discriminate.
    + vm_compute. reflexivity.
    + destruct H as (tmp & Hmk & _ & H2); [vm_compute; reflexivity |].
      injection Hmk as <-. rewrite H2. vm_compute. reflexivity.
Defined.

(** C9.  With [fps >= 120] the stride [int(round(60 / fps))] is 0.
    If the listing returns at least one file and the calls made
    before the loop return, the call raises [ZeroDivisionError] at the
    first sampling test, before any file is read or any image is
    written. *)
Theorem C9_zero_stride env d movie vd style camera fps files :
  (120 <= fps)%Z ->
  fst (get_sorted_files env d ".vtk" "_" init_state) = Ok files ->
  files <> [] ->
  (vd = true -> xvfb_ok env = true) ->
  plotter_ok env = true ->
  camera_ok env camera = true ->
  mkdtemp env <> None ->
  sampling_stride fps = Ok 0%Z /\
  fst (create_movie_from_vtk env d movie vd style camera fps init_state)
    = Raise ZeroDivisionError /\
  read_paths (trace (snd (create_movie_from_vtk env d movie vd style camera fps
                            init_state))) = [] /\
  screenshot_paths (trace (snd (create_movie_from_vtk env d movie vd style camera fps
                                  init_state))) = [].
Proof.
  intros Hfps Hfiles Hne Hx Hp Hc Ht.
  assert (Hstride : sampling_stride fps = Ok 0%Z).
  { rewrite sampling_stride_exact by lia. now rewrite round_div_zero. }
  split; [exact Hstride |].
  destruct (@set_up_intro env d vd camera files Hx Hfiles Hp Hc Ht) as [tmp Hset].
  rewrite (@run_loop env d movie vd style camera fps files tmp Hset).
  destruct files as [| f rest]; [contradiction |].
  change (enumerate (f :: rest))
    with ((0, f) :: combine (seq 1 (List.length rest)) rest).
  rewrite frame_loop_cons. unfold is_sampled. rewrite Hstride.
  cbn [fst py_mod Z.eqb after_loop snd cleanup trace loop_start].
  rewrite read_paths_app, screenshot_paths_app.
  destruct (prelude_quiet d vd camera) as (-> & -> & _). now repeat split.
Qed.

Lemma C9_zero_stride_witness :
  fst (create_movie_from_vtk (world "out" ["f_0.vtk"; "f_1.vtk"])
         "out" "movie.mp4" true plain_style CameraUnset 120 init_state)
  = Raise ZeroDivisionError.
Proof.
  apply (@C9_zero_stride (world "out" ["f_0.vtk"; "f_1.vtk"])
           "out" "movie.mp4" true plain_style CameraUnset 120%Z
           [entry "out" "f_0.vtk"; entry "out" "f_1.vtk"]);
    try reflexivity; discriminate.
Defined.

(** The files read are files of the listing, under the path
    [os.path.join(vtk_output_dir, entry.path)]. *)
Lemma run_read_paths env d movie vd style camera fps p :
  In p (read_paths (trace (snd (create_movie_from_vtk env d movie vd style camera fps
                                  init_state)))) ->
  exists names n,
    listdir env d = Some names /\ In n names /\
    p = PyPath.join d (de_path (entry d n)).
Proof.
  destruct (set_up env d vd camera) as [[files tmp] |] eqn:Hset.
  - rewrite (@run_loop env d movie vd style camera fps files tmp Hset).
    destruct (@set_up_inv env d vd camera files tmp Hset)
      as (_ & _ & (names & Hls & Hperm) & _).
    destruct (frame_loop_any env d style fps tmp (enumerate files) []
                (loop_start d vd camera tmp))
      as (_ & Htd & evs & ws & k & Ht & _ & Hev & _).
    destruct (@after_loop_any env movie fps tmp
                (frame_loop env d style fps tmp (enumerate files) []
                   (loop_start d vd camera tmp)) Htd)
      as (tail & Htr & Hrt & _).
    rewrite Htr, Ht. cbn [loop_start trace].
    rewrite !read_paths_app, Hrt, (proj1 (prelude_quiet d vd camera)).
    cbn [app]. rewrite app_nil_r. intros Hin.
    apply in_read_paths in Hin. rewrite Forall_forall in Hev.
    apply Hev in Hin. destruct Hin as (it & Hit & ->).
    apply enumerate_snd in Hit.
    apply (Permutation_in _ Hperm) in Hit. apply filter_In in Hit.
    destruct Hit as [Hit _]. apply in_map_iff in Hit.
    destruct Hit as (n & <- & Hn). exists names, n. now repeat split.
  - destruct (@run_early env d movie vd style camera fps Hset) as (e & _ & _ & _ & Hr & _).
    rewrite Hr. contradiction.
Qed.

Lemma starts_with_append c (a b : string) :
  a <> "" -> PyStr.starts_with c (a ++ b)%string = PyStr.starts_with c a.
Proof. destruct a; [contradiction | reflexivity]. Qed.

Lemma append_length (a b : string) :
  String.length (a ++ b)%string = String.length a + String.length b.
Proof. induction a as [| x a IH]; cbn; [reflexivity | now rewrite IH]. Qed.

Lemma join_dir_nonempty d : d <> "" -> PyPath.join d "" <> "".
Proof.
  intros Hd. unfold PyPath.join. cbn [PyStr.starts_with].
  destruct ((d =? "") || PyStr.ends_with PyPath.sep d).
  - now rewrite append_nil_r.
  - destruct d; [contradiction | discriminate].
Qed.

Lemma join_dir_isabs d : d <> "" -> PyPath.isabs (PyPath.join d "") = PyPath.isabs d.
Proof.
  intros Hd. unfold PyPath.join, PyPath.isabs. cbn [PyStr.starts_with].
  destruct ((d =? "") || PyStr.ends_with PyPath.sep d);
    now apply starts_with_append.
Qed.

(** The files of a listing are entries of the directory. *)
Lemma listed_entries env d fmt tok names files s :
  listdir env d = Some names ->
  fst (get_sorted_files env d fmt tok s) = Ok files ->
  forall f, In f files -> exists n, In n names /\ f = entry d n.
Proof.
  intros Hls Hfiles f Hin. rewrite get_sorted_files_run, Hls in Hfiles.
  destruct (path_exists env d); [| discriminate]. cbn [fst] in Hfiles.
  apply sorted_perm in Hfiles. apply (Permutation_in _ Hfiles) in Hin.
  apply filter_In in Hin. destruct Hin as [Hin _]. apply in_map_iff in Hin.
  destruct Hin as (n & <- & Hn). now exists n.
Qed.

(** C10.  The path given to [pv.read] for a sampled snapshot is
    [os.path.join(vtk_output_dir, entry.path)], where [entry.path]
    is itself [os.path.join(vtk_output_dir, name)].  Every file of
    the listing is such an entry; in every run the paths given to
    [pv.read] are, in the order of the calls, the joins for a first
    part of the sampled files, each for its own entry, and they are
    the joins for all the sampled files when the collaborators return
    and when the call returns.  The path read is the path of the
    entry exactly when the directory is absolute; for a relative
    directory the directory is written twice. *)
Theorem C10_read_path env d movie vd style camera fps :
  (forall p,
      In p (read_paths (trace (snd (create_movie_from_vtk env d movie vd style camera fps
                                      init_state)))) ->
      exists names n,
        listdir env d = Some names /\ In n names /\
        p = PyPath.join d (de_path (entry d n))) /\
  (forall n,
      d <> "" -> PyStr.starts_with PyPath.sep n = false ->
      frame_path_of d (entry d n) = PyPath.join d (de_path (entry d n)) /\
      (frame_path_of d (entry d n) = de_path (entry d n) <-> PyPath.isabs d = true) /\
      (PyPath.isabs d = false ->
       frame_path_of d (entry d n)
       = (PyPath.join d "" ++ PyPath.join d "" ++ n)%string)) /\
  (forall names files,
      listdir env d = Some names ->
      fst (get_sorted_files env d ".vtk" "_" init_state) = Ok files ->
      (forall f, In f files -> exists n, In n names /\ f = entry d n) /\
      (exists k,
          read_paths (trace (snd (create_movie_from_vtk env d movie vd style camera fps
                                    init_state)))
          = map (fun it => PyPath.join d (de_path (snd it)))
                (firstn k (sampled fps (enumerate files)))) /\
      (forall tmp stride,
          (vd = true -> xvfb_ok env = true) ->
          plotter_ok env = true ->
          camera_ok env camera = true ->
          mkdtemp env = Some tmp ->
          sampling_stride fps = Ok stride ->
          stride <> 0%Z ->
          (forall it,
              In it (sampled fps (enumerate files)) ->
              read_ok env (PyPath.join d (de_path (snd it))) = true /\
              add_mesh_ok env (PyPath.join d (de_path (snd it))) = true /\
              screenshot_ok env (image_frame_path_of tmp (fst it)) = true) ->
          read_paths (trace (snd (create_movie_from_vtk env d movie vd style camera fps
                                    init_state)))
          = map (fun it => PyPath.join d (de_path (snd it)))
                (sampled fps (enumerate files))) /\
      (fst (create_movie_from_vtk env d movie vd style camera fps init_state) = Ok tt ->
       read_paths (trace (snd (create_movie_from_vtk env d movie vd style camera fps
                                 init_state)))
       = map (fun it => PyPath.join d (de_path (snd it)))
             (sampled fps (enumerate files)))).
Proof.
  split; [intros p; apply run_read_paths |].
  split.
  { intros n Hd Hn. split; [reflexivity |].
    unfold frame_path_of. cbn [entry de_path].
    rewrite (join_relative d n Hn).
    pose proof (join_dir_nonempty Hd) as Hne.
    pose proof (join_dir_isabs Hd) as Habs. unfold PyPath.isabs in *.
    assert (Hrel : PyStr.starts_with PyPath.sep d = false ->
                   PyPath.join d (PyPath.join d "" ++ n)
                   = (PyPath.join d "" ++ PyPath.join d "" ++ n)%string).
    { intros Hr. apply join_relative. rewrite starts_with_append by exact Hne.
      now rewrite Habs. }
    split; [split |].
    - intros Heq. destruct (PyStr.starts_with PyPath.sep d) eqn:Hs; [reflexivity |].
      rewrite (Hrel eq_refl) in Heq.
      apply (f_equal String.length) in Heq. rewrite !append_length in Heq.
      assert (String.length (PyPath.join d "") <> 0)
        by (destruct (PyPath.join d ""); [contradiction | discriminate]).
      lia.
    - intros Ha. unfold PyPath.join at 1.
      rewrite starts_with_append by exact Hne. now rewrite Habs, Ha.
    - exact Hrel. }
  intros names files Hls Hfiles.
  split; [exact (@listed_entries env d ".vtk" "_" names files init_state Hls Hfiles) |].
  split; [now apply run_reads |].
  split.
  - intros tmp stride Hx Hp Hc Hmk Hstride Hnz Hok.
    destruct (@set_up_intro env d vd camera files Hx Hfiles Hp Hc) as (tmp' & Hset);
      [rewrite Hmk; discriminate |].
    destruct (@set_up_inv env d vd camera files tmp' Hset) as (_ & _ & _ & _ & _ & Hmk').
    rewrite Hmk in Hmk'. injection Hmk' as <-.
    destruct (@run_renders env d movie vd style camera fps files tmp stride
                Hset Hstride Hnz Hok) as (tail & -> & _ & Hr).
    rewrite !read_paths_app, read_paths_frames, Hr.
    rewrite (proj1 (prelude_quiet d vd camera)). cbn [app read_paths flat_map].
    now rewrite app_nil_r.
  - intros Hret.
    destruct (@run_returns env d movie vd style camera fps Hret)
      as (files' & tmp & Hf & _ & ->).
    rewrite Hf in Hfiles. injection Hfiles as ->.
    rewrite !read_paths_app, read_paths_frames.
    rewrite (proj1 (prelude_quiet d vd camera)). cbn [app read_paths flat_map].
    now rewrite app_nil_r.
Qed.

Lemma C10_read_path_witness :
  frame_path_of "out" (entry "out" "f_1.vtk") = "out/out/f_1.vtk" /\
  frame_path_of "/data/out" (entry "/data/out" "f_1.vtk") = "/data/out/f_1.vtk" /\
  read_paths
    (trace (snd (create_movie_from_vtk (world "out" ["f_1.vtk"; "f_0.vtk"])
                   "out" "movie.mp4" true plain_style CameraUnset 60 init_state)))
  = ["out/out/f_0.vtk"; "out/out/f_1.vtk"] /\
  read_paths
    (trace (snd (create_movie_from_vtk (world "/data/out" ["f_1.vtk"; "f_0.vtk"])
                   "/data/out" "movie.mp4" true plain_style CameraUnset 60 init_state)))
  = ["/data/out/f_0.vtk"; "/data/out/f_1.vtk"].
Proof.
  destruct (@C10_read_path (world "out" ["f_1.vtk"; "f_0.vtk"]) "out" "movie.mp4" true
              plain_style CameraUnset 60%Z) as (_ & Hrel & Hrun).
  destruct (Hrel "f_1.vtk") as (_ & _ & H1); [discriminate | reflexivity |].
  destruct (@C10_read_path (world "/data/out" ["f_1.vtk"; "f_0.vtk"]) "/data/out"
              "movie.mp4" true plain_style CameraUnset 60%Z) as (_ & Habs & Hrun').
  destruct (Habs "f_1.vtk") as (_ & H2 & _); [discriminate | reflexivity |].
  destruct (Hrun ["f_1.vtk"; "f_0.vtk"] [entry "out" "f_0.vtk"; entry "out" "f_1.vtk"]
              eq_refl eq_refl) as (_ & _ & H3 & _).
  destruct (Hrun' ["f_1.vtk"; "f_0.vtk"]
              [entry "/data/out" "f_0.vtk"; entry "/data/out" "f_1.vtk"]
              eq_refl eq_refl) as (_ & _ & _ & H4).
  split; [rewrite H1 by reflexivity; reflexivity |].
  split; [rewrite (proj2 H2) by reflexivity; reflexivity |].
  split.
  - rewrite (H3 "/tmp/tmpq3x9" 1%Z (fun _ => eq_refl) eq_refl eq_refl eq_refl eq_refl).
    + reflexivity.
    + discriminate.
    + intros it _. repeat split.
  - rewrite H4 by reflexivity. reflexivity.
Defined.

(** ** The names of the still images *)

Section FrameNames.

Local Open Scope string_scope.

Lemma str_fuel_enough f : forall f' n, n < f -> n < f' ->
  PyStr.str_fuel f n = PyStr.str_fuel f' n.
Proof.
  induction f as [| f IH]; intros f' n Hf Hf'; [lia |].
  destruct f' as [| f']; [lia |]. cbn [PyStr.str_fuel].
  destruct (Nat.ltb_spec n 10) as [| Hge]; [reflexivity |].
  assert (n / 10 < n) by (apply Nat.div_lt; lia).
  rewrite (IH f' (n / 10)) by lia. reflexivity.
Qed.

(** [str] writes the last digit after the digits of the tenth. *)
Lemma str_unfold n :
  PyStr.str n =
  if (n <? 10)%nat then PyStr.digit_char n
  else PyStr.str (n / 10) ++ PyStr.digit_char (n mod 10).
Proof.
  unfold PyStr.str at 1. cbn [PyStr.str_fuel].
  destruct (Nat.ltb_spec n 10) as [| Hge]; [reflexivity |].
  assert (n / 10 < n) by (apply Nat.div_lt; lia).
  unfold PyStr.str. rewrite (@str_fuel_enough n (S (n / 10)) (n / 10)) by lia.
  reflexivity.
Qed.

Lemma digit_char_unsigned d : d < 10 -> unsigned (PyStr.digit_char d).
Proof.
  intros Hd. exists (ascii_of_nat (48 + d)), "". split; [reflexivity |].
  do 10 (destruct d as [| d]; [reflexivity |]). lia.
Qed.

Lemma str_unsigned n : unsigned (PyStr.str n).
Proof.
  induction n as [n IH] using lt_wf_ind. rewrite str_unfold.
  destruct (Nat.ltb_spec n 10) as [Hlt | Hge]; [now apply digit_char_unsigned |].
  destruct (IH (n / 10)) as (c & r & -> & Hc); [apply Nat.div_lt; lia |].
  exists c, (r ++ PyStr.digit_char (n mod 10)). now split.
Qed.

Lemma zeros_length k : String.length (PyStr.zeros k) = k.
Proof. induction k as [| k IH]; cbn; [reflexivity | now rewrite IH]. Qed.

Lemma zeros_snoc k : PyStr.zeros k ++ "0" = String "0" (PyStr.zeros k).
Proof. induction k as [| k IH]; cbn; [reflexivity | now rewrite IH]. Qed.

(** On an unsigned string [zfill] pads on the left. *)
Lemma zfill_unsigned w s :
  unsigned s -> PyStr.zfill w s = PyStr.zeros (w - String.length s) ++ s.
Proof.
  intros (c & r & -> & Hc). unfold PyStr.zfill.
  destruct (Nat.leb_spec w (String.length (String c r))) as [Hle | Hgt].
  - replace (w - String.length (String c r)) with 0 by lia. reflexivity.
  - now rewrite Hc.
Qed.

Lemma zfill_length w s : w <= String.length (PyStr.zfill w s).
Proof.
  unfold PyStr.zfill.
  destruct (Nat.leb_spec w (String.length s)) as [Hle | Hgt]; [exact Hle |].
  destruct s as [| c r].
  - rewrite zeros_length. cbn. lia.
  - destruct (Ascii.eqb c "+" || Ascii.eqb c "-"); cbn [String.length] in *;
      rewrite append_length, zeros_length; cbn [String.length]; lia.
Qed.

Lemma digits_zero k : digits k 0 = PyStr.zeros k.
Proof.
  induction k as [| k IH]; [reflexivity |].
  cbn [digits]. change (0 / 10) with 0. change (0 mod 10) with 0.
  rewrite IH. apply zeros_snoc.
Qed.

Lemma digits_length k : forall n, String.length (digits k n) = k.
Proof.
  induction k as [| k IH]; intros n; [reflexivity |].
  cbn [digits]. rewrite append_length, IH. cbn. lia.
Qed.

Lemma str_length_pos n : 1 <= String.length (PyStr.str n).
Proof. destruct (str_unsigned n) as (c & r & -> & _). cbn. lia. Qed.

(** Below [10 ^ k] the padded number is the [k] digits of the
    number. *)
Lemma zfill_digits k : forall n,
  1 <= k -> n < 10 ^ k -> PyStr.zfill k (PyStr.str n) = digits k n.
Proof.
  induction k as [| k IH]; intros n Hk Hn; [lia |].
  rewrite zfill_unsigned by apply str_unsigned.
  rewrite str_unfold. cbn [digits].
  destruct (Nat.ltb_spec n 10) as [Hlt | Hge].
  - rewrite Nat.div_small, Nat.mod_small, digits_zero by lia.
    cbn [PyStr.digit_char String.length]. now replace (S k - 1) with k by lia.
  - assert (Hk' : 1 <= k).
    { destruct k; [cbn in Hn; lia | lia]. }
    assert (Hn' : n / 10 < 10 ^ k).
    { apply Nat.Div0.div_lt_upper_bound. cbn [Nat.pow] in Hn. lia. }
    rewrite <- (IH (n / 10) Hk' Hn').
    rewrite zfill_unsigned by apply str_unsigned.
    rewrite append_length. cbn [PyStr.digit_char String.length].
    rewrite <- append_assoc. f_equal. f_equal. f_equal. lia.
Qed.

Lemma compare_refl (s : string) : String.compare s s = Eq.
Proof.
  induction s as [| c s IH]; cbn; [reflexivity |].
  unfold Ascii.compare. now rewrite N.compare_refl.
Qed.

Lemma compare_append (a : string) : forall b x y,
  String.length a = String.length b ->
  String.compare (a ++ x) (b ++ y) =
  match String.compare a b with
  | Eq => String.compare x y
  | c => c
  end.
Proof.
  induction a as [| c a IH]; intros [| c' b] x y Hlen; try discriminate.
  - reflexivity.
  - cbn. destruct (Ascii.compare c c'); try reflexivity.
    apply IH. now injection Hlen.
Qed.

Lemma digit_char_lt a b :
  a < b -> b < 10 -> String.compare (PyStr.digit_char a) (PyStr.digit_char b) = Lt.
Proof.
  intros Hab Hb.
  do 10 (destruct b as [| b];
         [do 10 (destruct a as [| a]; [try lia; reflexivity |]); lia |]).
  lia.
Qed.

(** On fields of the same width the alphabetical order is the order
    of the numbers. *)
Lemma digits_lt k : forall i j,
  i < j -> j < 10 ^ k -> String.compare (digits k i) (digits k j) = Lt.
Proof.
  induction k as [| k IH]; intros i j Hij Hj; [cbn in Hj; lia |].
  cbn [digits]. rewrite compare_append by now rewrite !digits_length.
  assert (Hj' : j / 10 < 10 ^ k).
  { apply Nat.Div0.div_lt_upper_bound. cbn [Nat.pow] in Hj. lia. }
  assert (Hle : i / 10 <= j / 10) by (apply Nat.Div0.div_le_mono; lia).
  destruct (Nat.eq_dec (i / 10) (j / 10)) as [Heq | Hne].
  - rewrite Heq, compare_refl. apply digit_char_lt.
    + pose proof (Nat.div_mod_eq i 10). pose proof (Nat.div_mod_eq j 10). lia.
    + apply Nat.mod_upper_bound. lia.
  - rewrite IH; [reflexivity | lia | exact Hj'].
Qed.

End FrameNames.

(** C8 (amended).  The name of a still image embeds the position of
    its snapshot in the sorted listing, padded with zeros to at least
    5 digits; the name is computed for every position, and for
    positions below 100000 the alphabetical order of the names is the
    order of the positions. *)
Theorem C8_frame_names_ordered :
  (forall index,
      frame_name index = ("frame_" ++ PyStr.zfill 5 (PyStr.str index) ++ ".png")%string /\
      5 <= String.length (PyStr.zfill 5 (PyStr.str index))) /\
  (forall index,
      index < 10 ^ 5 -> PyStr.zfill 5 (PyStr.str index) = digits 5 index) /\
  (forall i j,
      i < j -> j < 10 ^ 5 -> PyStr.lt (frame_name i) (frame_name j)).
Proof.
  split; [intros index; split; [reflexivity | apply zfill_length] |].
  split; [intros index Hi; apply zfill_digits; [lia | exact Hi] |].
  intros i j Hij Hj. unfold PyStr.lt, frame_name.
  assert (Hi : i < 10 ^ 5) by (eapply Nat.lt_trans; eassumption).
  assert (H5 : 1 <= 5) by (repeat constructor).
  rewrite (zfill_digits H5 Hi), (zfill_digits H5 Hj).
  rewrite (@compare_append "frame_") by reflexivity.
  rewrite compare_refl.
  rewrite compare_append by now rewrite !digits_length.
  now rewrite (digits_lt 5 Hij Hj).
Qed.

Lemma C8_frame_names_ordered_witness :
  PyStr.lt (frame_name 96) (frame_name 102).
Proof.
  apply C8_frame_names_ordered; apply Nat.ltb_lt; vm_compute; reflexivity.
Defined.

(** Positions 99996 and 100002 are both sampled at 10 frames per
    second; their names are written without a failure, and the later
    one comes first in alphabetical order. *)
Lemma C8_wide_position_unordered :
  is_sampled 10 99996 = true /\
  is_sampled 10 100002 = true /\
  fst (frame_loop (world "out" []) "out" plain_style 10 "/tmp/tmpq3x9"
         [(99996, entry "out" "f_99996.vtk"); (100002, entry "out" "f_100002.vtk")]
         [] init_state)
  = Ok ["/tmp/tmpq3x9/frame_99996.png"; "/tmp/tmpq3x9/frame_100002.png"] /\
  PyStr.lt (frame_name 100002) (frame_name 99996).
Proof. vm_compute. repeat split. Qed.

(** * Further properties *)

(** ** More on strings and paths *)

Section StringFacts.

Local Open Scope string_scope.

Lemma rfind_none c s : PyStr.rfind c s = None <-> occurs c s = false.
Proof.
  induction s as [| a s IH]; cbn; [tauto |].
  destruct (PyStr.rfind c s) as [i |].
  - split; [discriminate |]. intros H. apply orb_false_iff in H.
    destruct H as [_ H]. apply IH in H. discriminate.
  - destruct (Ascii.eqb a c); cbn; [split; discriminate |].
    split; intros _; [now apply IH | reflexivity].
Qed.

Lemma occurs_app c a b : occurs c (a ++ b) = occurs c a || occurs c b.
Proof.
  induction a as [| x a IH]; cbn; [reflexivity |].
  now rewrite IH, orb_assoc.
Qed.

(** The last occurrence in a concatenation is the last one of the
    second part, if it has one. *)
Lemma rfind_app c a b :
  PyStr.rfind c (a ++ b) =
  match PyStr.rfind c b with
  | Some j => Some (String.length a + j)
  | None => PyStr.rfind c a
  end.
Proof.
  induction a as [| x a IH]; cbn.
  - now destruct (PyStr.rfind c b).
  - rewrite IH. destruct (PyStr.rfind c b); [reflexivity |].
    reflexivity.
Qed.

Lemma drop_app a b : PyStr.drop (String.length a) (a ++ b) = b.
Proof. induction a as [| x a IH]; cbn; [now destruct b | exact IH]. Qed.

Lemma take_app a b : PyStr.take (String.length a) (a ++ b) = a.
Proof.
  induction a as [| x a IH]; cbn; [now destruct b | now rewrite IH].
Qed.

Lemma take_drop i s : PyStr.take i s ++ PyStr.drop i s = s.
Proof.
  revert s. induction i as [| i IH]; intros [| a s]; cbn; try reflexivity.
  now rewrite IH.
Qed.

Lemma take_length i s : i <= String.length s -> String.length (PyStr.take i s) = i.
Proof.
  revert s. induction i as [| i IH]; intros [| a s]; cbn; intros H; try lia.
  rewrite IH; lia.
Qed.

(** Where [rfind] finds [c], [c] stands, and not after. *)
Lemma rfind_some c s i :
  PyStr.rfind c s = Some i ->
  i < String.length s /\
  exists r, PyStr.drop i s = String c r /\ occurs c r = false.
Proof.
  revert i. induction s as [| a s IH]; cbn; intros i H; [discriminate |].
  destruct (PyStr.rfind c s) as [j |] eqn:Hr.
  - injection H as <-. destruct (IH j eq_refl) as (Hj & r & Hd & Ho).
    split; [lia |]. exists r. now split.
  - destruct (Ascii.eqb_spec a c) as [-> |]; [| discriminate].
    injection H as <-. split; [lia |]. exists s.
    split; [reflexivity | now apply rfind_none].
Qed.

Lemma ends_with_snoc c s :
  PyStr.ends_with c s = true -> exists s', s = s' ++ one c.
Proof.
  induction s as [| a s IH]; [discriminate |].
  destruct s as [| b s].
  - cbn. intros H. apply Ascii.eqb_eq in H. subst. now exists "".
  - intros H. destruct (IH H) as [s' ->]. now exists (String a s').
Qed.

Lemma starts_with_occurs c s : occurs c s = false -> PyStr.starts_with c s = false.
Proof. destruct s; cbn; [reflexivity |]. intros H. now apply orb_false_iff in H. Qed.

(** The directory part of a joined path is empty or ends with a
    separator. *)
Lemma join_dir_shape d :
  PyPath.join d "" = "" \/ exists s, PyPath.join d "" = s ++ one PyPath.sep.
Proof.
  unfold PyPath.join. cbn [PyStr.starts_with].
  destruct (String.eqb_spec d "") as [-> | Hd]; [now left |].
  cbn [orb]. destruct (PyStr.ends_with PyPath.sep d) eqn:He.
  - right. destruct (ends_with_snoc _ _ He) as [s ->]. exists s.
    now rewrite append_nil_r.
  - right. now exists d.
Qed.

(** [Path(entry.path).name] is the name of the entry. *)
Lemma name_join d n :
  occurs PyPath.sep n = false -> PyPath.name (PyPath.join d n) = n.
Proof.
  intros Hn. rewrite (join_relative d n (starts_with_occurs _ _ Hn)).
  unfold PyPath.name. rewrite rfind_app, (proj2 (rfind_none _ _) Hn).
  destruct (join_dir_shape d) as [-> | [s ->]]; [reflexivity |].
  rewrite rfind_app. cbn [PyStr.rfind one]. rewrite Ascii.eqb_refl.
  rewrite append_assoc.
  replace (S (String.length s + 0)) with (String.length (s ++ one PyPath.sep))
    by (rewrite append_length; cbn; lia).
  rewrite <- append_assoc. apply drop_app.
Qed.

(** The suffix that [pathlib] finds is empty, or a dot followed by at
    least one character and no further dot. *)
Lemma suffix_shape p :
  PyPath.suffix p = "" \/
  exists e, PyPath.suffix p = String "." e /\ e <> "" /\ occurs "." e = false.
Proof.
  unfold PyPath.suffix. destruct (PyStr.rfind "." (PyPath.name p)) as [i |] eqn:Hr;
    [| now left].
  destruct (Nat.ltb_spec 0 i) as [H0 |]; [| now left]. cbn [andb].
  destruct (Nat.ltb_spec i (String.length (PyPath.name p) - 1)) as [H1 |]; [| now left].
  right. destruct (rfind_some _ _ Hr) as (_ & r & Hd & Ho).
  exists r. rewrite Hd. repeat split; trivial.
  intros ->. pose proof (take_drop i (PyPath.name p)) as Htd.
  apply (f_equal String.length) in Htd. rewrite append_length, Hd in Htd.
  rewrite take_length in Htd by lia. cbn in Htd. lia.
Qed.

(** The suffix and the stem of an entry whose name is a non-empty
    stem and an extension. *)
Lemma suffix_stem_join d s e :
  s <> "" -> e <> "" -> occurs "." e = false ->
  occurs PyPath.sep (s ++ String "." e) = false ->
  PyPath.suffix (PyPath.join d (s ++ String "." e)) = String "." e /\
  PyPath.stem (PyPath.join d (s ++ String "." e)) = s.
Proof.
  intros Hs He Hdot Hsep. unfold PyPath.suffix, PyPath.stem.
  rewrite (name_join d _ Hsep), rfind_app. cbn [PyStr.rfind].
  rewrite (proj2 (rfind_none _ _) Hdot). change (Ascii.eqb "." ".") with true.
  cbv iota. rewrite Nat.add_0_r, append_length. cbn [String.length].
  assert (0 < String.length s) by (destruct s; [contradiction | cbn; lia]).
  assert (0 < String.length e) by (destruct e; [contradiction | cbn; lia]).
  destruct (Nat.ltb_spec 0 (String.length s)); [| lia].
  destruct (Nat.ltb_spec (String.length s)
              (String.length s + S (String.length e) - 1)); [| lia].
  cbn [andb]. now rewrite drop_app, take_app.
Qed.

End StringFacts.

Section SplitFacts.

Local Open Scope string_scope.

Variable c : ascii.

Lemma rev_onto_twice s : forall acc acc',
  PyStr.rev_onto acc (PyStr.rev_onto acc' s) = PyStr.rev_onto (s ++ acc) acc'.
Proof.
  induction s as [| a s IH]; intros acc acc'; cbn; [reflexivity |].
  now rewrite IH.
Qed.

Lemma split_go_step cur a s :
  PyStr.split_go (one c) 0 cur (String a s) =
  if Ascii.eqb a c then PyStr.rev cur :: PyStr.split_go (one c) 0 "" s
  else PyStr.split_go (one c) 0 (String a cur) s.
Proof.
  cbn [PyStr.split_go one prefix String.length Nat.sub].
  destruct (ascii_dec c a) as [<- | Hne].
  - rewrite Ascii.eqb_refl. now destruct s.
  - destruct (Ascii.eqb_spec a c) as [-> |]; [contradiction | reflexivity].
Qed.

(** A string without the separator is one piece. *)
Lemma split_go_whole s : forall cur,
  occurs c s = false ->
  PyStr.split_go (one c) 0 cur s = [PyStr.rev (PyStr.rev_onto cur s)].
Proof.
  induction s as [| a s IH]; intros cur Hs; [reflexivity |].
  rewrite split_go_step. cbn in Hs. apply orb_false_iff in Hs.
  destruct Hs as [-> Hs]. now apply IH.
Qed.

Lemma last_cons (A : Type) (t : list A) : forall x y, List.last (y :: t) x = List.last t y.
Proof.
  induction t as [| z t IH]; intros x y; [reflexivity |].
  change (List.last (y :: z :: t) x) with (List.last (z :: t) x).
  now rewrite !IH.
Qed.

(** The last piece is what follows the last separator. *)
Lemma split_go_last a b : forall cur,
  occurs c b = false ->
  PyStr.last_item (PyStr.split_go (one c) 0 cur (a ++ String c b)) = Some b.
Proof.
  induction a as [| x a IH]; intros cur Hb.
  - cbn [append]. rewrite split_go_step, Ascii.eqb_refl, (@split_go_whole b "" Hb).
    cbn. unfold PyStr.rev. rewrite rev_onto_twice. cbn. now rewrite append_nil_r.
  - cbn [append]. rewrite split_go_step. destruct (Ascii.eqb x c); [| now apply IH].
    specialize (IH "" Hb).
    destruct (PyStr.split_go (one c) 0 "" (a ++ String c b)) as [| y t];
      [discriminate |].
    cbn [PyStr.last_item] in *. now rewrite last_cons.
Qed.

End SplitFacts.

Section IntStr.

Local Open Scope string_scope.

Lemma digit_value_char d :
  d < 10 -> PyStr.digit_value (ascii_of_nat (48 + d)) = Some (Z.of_nat d).
Proof. intros H. do 10 (destruct d as [| d]; [reflexivity |]). lia. Qed.

(** [int] reads the digits that [str] writes. *)
Lemma int_body_str n : forall acc st t,
  exists acc',
    PyStr.int_body acc st (PyStr.str n ++ t) = PyStr.int_body acc' PyStr.IntDigit t /\
    (acc = 0%Z -> acc' = Z.of_nat n).
Proof.
  induction n as [n IH] using lt_wf_ind. intros acc st t.
  rewrite str_unfold. destruct (Nat.ltb_spec n 10) as [Hlt | Hge].
  - cbn [PyStr.digit_char append PyStr.int_body].
    rewrite (digit_value_char Hlt). eexists. split; [reflexivity |].
    intros ->. lia.
  - rewrite append_assoc.
    destruct (IH (n / 10)
                ltac:(apply Nat.div_lt; lia) acc st
                (PyStr.digit_char (n mod 10) ++ t)) as (acc1 & -> & Hacc).
    cbn [PyStr.digit_char append PyStr.int_body].
    rewrite (digit_value_char (Nat.mod_upper_bound n 10 ltac:(lia))).
    eexists. split; [reflexivity |].
    intros Hz. rewrite (Hacc Hz).
    rewrite (Nat.div_mod_eq n 10) at 3. lia.
Qed.

Lemma int_body_zeros k : forall st t,
  PyStr.int_body 0 st (PyStr.zeros k ++ t) =
  PyStr.int_body 0 (match k with 0 => st | _ => PyStr.IntDigit end) t.
Proof.
  induction k as [| k IH]; intros st t; [reflexivity |].
  cbn [PyStr.zeros append PyStr.int_body]. change (PyStr.digit_value "0") with (Some 0%Z).
  cbn [Z.mul Z.add]. rewrite IH. now destruct k.
Qed.

(** A decimal number, with or without zeros in front, starts with a
    digit. *)
Lemma padded_head k n :
  exists d r, d < 10 /\ PyStr.zeros k ++ PyStr.str n = String (ascii_of_nat (48 + d)) r.
Proof.
  destruct k as [| k].
  - induction n as [n IH] using lt_wf_ind. rewrite str_unfold.
    destruct (Nat.ltb_spec n 10) as [Hlt | Hge].
    + now exists n, "".
    + destruct (IH (n / 10) ltac:(apply Nat.div_lt; lia)) as (d & r & Hd & Hr).
      cbn [PyStr.zeros append] in *. rewrite Hr. now exists d, (r ++ PyStr.digit_char (n mod 10)).
  - exists 0, (PyStr.zeros k ++ PyStr.str n). split; [lia | reflexivity].
Qed.

(** Round trip: [int(str(n).zfill(w)) == n], for every width. *)
Lemma int_padded k n : PyStr.int (PyStr.zeros k ++ PyStr.str n) = Some (Z.of_nat n).
Proof.
  assert (Hbody : forall st,
             PyStr.int_body 0 st (PyStr.zeros k ++ PyStr.str n) = Some (Z.of_nat n)).
  { intros st. rewrite int_body_zeros.
    rewrite <- (append_nil_r (PyStr.str n)).
    destruct (int_body_str n 0 (match k with 0 => st | _ => PyStr.IntDigit end) "")
      as (acc' & -> & Hacc).
    now rewrite (Hacc eq_refl). }
  unfold PyStr.int. destruct (padded_head k n) as (d & r & Hd & Hr).
  rewrite Hr in *. 
  assert (Hl : PyStr.lstrip (String (ascii_of_nat (48 + d)) r)
               = String (ascii_of_nat (48 + d)) r).
  { do 10 (destruct d as [| d]; [reflexivity |]). lia. }
  rewrite Hl.
  do 10 (destruct d as [| d]; [apply Hbody |]). lia.
Qed.

Lemma occurs_digit_char c d :
  d < 10 -> PyStr.digit_value c = None -> occurs c (PyStr.digit_char d) = false.
Proof.
  intros Hd Hc. unfold PyStr.digit_char. cbn [occurs]. rewrite orb_false_r.
  destruct (Ascii.eqb_spec (ascii_of_nat (48 + d)) c) as [<- |]; [| reflexivity].
  rewrite (digit_value_char Hd) in Hc. discriminate.
Qed.

(** A character that is not a digit does not occur in a decimal
    number. *)
Lemma occurs_padded c k n :
  PyStr.digit_value c = None -> occurs c (PyStr.zeros k ++ PyStr.str n) = false.
Proof.
  intros Hc. rewrite occurs_app. apply orb_false_iff. split.
  - induction k as [| k IH]; [reflexivity |].
    cbn [PyStr.zeros occurs]. rewrite IH, orb_false_r.
    destruct (Ascii.eqb_spec "0" c) as [<- |]; [discriminate Hc | reflexivity].
  - induction n as [n IH] using lt_wf_ind. rewrite str_unfold.
    destruct (Nat.ltb_spec n 10) as [Hlt | Hge]; [now apply occurs_digit_char |].
    rewrite occurs_app, IH by (apply Nat.div_lt; lia).
    apply occurs_digit_char; [apply Nat.mod_upper_bound; lia | exact Hc].
Qed.

End IntStr.
(** ** Listings that are already in order *)

Section OrderedInput.

Variable A : Type.
Variable key : A -> result Z.

Lemma insert_key_head (x : Z * A) (l : list (Z * A)) :
  HdRel (@key_le A) x l -> insert_key x l = x :: l.
Proof.
  intros H. destruct l as [| y t]; [reflexivity |]. cbn.
  inversion H as [| ? ? Hle]; subst. unfold key_le in Hle.
  destruct (Z.leb_spec (fst x) (fst y)); [reflexivity | lia].
Qed.

(** Sorting a sorted list changes nothing, ties included. *)
Lemma stable_sort_sorted_id (l : list (Z * A)) :
  Sorted (@key_le A) l -> stable_sort l = l.
Proof.
  induction 1 as [| x t _ IH Hd]; [reflexivity |].
  cbn. rewrite IH. now apply insert_key_head.
Qed.

Lemma decorate_keys (xs : list A) : forall ks : list Z,
  map key xs = map (@Ok Z) ks -> decorate key xs = Ok (combine ks xs).
Proof.
  induction xs as [| x xs IH]; intros [| k ks] H; try discriminate; [reflexivity |].
  cbn in H. injection H as Hk Hks. cbn. now rewrite Hk, (IH ks Hks).
Qed.

Lemma combine_sorted (xs : list A) : forall ks : list Z,
  List.length ks = List.length xs ->
  Sorted Z.le ks -> Sorted (@key_le A) (combine ks xs).
Proof.
  induction xs as [| x xs IH]; intros [| k ks] Hlen Hs; try discriminate;
    [constructor |].
  cbn. inversion Hs as [| ? ? Hs' Hd]; subst. constructor.
  - apply IH; [now injection Hlen | exact Hs'].
  - destruct ks as [| k' ks], xs as [| x' xs]; try discriminate; constructor.
    inversion Hd; subst. assumption.
Qed.

Lemma combine_snd (xs : list A) : forall ks : list Z,
  List.length ks = List.length xs -> map snd (combine ks xs) = xs.
Proof.
  induction xs as [| x xs IH]; intros [| k ks] Hlen; try discriminate; [reflexivity |].
  cbn. rewrite IH; [reflexivity | now injection Hlen].
Qed.

(** [sorted] returns a list whose keys already go up as it is. *)
Lemma sorted_ascending_input (xs : list A) (ks : list Z) :
  map key xs = map (@Ok Z) ks -> Sorted Z.le ks -> sorted key xs = Ok xs.
Proof.
  intros Hk Hs.
  assert (Hlen : List.length ks = List.length xs).
  { apply (f_equal (@List.length _)) in Hk. rewrite !length_map in Hk. congruence. }
  unfold sorted. rewrite (decorate_keys _ _ Hk).
  rewrite stable_sort_sorted_id by now apply combine_sorted.
  now rewrite combine_snd.
Qed.

End OrderedInput.

Lemma StronglySorted_lt_le ks : StronglySorted Z.lt ks -> Sorted Z.le ks.
Proof.
  intros H. apply StronglySorted_Sorted.
  induction H as [| k ks _ IH Hall]; constructor; [exact IH |].
  eapply Forall_impl; [| exact Hall]. intros; lia.
Qed.

Lemma StronglySorted_lt_NoDup ks : StronglySorted Z.lt ks -> NoDup ks.
Proof.
  induction 1 as [| k ks _ IH Hall]; constructor; [| exact IH].
  intros Hin. rewrite Forall_forall in Hall. specialize (Hall _ Hin). lia.
Qed.


Section AnyOrder.

Variable A : Type.
Variable key : A -> result Z.

(** Items with distinct keys come out in the order of the keys,
    whatever their order going in. *)
Lemma sorted_any_order (xs xs' : list A) (ks : list Z) :
  map key xs = map (@Ok Z) ks -> StronglySorted Z.lt ks ->
  Permutation xs xs' -> sorted key xs' = Ok xs.
Proof.
  intros Hk Hs Hp.
  destruct (sorted_spec key xs) as (files & keys & Hsorted & _ & Hkeys & _ & _ & Hnd).
  { intros x Hx. apply (in_map key) in Hx. rewrite Hk in Hx.
    apply in_map_iff in Hx. destruct Hx as (k & Hx & _). now exists k. }
  rewrite (sorted_ascending_input key xs Hk (StronglySorted_lt_le Hs)) in Hsorted.
  injection Hsorted as <-.
  assert (keys = ks).
  { rewrite Hk in Hkeys. clear -Hkeys. revert keys Hkeys.
    induction ks as [| k ks IH]; intros [| k' keys] H; try discriminate; [reflexivity |].
    cbn in H. injection H as <- H. f_equal. now apply IH. }
  subst keys. now apply Hnd; [apply StronglySorted_lt_NoDup |].
Qed.

End AnyOrder.


(** ** Names and keys *)

Section KeyFacts.

Local Open Scope string_scope.

(** The key is read off the stem, its last piece and [int]. *)
Lemma key_from_parts tok f st segs seg k :
  PyPath.stem (de_path f) = st ->
  PyStr.split tok st = Some segs ->
  PyStr.last_item segs = Some seg ->
  PyStr.int seg = Some k ->
  get_alphanum_key tok f = Ok k.
Proof.
  intros Hst Hsp Hl Hi. unfold get_alphanum_key. now rewrite Hst, Hsp, Hl, Hi.
Qed.

(** The parts of a name [<prefix><token><index>.<ext>]: the
    extension, the stem, and the last piece of the stem. *)
Lemma indexed_name_parts d pre c k i e :
  occurs PyPath.sep pre = false ->
  c <> PyPath.sep ->
  PyStr.digit_value c = None ->
  e <> "" -> occurs "." e = false -> occurs PyPath.sep e = false ->
  PyPath.suffix (PyPath.join d (indexed_name pre c k i e)) = String "." e /\
  PyPath.stem (PyPath.join d (indexed_name pre c k i e))
    = pre ++ String c (PyStr.zeros k ++ PyStr.str i) /\
  PyStr.split (one c) (pre ++ String c (PyStr.zeros k ++ PyStr.str i))
    = Some (PyStr.split_go (one c) 0 "" (pre ++ String c (PyStr.zeros k ++ PyStr.str i))) /\
  PyStr.last_item
    (PyStr.split_go (one c) 0 "" (pre ++ String c (PyStr.zeros k ++ PyStr.str i)))
    = Some (PyStr.zeros k ++ PyStr.str i).
Proof.
  intros Hpre Hc Hdig He Hdot Hsep.
  set (body := PyStr.zeros k ++ PyStr.str i).
  assert (Hname : indexed_name pre c k i e = (pre ++ String c body) ++ String "." e).
  { unfold indexed_name. fold body. now rewrite !append_assoc. }
  assert (Hbody : occurs c body = false) by now apply occurs_padded.
  assert (Hslash : occurs PyPath.sep ((pre ++ String c body) ++ String "." e) = false).
  { rewrite !occurs_app, Hpre. cbn [occurs orb]. rewrite Hsep.
    unfold body. rewrite (@occurs_padded PyPath.sep k i eq_refl).
    destruct (Ascii.eqb_spec c PyPath.sep); [contradiction | reflexivity]. }
  assert (Hne : pre ++ String c body <> "") by (destruct pre; discriminate).
  destruct (suffix_stem_join d Hne He Hdot Hslash) as [Hsuf Hstem].
  rewrite Hname. repeat split; trivial.
  apply (@split_go_last c pre body "" Hbody).
Qed.

(** X2.  The key of a file named [<prefix><token><index>.<ext>] is
    the index, whatever the directory, the prefix (which may itself
    hold tokens and dots) and the number of zeros in front of the
    index; and the file has the extension [.<ext>]. *)
Theorem key_of_indexed_name d pre c k i e :
  occurs PyPath.sep pre = false ->
  c <> PyPath.sep ->
  PyStr.digit_value c = None ->
  e <> "" -> occurs "." e = false -> occurs PyPath.sep e = false ->
  get_alphanum_key (one c) (entry d (indexed_name pre c k i e)) = Ok (Z.of_nat i) /\
  has_format (String "." e) (entry d (indexed_name pre c k i e)) = true.
Proof.
  intros Hpre Hc Hdig He Hdot Hsep.
  destruct (@indexed_name_parts d pre c k i e Hpre Hc Hdig He Hdot Hsep)
    as (Hsuf & Hstem & Hsplit & Hlast).
  split.
  - eapply key_from_parts; [exact Hstem | exact Hsplit | exact Hlast |].
    apply int_padded.
  - unfold has_format. cbn [entry de_path]. rewrite Hsuf. apply String.eqb_refl.
Qed.

Lemma key_of_indexed_name_witness :
  get_alphanum_key "_" (entry "out/run.3" "fluid_block.v2_0012.vtk") = Ok 12%Z.
Proof.
  apply (@key_of_indexed_name "out/run.3" "fluid_block.v2" "_" 2 12 "vtk");
    reflexivity || discriminate.
Defined.

Lemma frame_name_indexed index :
  frame_name index
  = indexed_name "frame" "_" (5 - String.length (PyStr.str index)) index "png".
Proof.
  unfold frame_name, indexed_name.
  rewrite zfill_unsigned by apply str_unsigned.
  cbn [append]. now rewrite !append_assoc.
Qed.

(** The key of the still image of a position is the position. *)
Lemma frame_name_parts tmp_dir index :
  get_alphanum_key "_" (entry tmp_dir (frame_name index)) = Ok (Z.of_nat index) /\
  has_format ".png" (entry tmp_dir (frame_name index)) = true.
Proof.
  rewrite frame_name_indexed.
  destruct (@indexed_name_parts tmp_dir "frame" "_"
              (5 - String.length (PyStr.str index)) index "png")
    as (Hsuf & Hstem & Hsplit & Hlast); try reflexivity; try discriminate.
  split.
  - eapply key_from_parts; [exact Hstem | exact Hsplit | exact Hlast |].
    apply int_padded.
  - unfold has_format. cbn [entry de_path]. rewrite Hsuf. reflexivity.
Qed.

(** Two positions never share an image path. *)
Lemma image_path_injective tmp_dir i j :
  image_frame_path_of tmp_dir i = image_frame_path_of tmp_dir j -> i = j.
Proof.
  intros Heq.
  destruct (frame_name_parts tmp_dir i) as [Hi _].
  destruct (frame_name_parts tmp_dir j) as [Hj _].
  unfold get_alphanum_key in Hi, Hj. cbn [entry de_path] in Hi, Hj.
  unfold image_frame_path_of in Heq. rewrite Heq in Hi. rewrite Hi in Hj.
  injection Hj as Hj. lia.
Qed.

(** X3.  Round trip between the two functions: the key that
    [get_sorted_files] computes for a still image written by
    [create_movie_from_vtk] is the position of its snapshot, for
    every position, also beyond 99999; so [get_sorted_files] on the
    images would give back the order of the frames. *)
Theorem frame_name_key tmp_dir (positions : list nat) :
  (forall index,
      de_path (entry tmp_dir (frame_name index)) = image_frame_path_of tmp_dir index /\
      has_format ".png" (entry tmp_dir (frame_name index)) = true /\
      get_alphanum_key "_" (entry tmp_dir (frame_name index)) = Ok (Z.of_nat index)) /\
  (StronglySorted lt positions ->
   sorted (get_alphanum_key "_")
     (rev (map (fun index => entry tmp_dir (frame_name index)) positions))
   = Ok (map (fun index => entry tmp_dir (frame_name index)) positions)).
Proof.
  split.
  - intros index. destruct (frame_name_parts tmp_dir index) as [H1 H2].
    now repeat split.
  - intros Hs.
    apply sorted_any_order with (ks := map Z.of_nat positions).
    + rewrite !map_map. apply map_ext. intros index. apply frame_name_parts.
    + clear -Hs. induction Hs as [| p ps _ IH Hall]; cbn; constructor; [exact IH |].
      rewrite Forall_forall in *. intros k Hk. apply in_map_iff in Hk.
      destruct Hk as (q & <- & Hq). specialize (Hall _ Hq). lia.
    + apply Permutation_rev.
Qed.

Lemma frame_name_key_witness :
  sorted (get_alphanum_key "_")
    [entry "/tmp/t" "frame_100002.png"; entry "/tmp/t" "frame_99996.png";
     entry "/tmp/t" "frame_00006.png"]
  = Ok [entry "/tmp/t" "frame_00006.png"; entry "/tmp/t" "frame_99996.png";
        entry "/tmp/t" "frame_100002.png"].
Proof.
  destruct (@frame_name_key "/tmp/t" [6; 99996; 100002]) as [_ H].
  assert (Hs : StronglySorted lt [6; 99996; 100002]).
  { apply SSorted_cons;
      [apply SSorted_cons; [apply SSorted_cons; [apply SSorted_nil | apply Forall_nil] |] |];
      repeat (apply Forall_cons; [apply Nat.ltb_lt; vm_compute; reflexivity |]);
      apply Forall_nil. }
  specialize (H Hs). vm_compute in H. vm_compute. exact H.
Defined.

End KeyFacts.

(** ** Which files are listed *)

Section SelectionFacts.

Local Open Scope string_scope.

(** X12.  For an extension [.e] (non-empty [e] without a dot), an
    entry is selected exactly when its name is a non-empty stem
    followed by [.e]; so a file named just [.vtk] is not selected,
    and neither is [a.vtk.bak] or [a.VTK]. *)
Theorem has_format_iff d n e :
  occurs PyPath.sep n = false ->
  e <> "" -> occurs "." e = false ->
  (has_format (String "." e) (entry d n) = true <->
   exists s, s <> "" /\ n = s ++ String "." e).
Proof.
  intros Hn He Hdot. split.
  - unfold has_format, PyPath.suffix. cbn [entry de_path]. rewrite (name_join d n Hn).
    destruct (PyStr.rfind "." n) as [i |] eqn:Hr; [| discriminate].
    destruct (Nat.ltb_spec 0 i) as [H0 |]; [| discriminate]. cbn [andb].
    destruct (Nat.ltb_spec i (String.length n - 1)) as [H1 |]; [| discriminate].
    intros Heq. apply String.eqb_eq in Heq.
    exists (PyStr.take i n). split.
    + intros Hs. apply (f_equal String.length) in Hs.
      rewrite take_length in Hs by lia. cbn in Hs. lia.
    + rewrite <- Heq. symmetry. apply take_drop.
  - intros (s & Hs & ->). rewrite occurs_app in Hn.
    assert (Hsep : occurs PyPath.sep (s ++ String "." e) = false)
      by now rewrite occurs_app.
    unfold has_format. cbn [entry de_path].
    rewrite (proj1 (suffix_stem_join d Hs He Hdot Hsep)). apply String.eqb_refl.
Qed.

Lemma has_format_iff_witness :
  has_format ".vtk" (entry "out" "f_1.vtk") = true /\
  has_format ".vtk" (entry "out" ".vtk") = false /\
  has_format ".vtk" (entry "out" "f_1.vtk.bak") = false.
Proof.
  split; [| split; reflexivity].
  apply (@has_format_iff "out" "f_1.vtk" "vtk"); try reflexivity; try discriminate.
  exists "f_1". split; [discriminate | reflexivity].
Defined.

(** X13.  An extension that is not empty and does not start with a
    dot, such as the default ["name"] or ["vtk"], selects no file:
    for every directory that exists and can be listed the result is
    the empty list, and no name is parsed. *)
Theorem format_without_dot env d fmt tok names :
  path_exists env d = true ->
  listdir env d = Some names ->
  fmt <> "" -> PyStr.starts_with "." fmt = false ->
  forall s, fst (get_sorted_files env d fmt tok s) = Ok [].
Proof.
  intros Hex Hls Hne Hdot s. rewrite get_sorted_files_run, Hex, Hls. cbn [fst].
  assert (Hnone : filter (has_format fmt) (map (entry d) names) = []).
  { clear Hls. induction names as [| n names IH]; [reflexivity |].
    cbn [map filter]. rewrite IH. unfold has_format.
    destruct (String.eqb_spec (PyPath.suffix (de_path (entry d n))) fmt) as [Heq |];
      [| reflexivity].
    destruct (suffix_shape (de_path (entry d n))) as [H | (e & H & _)];
      rewrite H in Heq; subst fmt; [contradiction | discriminate]. }
  now rewrite Hnone.
Qed.

Lemma format_without_dot_witness :
  fst (get_sorted_files (world "out" ["f_1.vtk"; "f_abc.vtk"]) "out" "name" "_"
         init_state) = Ok [] /\
  fst (get_sorted_files (world "out" ["f_1.vtk"; "f_abc.vtk"]) "out" "vtk" "_"
         init_state) = Ok [].
Proof.
  split.
  - generalize init_state.
    apply (@format_without_dot (world "out" ["f_1.vtk"; "f_abc.vtk"]) "out" "name" "_"
             ["f_1.vtk"; "f_abc.vtk"]); reflexivity || discriminate.
  - reflexivity.
Defined.

End SelectionFacts.


(** ** Listings that are already in order *)

(** X14.  If the matching files are enumerated in ascending order of
    their index, equal indices allowed, [get_sorted_files] returns
    them in the order of the enumeration. *)
Theorem ordered_listing_kept env d fmt tok names ks :
  path_exists env d = true ->
  listdir env d = Some names ->
  map (get_alphanum_key tok) (filter (has_format fmt) (map (entry d) names))
    = map (@Ok Z) ks ->
  Sorted Z.le ks ->
  forall s,
    fst (get_sorted_files env d fmt tok s)
    = Ok (filter (has_format fmt) (map (entry d) names)).
Proof.
  intros Hex Hls Hk Hs s. rewrite get_sorted_files_run, Hex, Hls. cbn [fst].
  now apply sorted_ascending_input with (ks := ks).
Qed.

Lemma ordered_listing_kept_witness :
  fst (get_sorted_files (world "out" ["a_1.vtk"; "notes.txt"; "b_1.vtk"; "a_2.vtk"])
         "out" ".vtk" "_" init_state)
  = Ok [entry "out" "a_1.vtk"; entry "out" "b_1.vtk"; entry "out" "a_2.vtk"].
Proof.
  generalize init_state.
  apply (@ordered_listing_kept
           (world "out" ["a_1.vtk"; "notes.txt"; "b_1.vtk"; "a_2.vtk"])
           "out" ".vtk" "_" ["a_1.vtk"; "notes.txt"; "b_1.vtk"; "a_2.vtk"]
           [1; 1; 2]%Z); try reflexivity.
  repeat constructor; lia.
Defined.

Lemma of_nat_seq_sorted n : forall a, StronglySorted Z.lt (map Z.of_nat (seq a n)).
Proof.
  induction n as [| n IH]; intros a; cbn; constructor; [apply IH |].
  apply Forall_forall. intros k Hk. apply in_map_iff in Hk.
  destruct Hk as (i & <- & Hi). apply in_seq in Hi. lia.
Qed.

(** X1.  The purpose stated in the docstring: a directory that holds
    [name_0.vtk], ..., [name_(n-1).vtk], enumerated in any order, is
    listed in the order of the numbers, not of the names. *)
Theorem series_listed_in_order env d pre n names :
  occurs PyPath.sep pre = false ->
  path_exists env d = true ->
  listdir env d = Some names ->
  Permutation names (series pre n) ->
  forall s,
    fst (get_sorted_files env d ".vtk" "_" s) = Ok (map (entry d) (series pre n)).
Proof.
  intros Hpre Hex Hls Hperm s. rewrite get_sorted_files_run, Hex, Hls. cbn [fst].
  assert (Hall : forall i,
             get_alphanum_key "_" (entry d (indexed_name pre "_" 0 i "vtk"))
               = Ok (Z.of_nat i) /\
             has_format ".vtk" (entry d (indexed_name pre "_" 0 i "vtk")) = true).
  { intros i.
    destruct (@indexed_name_parts d pre "_" 0 i "vtk")
      as (Hsuf & Hstem & Hsplit & Hlast); trivial; try reflexivity; try discriminate.
    split.
    - eapply key_from_parts; [exact Hstem | exact Hsplit | exact Hlast |].
      apply int_padded.
    - unfold has_format. cbn [entry de_path]. rewrite Hsuf. reflexivity. }
  apply sorted_any_order with (ks := map Z.of_nat (seq 0 n)).
  - unfold series. rewrite !map_map. apply map_ext. intros i. apply Hall.
  - apply of_nat_seq_sorted.
  - rewrite <- (forallb_filter_id (has_format ".vtk") (map (entry d) (series pre n))).
    + apply Permutation_filter_compat, Permutation_map. now symmetry.
    + apply forallb_forall. intros f Hf. unfold series in Hf. rewrite map_map in Hf.
      apply in_map_iff in Hf. destruct Hf as (i & <- & _). apply Hall.
Qed.

Lemma series_listed_in_order_witness :
  rev (series "name" 11)
  = ["name_10.vtk"; "name_9.vtk"; "name_8.vtk"; "name_7.vtk"; "name_6.vtk";
     "name_5.vtk"; "name_4.vtk"; "name_3.vtk"; "name_2.vtk"; "name_1.vtk";
     "name_0.vtk"] /\
  fst (get_sorted_files (world "out" (rev (series "name" 11))) "out" ".vtk" "_"
         init_state)
  = Ok (map (entry "out")
          ["name_0.vtk"; "name_1.vtk"; "name_2.vtk"; "name_3.vtk"; "name_4.vtk";
           "name_5.vtk"; "name_6.vtk"; "name_7.vtk"; "name_8.vtk"; "name_9.vtk";
           "name_10.vtk"]).
Proof.
  split; [reflexivity |].
  generalize init_state.
  apply (@series_listed_in_order (world "out" (rev (series "name" 11)))
           "out" "name" 11 (rev (series "name" 11))); try reflexivity.
  symmetry. apply Permutation_rev.
Defined.

(** ** More on the sampling stride *)

Section StrideMore.

Local Open Scope Z_scope.

(** A quotient above one half rounds to at least one. *)
Lemma round_pos_ge_1 a b : 0 <= a -> 0 < b -> b < 2 * a -> 1 <= round_pos a b.
Proof.
  intros Ha Hb Hab. unfold round_pos.
  destruct (Z_lt_ge_dec a b) as [Hlt | Hge].
  - rewrite Z.div_small, Z.mod_small by lia.
    destruct (Z.compare_spec (2 * a) b); cbn; lia.
  - assert (1 <= a / b) by (apply Z.div_le_lower_bound; lia).
    destruct (2 * (a mod b) ?= b); try lia.
    destruct (Z.even (a / b)); lia.
Qed.

(** The stride is zero exactly from 120 frames per second on, in
    either direction. *)
Lemma round_div_zero_iff fps : fps <> 0 -> (round_div 60 fps = 0 <-> 120 <= Z.abs fps).
Proof.
  intros Hf. unfold round_div. change (Z.abs 60) with 60. change (Z.sgn 60) with 1.
  split.
  - intros H. destruct (Z_le_gt_dec 120 (Z.abs fps)) as [| Hlt]; [assumption |].
    assert (Hr : 1 <= round_pos 60 (Z.abs fps)) by (apply round_pos_ge_1; lia).
    set (r := round_pos 60 (Z.abs fps)) in *.
    destruct fps; cbn [Z.sgn] in H; lia.
  - intros H. rewrite (@round_pos_small 60 (Z.abs fps)) by lia. lia.
Qed.

Lemma round_div_opp fps : round_div 60 (- fps) = - round_div 60 fps.
Proof. unfold round_div. rewrite Z.sgn_opp, Z.abs_opp. lia. Qed.

End StrideMore.

(** X9.  The sign of [fps] does not change the sampling: [-fps]
    selects the positions that [fps] selects. *)
Theorem negative_fps_same_sample fps index :
  is_sampled (- fps) index = is_sampled fps index.
Proof.
  destruct (Z.eq_dec fps 0) as [-> | Hf]; [reflexivity |].
  unfold is_sampled. rewrite !sampling_stride_exact by lia.
  rewrite round_div_opp. unfold py_mod.
  destruct (Z.eqb_spec (round_div 60 fps) 0) as [-> | Hs]; [reflexivity |].
  destruct (Z.eqb_spec (- round_div 60 fps) 0) as [| _]; [lia |].
  destruct (Z.eqb_spec (Z.of_nat index mod round_div 60 fps) 0) as [H0 | Hn].
  - rewrite (Z.mod_opp_r_z _ _ Hs H0). reflexivity.
  - rewrite (Z.mod_opp_r_nz _ _ Hs Hn).
    pose proof (Z.mod_bound_or (Z.of_nat index) (round_div 60 fps) Hs).
    apply Z.eqb_neq. lia.
Qed.

(** ** Positions sampled *)

Section Positions.

Local Open Scope nat_scope.

Lemma ceil_div_succ s n :
  1 <= s ->
  (S n + s - 1) / s = (n + s - 1) / s + (if n mod s =? 0 then 1 else 0) /\
  (n mod s = 0 -> n = s * ((n + s - 1) / s)).
Proof.
  intros Hs.
  pose proof (Nat.div_mod_eq n s) as Hn.
  pose proof (Nat.mod_upper_bound n s ltac:(lia)) as Hr.
  set (q := n / s) in *. set (r := n mod s) in *.
  destruct (Nat.eqb_spec r 0) as [Hz | Hnz].
  - assert (H1 : (n + s - 1) / s = q).
    { symmetry. apply (Nat.div_unique _ _ _ (s - 1)); lia. }
    assert (H2 : (S n + s - 1) / s = S q).
    { symmetry. apply (Nat.div_unique _ _ _ 0); lia. }
    rewrite H1, H2. split; lia.
  - assert (H1 : (n + s - 1) / s = S q).
    { symmetry. apply (Nat.div_unique _ _ _ (r - 1)); lia. }
    assert (H2 : (S n + s - 1) / s = S q).
    { symmetry. apply (Nat.div_unique _ _ _ r); lia. }
    rewrite H1, H2. split; lia.
Qed.

(** The multiples of [s] below [n]. *)
Lemma multiples_below s n :
  1 <= s ->
  filter (fun i => i mod s =? 0) (seq 0 n)
  = map (fun k => s * k) (seq 0 ((n + s - 1) / s)).
Proof.
  intros Hs. induction n as [| n IH].
  - cbn [seq filter]. rewrite Nat.add_0_l, Nat.div_small by lia. reflexivity.
  - destruct (ceil_div_succ n Hs) as [Hc Hm]. rewrite Hc.
    rewrite seq_S, filter_app, IH, Nat.add_0_l. cbn [filter].
    destruct (Nat.eqb_spec (n mod s) 0) as [Hz | Hnz].
    + rewrite Nat.add_1_r, seq_S, map_app, Nat.add_0_l. cbn [map].
      now rewrite <- (Hm Hz).
    + now rewrite Nat.add_0_r, app_nil_r.
Qed.

Lemma stride_positive fps : (0 < fps < 120)%Z -> (1 <= round_div 60 fps)%Z.
Proof.
  intros Hfps. unfold round_div. change (Z.abs 60) with 60%Z.
  rewrite Z.abs_eq by lia.
  assert (1 <= round_pos 60 fps)%Z by (apply round_pos_ge_1; lia).
  rewrite Z.sgn_pos by lia. change (Z.sgn 60) with 1%Z. lia.
Qed.

(** The positions sampled are the multiples of the stride. *)
Lemma sampled_multiples fps (files : list DirEntry) :
  (0 < fps < 120)%Z ->
  map fst (sampled fps (enumerate files))
  = map (fun k => Z.to_nat (round_div 60 fps) * k)
        (seq 0 ((List.length files + Z.to_nat (round_div 60 fps) - 1)
                / Z.to_nat (round_div 60 fps))).
Proof.
  intros Hfps. pose proof (stride_positive Hfps) as Hs.
  set (s := Z.to_nat (round_div 60 fps)).
  assert (Hs' : 1 <= s) by (subst s; lia).
  rewrite sampled_positions, <- (multiples_below (List.length files) Hs').
  apply filter_ext. intros i. rewrite is_sampled_exact by lia.
  replace (round_div 60 fps) with (Z.of_nat s) by (subst s; lia).
  rewrite <- Nat2Z.inj_mod.
  destruct (Nat.eqb_spec (i mod s) 0) as [-> | Hn]; [reflexivity |].
  apply Z.eqb_neq. lia.
Qed.

Lemma sampled_count fps (files : list DirEntry) :
  (0 < fps < 120)%Z ->
  List.length (sampled fps (enumerate files))
  = (List.length files + Z.to_nat (round_div 60 fps) - 1) / Z.to_nat (round_div 60 fps).
Proof.
  intros Hfps.
  rewrite <- (length_map fst), (sampled_multiples files Hfps), length_map.
  apply length_seq.
Qed.

(** X7.  For [fps] from 1 to 119 the stride [s] is at least 1 and,
    of [n] files, the files at positions [0, s, 2s, ...] are sampled:
    [ceil(n / s)] files, the first file always among them. *)
Theorem sampled_positions_formula fps (files : list DirEntry) :
  (0 < fps < 120)%Z ->
  1 <= Z.to_nat (round_div 60 fps) /\
  map fst (sampled fps (enumerate files))
  = map (fun k => Z.to_nat (round_div 60 fps) * k)
        (seq 0 ((List.length files + Z.to_nat (round_div 60 fps) - 1)
                / Z.to_nat (round_div 60 fps))) /\
  List.length (sampled fps (enumerate files))
  = (List.length files + Z.to_nat (round_div 60 fps) - 1) / Z.to_nat (round_div 60 fps) /\
  (files <> [] -> exists rest, map fst (sampled fps (enumerate files)) = 0 :: rest).
Proof.
  intros Hfps. pose proof (stride_positive Hfps) as Hs.
  split; [lia |]. split; [now apply sampled_multiples |].
  split; [now apply sampled_count |].
  intros Hne. rewrite (sampled_multiples files Hfps).
  destruct files as [| f files]; [contradiction |].
  set (s := Z.to_nat (round_div 60 fps)).
  assert (Hc : 1 <= (List.length (f :: files) + s - 1) / s).
  { apply Nat.div_le_lower_bound; [subst s; lia |]. cbn [List.length]. lia. }
  destruct ((List.length (f :: files) + s - 1) / s) as [| c]; [lia |].
  cbn [seq map]. rewrite Nat.mul_0_r. now eexists.
Qed.

Lemma sampled_positions_formula_witness :
  map fst (sampled 25 (enumerate (map (entry "out") (numbered 7)))) = [0; 2; 4; 6].
Proof.
  destruct (@sampled_positions_formula 25 (map (entry "out") (numbered 7)))
    as (_ & H & _); [lia |].
  rewrite H. reflexivity.
Defined.

Lemma ceil_div_antitone n s1 s2 :
  1 <= s1 -> s1 <= s2 -> (n + s2 - 1) / s2 <= (n + s1 - 1) / s1.
Proof.
  intros H1 H12.
  pose proof (Nat.div_mod_eq (n + s1 - 1) s1) as Hd.
  pose proof (Nat.mod_upper_bound (n + s1 - 1) s1 ltac:(lia)) as Hr.
  set (q := (n + s1 - 1) / s1) in *.
  apply Nat.lt_succ_r. apply Nat.Div0.div_lt_upper_bound. nia.
Qed.

(** From one frame rate to the next the stride does not grow. *)
Lemma stride_step :
  forallb (fun k => (round_div 60 (Z.of_nat (S k)) <=? round_div 60 (Z.of_nat k))%Z)
          (seq 1 119) = true.
Proof. vm_compute. reflexivity. Qed.

Lemma stride_antitone f1 f2 :
  (0 < f1)%Z -> (f1 <= f2)%Z -> (f2 <= 120)%Z ->
  (round_div 60 f2 <= round_div 60 f1)%Z.
Proof.
  intros H1 H12 H2.
  replace f2 with (f1 + Z.of_nat (Z.to_nat (f2 - f1)))%Z by lia.
  assert (Hb : (f1 + Z.of_nat (Z.to_nat (f2 - f1)) <= 120)%Z) by lia.
  revert Hb. generalize (Z.to_nat (f2 - f1)). intros m.
  induction m as [| m IH]; intros Hb.
  - rewrite Z.add_0_r. lia.
  - etransitivity; [| apply IH; lia].
    pose proof stride_step as Hstep. rewrite forallb_forall in Hstep.
    specialize (Hstep (Z.to_nat (f1 + Z.of_nat m))).
    rewrite in_seq in Hstep.
    assert (Hin : 1 <= Z.to_nat (f1 + Z.of_nat m) < 1 + 119) by lia.
    apply Hstep in Hin. apply Z.leb_le in Hin.
    replace (Z.of_nat (S (Z.to_nat (f1 + Z.of_nat m))))
      with (f1 + Z.of_nat (S m))%Z in Hin by lia.
    replace (Z.of_nat (Z.to_nat (f1 + Z.of_nat m)))
      with (f1 + Z.of_nat m)%Z in Hin by lia.
    exact Hin.
Qed.

(** X8.  Between 1 and 119 frames per second a higher rate never
    gives a larger stride, and never samples fewer files. *)
Theorem higher_fps_more_frames f1 f2 (files : list DirEntry) :
  (0 < f1)%Z -> (f1 <= f2)%Z -> (f2 < 120)%Z ->
  sampling_stride f1 = Ok (round_div 60 f1) /\
  sampling_stride f2 = Ok (round_div 60 f2) /\
  (1 <= round_div 60 f2 <= round_div 60 f1)%Z /\
  List.length (sampled f1 (enumerate files)) <= List.length (sampled f2 (enumerate files)).
Proof.
  intros H1 H12 H2.
  assert (Ha : (round_div 60 f2 <= round_div 60 f1)%Z) by (apply stride_antitone; lia).
  assert (Hs2 : (1 <= round_div 60 f2)%Z) by (apply stride_positive; lia).
  split; [apply sampling_stride_exact; lia |].
  split; [apply sampling_stride_exact; lia |].
  split; [lia |].
  rewrite !sampled_count by lia. apply ceil_div_antitone; lia.
Qed.

Lemma higher_fps_more_frames_witness :
  List.length (sampled 10 (enumerate (map (entry "out") (numbered 20))))
  <= List.length (sampled 30 (enumerate (map (entry "out") (numbered 20)))).
Proof.
  apply (@higher_fps_more_frames 10 30 (map (entry "out") (numbered 20))); lia.
Defined.

End Positions.

(** ** More on the whole call *)

Lemma NoDup_map_injective (A B : Type) (f : A -> B) (l : list A) :
  (forall x y, f x = f y -> x = y) -> NoDup l -> NoDup (map f l).
Proof.
  intros Hinj. induction 1 as [| x l Hx _ IH]; cbn; constructor; [| exact IH].
  intros Hin. apply in_map_iff in Hin. destruct Hin as (y & Hy & Hin).
  apply Hinj in Hy. now subst.
Qed.

Section RunMore.

Variable env : Env.
Variables d movie : string.
Variable vd : bool.
Variable style : Style.
Variable camera : Camera.
Variable fps : Z.

Local Abbreviation run :=
  (create_movie_from_vtk env d movie vd style camera fps init_state).

(** X4.  In a call that returns, the still images are written under
    pairwise distinct paths: no frame overwrites another, and the
    encoder is given no path twice. *)
Theorem frames_distinct :
  fst run = Ok tt ->
  NoDup (screenshot_paths (trace (snd run))) /\
  encoder_calls (trace (snd run)) = [(screenshot_paths (trace (snd run)), fps)].
Proof.
  intros Hok.
  destruct (@run_returns env d movie vd style camera fps Hok)
    as (files & tmp & _ & _ & Htr).
  destruct (prelude_quiet d vd camera) as (_ & Hs & He & _).
  assert (Hshots : screenshot_paths (trace (snd run))
                   = map (fun it => image_frame_path_of tmp (fst it))
                         (sampled fps (enumerate files))).
  { rewrite Htr, !screenshot_paths_app, Hs, screenshot_paths_frames. cbn.
    now rewrite app_nil_r. }
  split.
  - rewrite Hshots, <- (map_map fst (image_frame_path_of tmp)).
    apply NoDup_map_injective.
    + intros i j. apply image_path_injective.
    + rewrite sampled_positions. apply NoDup_filter, seq_NoDup.
  - rewrite Hshots, Htr, !encoder_calls_app, He, encoder_calls_frames. reflexivity.
Qed.

(** The loop raises [ZeroDivisionError] only if the stride cannot be
    computed or is zero. *)
Lemma frame_loop_stride tmp stride items :
  sampling_stride fps = Ok stride -> stride <> 0%Z ->
  forall frames s e s',
    frame_loop env d style fps tmp items frames s = (Raise e, s') ->
    e <> ZeroDivisionError.
Proof.
  intros Hst Hnz. induction items as [| it rest IH]; intros frames s e s' H;
    [discriminate |].
  rewrite frame_loop_cons in H. destruct (is_sampled fps (fst it)).
  - cbv zeta in H.
    destruct (read_ok env _); [| injection H as <- _; discriminate].
    destruct (add_mesh_ok env _); [| injection H as <- _; discriminate].
    destruct (screenshot_ok env _); [| injection H as <- _; discriminate].
    eapply IH, H.
  - rewrite Hst in H. unfold py_mod in H.
    destruct (Z.eqb_spec stride 0); [contradiction |]. eapply IH, H.
Qed.

(** X6.  When the listing returns at least one file and the calls
    before the loop return, the call raises [ZeroDivisionError]
    exactly when [fps] is 0 or at least 120 in absolute value. *)
Theorem zero_division_iff files :
  fst (get_sorted_files env d ".vtk" "_" init_state) = Ok files ->
  files <> [] ->
  (vd = true -> xvfb_ok env = true) ->
  plotter_ok env = true ->
  camera_ok env camera = true ->
  mkdtemp env <> None ->
  (fst run = Raise ZeroDivisionError <-> fps = 0%Z \/ (120 <= Z.abs fps)%Z).
Proof.
  intros Hfiles Hne Hx Hp Hc Ht.
  destruct (@set_up_intro env d vd camera files Hx Hfiles Hp Hc Ht) as [tmp Hset].
  rewrite (@run_loop env d movie vd style camera fps files tmp Hset).
  split.
  - intros Hres. destruct (Z.eq_dec fps 0) as [| Hf]; [now left | right].
    apply (round_div_zero_iff Hf).
    destruct (Z.eq_dec (round_div 60 fps) 0) as [| Hs]; [assumption | exfalso].
    destruct (frame_loop env d style fps tmp (enumerate files) []
                (loop_start d vd camera tmp)) as [[frames | e] s'] eqn:Hloop.
    + cbn [after_loop] in Hres.
      destruct (encode_ok env frames fps); [| discriminate].
      destruct (write_ok env movie); discriminate.
    + cbn [after_loop fst] in Hres. injection Hres as ->.
      now apply (frame_loop_stride tmp (enumerate files) (sampling_stride_exact Hf) Hs)
        in Hloop.
  - intros Hfps. destruct files as [| f rest]; [contradiction |].
    change (enumerate (f :: rest))
      with ((0, f) :: combine (seq 1 (List.length rest)) rest).
    rewrite frame_loop_cons. unfold is_sampled.
    destruct (Z.eq_dec fps 0) as [-> | Hf]; [reflexivity |].
    destruct Hfps as [| Hfps]; [contradiction |].
    rewrite (sampling_stride_exact Hf), (proj2 (round_div_zero_iff Hf) Hfps).
    reflexivity.
Qed.


(** X5.  With no matching file the sampling test is never
    evaluated: whatever [fps] is, zero included, nothing is read, no
    [ZeroDivisionError] is raised, and the encoder is called with the
    empty list. *)
Theorem empty_listing :
  fst (get_sorted_files env d ".vtk" "_" init_state) = Ok [] ->
  (vd = true -> xvfb_ok env = true) ->
  plotter_ok env = true ->
  camera_ok env camera = true ->
  mkdtemp env <> None ->
  read_paths (trace (snd run)) = [] /\
  screenshot_paths (trace (snd run)) = [] /\
  encoder_calls (trace (snd run)) = [([], fps)] /\
  fst run =
    (if encode_ok env [] fps then
       if write_ok env movie then Ok tt else Raise (CollaboratorError WriteVideo)
     else Raise (CollaboratorError Encode)).
Proof.
  intros Hfiles Hx Hp Hc Ht.
  destruct (@set_up_intro env d vd camera [] Hx Hfiles Hp Hc Ht) as [tmp Hset].
  rewrite (@run_loop env d movie vd style camera fps [] tmp Hset).
  cbn [enumerate List.length seq combine frame_loop ret after_loop].
  destruct (prelude_quiet d vd camera) as (Hr & Hs & He & _).
  destruct (encode_ok env [] fps); [destruct (write_ok env movie) |];
    cbn [fst snd cleanup log trace loop_start];
    rewrite !read_paths_app, !screenshot_paths_app, !encoder_calls_app, Hr, Hs, He;
    now repeat split.
Qed.


(** X10.  An exception of the listing (missing directory, misnamed
    file, failing [os.scandir]) leaves [create_movie_from_vtk]
    unchanged, after the virtual display was started and before a
    plotter or a temporary directory is made. *)
Theorem listing_error_propagates e :
  fst (get_sorted_files env d ".vtk" "_" init_state) = Raise e ->
  (vd = true -> xvfb_ok env = true) ->
  fst run = Raise e /\
  trace (snd run)
  = (if vd then [EvStartXvfb] else []) ++
    EvBackground "white" :: trace (snd (get_sorted_files env d ".vtk" "_" init_state)) /\
  plotter_open (snd run) = false /\
  tmp_dirs (snd run) = [] /\
  disk (snd run) = [].
Proof.
  intros He Hx. rewrite get_sorted_files_run in *.
  unfold create_movie_from_vtk, bind, pv_start_xvfb, pv_set_background, call, ret.
  destruct vd; [rewrite (Hx eq_refl) |]; cbn beta iota;
    rewrite get_sorted_files_run;
    (destruct (path_exists env d);
     [destruct (listdir env d) as [names |];
      [destruct (sorted _ _) as [files |]; [discriminate He |] |] |]);
    cbn [fst] in He; injection He as <-; now repeat split.
Qed.


End RunMore.

Lemma zero_division_iff_witness :
  fst (create_movie_from_vtk (world "out" ["f_0.vtk"; "f_1.vtk"])
         "out" "movie.mp4" true plain_style CameraUnset 0 init_state)
    = Raise ZeroDivisionError /\
  fst (create_movie_from_vtk (world "out" ["f_0.vtk"; "f_1.vtk"])
         "out" "movie.mp4" true plain_style CameraUnset 119 init_state)
    <> Raise ZeroDivisionError.
Proof.
  split; [| discriminate].
  apply (@zero_division_iff (world "out" ["f_0.vtk"; "f_1.vtk"])
           "out" "movie.mp4" true plain_style CameraUnset 0%Z
           [entry "out" "f_0.vtk"; entry "out" "f_1.vtk"]);
    try reflexivity; try discriminate. now left.
Defined.

Lemma empty_listing_witness :
  fst (create_movie_from_vtk (world "out" ["notes.txt"])
         "out" "movie.mp4" true plain_style CameraUnset 0 init_state) = Ok tt.
Proof.
  destruct (@empty_listing (world "out" ["notes.txt"])
              "out" "movie.mp4" true plain_style CameraUnset 0%Z)
    as (_ & _ & _ & H);
    [reflexivity | reflexivity | reflexivity | reflexivity | discriminate | exact H].
Defined.

Lemma listing_error_propagates_witness :
  fst (create_movie_from_vtk (world "out" ["f_0.vtk"])
         "nowhere" "movie.mp4" true plain_style CameraUnset 10 init_state)
    = Raise (IOError "Directory 'nowhere' does not exist.") /\
  trace (snd (create_movie_from_vtk (world "out" ["f_0.vtk"])
                "nowhere" "movie.mp4" true plain_style CameraUnset 10 init_state))
    = [EvStartXvfb; EvBackground "white"; EvExists "nowhere"].
Proof.
  destruct (@listing_error_propagates (world "out" ["f_0.vtk"])
              "nowhere" "movie.mp4" true plain_style CameraUnset 10%Z
              (IOError "Directory 'nowhere' does not exist."))
    as (H1 & H2 & _); [reflexivity | reflexivity |].
  split; [exact H1 | exact H2].
Defined.

Lemma add_mesh_calls_app tr1 tr2 :
  add_mesh_calls (tr1 ++ tr2) = add_mesh_calls tr1 ++ add_mesh_calls tr2.
Proof. apply flat_map_app. Qed.

Lemma camera_calls_app tr1 tr2 :
  camera_calls (tr1 ++ tr2) = camera_calls tr1 ++ camera_calls tr2.
Proof. apply flat_map_app. Qed.

Lemma add_mesh_calls_frames d style tmp l :
  add_mesh_calls (flat_map (frame_events d style tmp) l)
  = map (fun it => (frame_path_of d (snd it), "fluid_block_snapshot", style)) l.
Proof. induction l as [| it l IH]; cbn; [reflexivity | f_equal; exact IH]. Qed.

Lemma camera_calls_frames d style tmp l :
  camera_calls (flat_map (frame_events d style tmp) l) = [].
Proof. induction l as [| it l IH]; cbn; [reflexivity | exact IH]. Qed.

(** X11.  In a call that returns: the camera is set once; every
    [add_mesh] is given the mesh of the file just read, under the one
    actor name ["fluid_block_snapshot"] and with the style of the
    call; and the encoder is given the images written before it, the
    video is written, and only then is the temporary directory
    removed. *)
Theorem calls_of_returning_run env d movie vd style camera fps :
  fst (create_movie_from_vtk env d movie vd style camera fps init_state) = Ok tt ->
  exists tmp before,
    mkdtemp env = Some tmp /\
    trace (snd (create_movie_from_vtk env d movie vd style camera fps init_state))
    = before ++
      [EvClosePlotter; EvEncode (screenshot_paths before) fps;
       EvWriteVideo movie; EvCleanup tmp] /\
    camera_calls before = [camera] /\
    add_mesh_calls before
    = map (fun p => (p, "fluid_block_snapshot", style)) (read_paths before) /\
    List.length (screenshot_paths before) = List.length (read_paths before).
Proof.
  intros Hok.
  destruct (@run_returns env d movie vd style camera fps Hok)
    as (files & tmp & _ & Hmk & Htr).
  exists tmp,
    (prelude d vd camera ++
     flat_map (frame_events d style tmp) (sampled fps (enumerate files))).
  destruct (prelude_quiet d vd camera) as (Hr & Hs & _ & _).
  split; [exact Hmk |].
  rewrite screenshot_paths_app, read_paths_app, add_mesh_calls_app, camera_calls_app.
  rewrite Hr, Hs, screenshot_paths_frames, read_paths_frames, add_mesh_calls_frames,
    camera_calls_frames.
  cbn [app]. repeat split.
  - rewrite Htr. now rewrite <- app_assoc.
  - now destruct vd.
  - replace (add_mesh_calls (prelude d vd camera)) with (@nil (string * string * Style))
      by now destruct vd.
    cbn [app]. now rewrite map_map.
  - now rewrite !length_map.
Qed.

Lemma calls_of_returning_run_witness :
  add_mesh_calls
    (trace (snd (create_movie_from_vtk (world "/data" ["f_1.vtk"; "f_0.vtk"])
                   "/data" "movie.mp4" false plain_style (CameraPlane "xy") 60
                   init_state)))
  = [("/data/f_0.vtk", "fluid_block_snapshot", plain_style);
     ("/data/f_1.vtk", "fluid_block_snapshot", plain_style)].
Proof.
  destruct (@calls_of_returning_run (world "/data" ["f_1.vtk"; "f_0.vtk"])
              "/data" "movie.mp4" false plain_style (CameraPlane "xy") 60%Z eq_refl)
    as (tmp & before & _ & Htr & _ & Hadd & _).
  rewrite Htr, add_mesh_calls_app, Hadd. cbn [add_mesh_calls flat_map app].
  rewrite app_nil_r.
  assert (Hrd : read_paths before = ["/data/f_0.vtk"; "/data/f_1.vtk"]).
  { apply (f_equal read_paths) in Htr. rewrite read_paths_app in Htr.
    cbn [read_paths flat_map app] in Htr. rewrite app_nil_r in Htr.
    rewrite <- Htr. reflexivity. }
  now rewrite Hrd.
Defined.

Lemma frames_distinct_witness :
  NoDup
    (screenshot_paths
       (trace (snd (create_movie_from_vtk (world "out" (numbered 5))
                      "out" "movie.mp4" true plain_style CameraUnset 30 init_state)))).
Proof.
  apply (@frames_distinct (world "out" (numbered 5))
           "out" "movie.mp4" true plain_style CameraUnset 30%Z).
  reflexivity.
Defined.
